(** * ChronoTune: the year resolver and the placement engine

    A shallow embedding of [chronotune.py] (classes
    [EnhancedMusicIdentifier] and [UltraMusicFilter]) and the properties
    of its year-resolution waterfall, its search strategies, its token-set
    similarity, its cache and its collision-avoiding move.

    Conventions of the embedding.
    - A Python [str] is a [string]; each character is read as a code point
      below 256, with Python's classification of those code points
      (whitespace, decimal digits, case).
    - A finite Python [float] is the rational of [Q] that it stands for.
      A float that the program only compares or stores is written as such;
      where the program computes with floats (the scores of the
      candidates), each operation rounds its exact result as binary64
      does ([PyFloat.round]).
    - Python dictionaries and sets are [gmap]s and [gset]s.
    - The libraries the program calls ([hashlib], [mutagen], [spotipy],
      the clock, and [re] on the clean-up patterns) are fields of a record
      of capabilities; every call that may raise returns in [Exc]. The
      regular expressions made of character classes only (whitespace runs,
      non-word characters, the year tokens) are written out. *)

From Stdlib Require Import ZArith QArith Qround Qpower String Ascii List Lia.
From stdpp Require Import gmap strings list fin_maps pretty.

Set Warnings "-clear-no-such-hyp".

Open Scope string_scope.

(** ** Python strings *)

Module PyStr.

(** [str.isspace] on one character, for code points below 256. *)
Definition is_space (c : ascii) : bool :=
  let n := nat_of_ascii c in
  ((9 <=? n)%nat && (n <=? 13)%nat)
  || ((28 <=? n)%nat && (n <=? 32)%nat)
  || (n =? 133)%nat || (n =? 160)%nat.

(** [\d] of [re] on a [str] pattern: the decimal digits; below 256 these
    are ['0'] to ['9']. *)
Definition is_digit (c : ascii) : bool :=
  let n := nat_of_ascii c in (48 <=? n)%nat && (n <=? 57)%nat.

Definition is_empty (s : string) : bool :=
  match s with EmptyString => true | String _ _ => false end.

(** Truth value of a [str]. *)
Definition truthy (s : string) : bool := negb (is_empty s).

Definition snoc (s : string) (c : ascii) : string := s +:+ String c EmptyString.

(** [s.split()]: the maximal runs of non-whitespace characters. [cur] is
    the run being read. *)
Fixpoint split_go (s cur : string) : list string :=
  match s with
  | EmptyString => if is_empty cur then [] else [cur]
  | String c s' =>
      if is_space c
      then (if is_empty cur then split_go s' EmptyString
            else cur :: split_go s' EmptyString)
      else split_go s' (snoc cur c)
  end.

Definition split (s : string) : list string := split_go s EmptyString.

(** [s.split(sep)[0]] for a one-character separator. *)
Fixpoint before (sep : ascii) (s : string) : string :=
  match s with
  | EmptyString => EmptyString
  | String c s' => if Ascii.eqb c sep then EmptyString else String c (before sep s')
  end.

Fixpoint lstrip (s : string) : string :=
  match s with
  | EmptyString => EmptyString
  | String c s' => if is_space c then lstrip s' else s
  end.

Definition rstrip (s : string) : string := String.rev (lstrip (String.rev s)).

(** [s.strip()] *)
Definition strip (s : string) : string := rstrip (lstrip s).

(** [' '.join(ws)] *)
Fixpoint join (ws : list string) : string :=
  match ws with
  | [] => EmptyString
  | [w] => w
  | w :: ws' => w +:+ " " +:+ join ws'
  end.

(** [c in s] for a character. *)
Fixpoint contains (c : ascii) (s : string) : bool :=
  match s with
  | EmptyString => false
  | String d s' => Ascii.eqb c d || contains c s'
  end.

(** [s[:n]] *)
Definition prefix (n : nat) (s : string) : string := substring 0 n s.

(** [str.lower] on one character: the ASCII capitals and the capitals of
    the Latin-1 block (0xC0 to 0xDE, except the multiplication sign). *)
Definition lower_char (c : ascii) : ascii :=
  let n := nat_of_ascii c in
  if ((65 <=? n)%nat && (n <=? 90)%nat)
     || ((192 <=? n)%nat && (n <=? 222)%nat && negb (n =? 215)%nat)
  then ascii_of_nat (n + 32) else c.

Fixpoint lower (s : string) : string :=
  match s with
  | EmptyString => EmptyString
  | String c s' => String (lower_char c) (lower s')
  end.

(** [\w] of [re] on one character: [str.isalnum] or the underscore. *)
Definition is_word (c : ascii) : bool :=
  let n := nat_of_ascii c in
  ((48 <=? n)%nat && (n <=? 57)%nat)
  || ((65 <=? n)%nat && (n <=? 90)%nat)
  || ((97 <=? n)%nat && (n <=? 122)%nat)
  || (n =? 95)%nat
  || (n =? 170)%nat || (n =? 178)%nat || (n =? 179)%nat || (n =? 181)%nat
  || (n =? 185)%nat || (n =? 186)%nat
  || ((188 <=? n)%nat && (n <=? 190)%nat)
  || ((192 <=? n)%nat && (n <=? 214)%nat)
  || ((216 <=? n)%nat && (n <=? 246)%nat)
  || ((248 <=? n)%nat && (n <=? 255)%nat).

(** [re.sub(r'\s+', ' ', s)]: every maximal run of whitespace becomes one
    space. [in_run] tells whether the previous character was whitespace. *)
Fixpoint sub_spaces (s : string) (in_run : bool) : string :=
  match s with
  | EmptyString => EmptyString
  | String c s' =>
      if is_space c
      then (if in_run then sub_spaces s' true else String " " (sub_spaces s' true))
      else String c (sub_spaces s' false)
  end.

(** [re.sub(r'[^\w\s]', ' ', s)] *)
Fixpoint sub_non_word (s : string) : string :=
  match s with
  | EmptyString => EmptyString
  | String c s' =>
      String (if is_word c || is_space c then c else " "%char) (sub_non_word s')
  end.

(** The value of a decimal digit. *)
Definition digit_val (c : ascii) : Z := Z.of_nat (nat_of_ascii c) - 48.

(** [int(s)] for a string of decimal digits read left to right. *)
Fixpoint digits_val (acc : Z) (s : string) : Z :=
  match s with
  | EmptyString => acc
  | String c s' => digits_val (10 * acc + digit_val c) s'
  end.

End PyStr.

(** ** Token-set similarity *)

(** [len(a) / len(b)] for two sizes, [b] not zero: the quotient, in lowest
    terms. *)
Definition ratio (a b : nat) : Q := Qred (Z.of_nat a # Pos.of_nat b).

(** [_similarity]:
<<
    if not s1 or not s2: return 0.0
    s1_words = set(s1.split()); s2_words = set(s2.split())
    if not s1_words or not s2_words: return 0.0
    intersection = s1_words.intersection(s2_words)
    union = s1_words.union(s2_words)
    return len(intersection) / len(union) if union else 0.0
>> *)
Definition _similarity (s1 s2 : string) : Q :=
  if PyStr.is_empty s1 || PyStr.is_empty s2 then 0
  else
    let s1_words : gset string := list_to_set (PyStr.split s1) in
    let s2_words : gset string := list_to_set (PyStr.split s2) in
    if bool_decide (s1_words = ∅) || bool_decide (s2_words = ∅) then 0
    else
      let intersection := s1_words ∩ s2_words in
      let union := s1_words ∪ s2_words in
      if bool_decide (union = ∅) then 0
      else ratio (size intersection) (size union).


(** ** Paths *)

(** A [pathlib.Path]: the components of the directory and the final
    component. *)
Record Path := mkPath { parent : list string; name : string }.

#[global] Instance Path_eq_dec : EqDecision Path.
Proof. solve_decision. Defined.

#[global] Instance Path_countable : Countable Path.
Proof.
  apply (inj_countable' (fun p => (parent p, name p))
                        (fun t => mkPath (fst t) (snd t))).
  intros []; reflexivity.
Defined.

(** [dir / name] *)
Definition child (d : list string) (n : string) : Path := mkPath d n.

(** [str(path)] *)
Definition path_str (p : Path) : string :=
  fold_right (fun d acc => d +:+ "/" +:+ acc) (name p) (parent p).

(** The index of the last dot of a name ([name.rfind('.')]); [i] is the
    index of the first character of [s]. *)
Fixpoint rfind_dot (s : string) (i : nat) (last : option nat) : option nat :=
  match s with
  | EmptyString => last
  | String c s' => rfind_dot s' (S i) (if Ascii.eqb c "." then Some i else last)
  end.

(** The index at which pathlib cuts a name into stem and suffix:
    [0 < i < len(name) - 1], otherwise the suffix is empty. *)
Definition cut (n : string) : nat :=
  match rfind_dot n 0 None with
  | Some i => if (0 <? i)%nat && (i <? String.length n - 1)%nat then i
              else String.length n
  | None => String.length n
  end.

(** [path.stem] and [path.suffix] of a name. *)
Definition stem (n : string) : string := substring 0 (cut n) n.
Definition suffix (n : string) : string :=
  substring (cut n) (String.length n - cut n) n.

(** ** Exceptions *)

Inductive Exc (A : Type) : Type :=
| Ok (a : A)
| Raise (e : string).
Arguments Ok {A} a.
Arguments Raise {A} e.

(** ** What the libraries return *)

(** [os.stat_result], the two fields read. *)
Record Stat := mkStat { st_size : N; st_mtime : Q }.

(** [audio.info]: the attributes the program probes with [hasattr]. *)
Record AudioInfo := mkInfo { info_length : option Q; info_bitrate : option Z }.

(** The tag dictionary of [EasyID3], [MP4] or [FLAC]: a key is absent or
    holds a list of values. *)
Record Tags := mkTags {
  tag_title : option (list string);
  tag_artist : option (list string);
  tag_album : option (list string);
  tag_genre : option (list string);
  tag_date : option (list string) }.

(** One item of [results['tracks']['items']]: its name, the names of its
    artists and the release date of its album when the key is there; or an
    item without the keys the scoring loop reads. *)
Inductive Track : Type :=
| TrackItem (track_name : string) (artists : list string)
            (release_date : option string)
| TrackMalformed.

(** The capabilities of the process. *)
Record Env := mkEnv {
  (** [hashlib.md5] fed with the byte strings of the list, then
      [hexdigest] *)
  md5_hexdigest : list string -> string;
  (** [s.encode()], to UTF-8. It raises [UnicodeEncodeError] on a string
      with a lone surrogate, which is what a file name has when the bytes
      of its directory entry are not valid UTF-8 ([os.fsdecode]). The
      strings here hold code points below 256 only: a name with a
      surrogate is a name on which this capability raises *)
  str_encode : string -> Exc string;
  (** [str] of a float *)
  float_str : Q -> string;
  (** [file_path.stat()] *)
  os_stat : Path -> Exc Stat;
  (** [re.sub(pattern, repl, s)] for the clean-up patterns, with
      [flags=re.I] when the flag is set *)
  re_sub : string -> string -> bool -> string -> string;
  (** [re.match(pattern, s)] for a pattern with two groups *)
  re_match : string -> string -> option (string * string);
  (** [MutagenFile(file_path)]; [None] is a falsy result *)
  MutagenFile : Path -> Exc (option AudioInfo);
  (** [EasyID3(file_path)], [MP4(file_path)], [FLAC(file_path)] *)
  EasyID3 : Path -> Exc Tags;
  MP4 : Path -> Exc Tags;
  FLAC : Path -> Exc Tags;
  (** [self.spotify.search(q=query, type='track', limit=15)], down to the
      list of items; a result without that list raises *)
  spotify_search : string -> Exc (list Track);
  (** [datetime.now().isoformat()] at the n-th reading of the clock *)
  now_isoformat : nat -> string }.

(** ** More of Python's built-ins *)

Module PyInt.

(** The digits of [int(s)]: decimal digits, single underscores allowed
    between two digits. [prev] tells whether the previous character was a
    digit. *)
Fixpoint digits (s : string) (acc : Z) (prev : bool) : option Z :=
  match s with
  | EmptyString => if prev then Some acc else None
  | String c s' =>
      if PyStr.is_digit c then digits s' (10 * acc + PyStr.digit_val c) true
      else if Ascii.eqb c "_" then (if prev then digits s' acc false else None)
      else None
  end.

(** The whitespace that [int] skips at both ends of a [str]: of the code
    points below 256, those of [str.isspace] except the separators 28 to
    31. *)
Definition is_space (c : ascii) : bool :=
  let n := nat_of_ascii c in
  PyStr.is_space c && negb ((28 <=? n)%nat && (n <=? 31)%nat).

Fixpoint lskip (s : string) : string :=
  match s with
  | EmptyString => EmptyString
  | String c s' => if is_space c then lskip s' else s
  end.

Definition skip (s : string) : string :=
  String.rev (lskip (String.rev (lskip s))).

(** [int(s)] of a [str]: [None] stands for [ValueError]. *)
Definition of_str (s : string) : option Z :=
  match skip s with
  | String "+" r => digits r 0 false
  | String "-" r => option_map Z.opp (digits r 0 false)
  | r => digits r 0 false
  end.

(** Truth value of an [Optional[int]]: [None] and [0] are false. *)
Definition truthy (y : option Z) : bool :=
  match y with
  | Some v => negb (v =? 0)%Z
  | None => false
  end.

(** [int(x)] of a float: truncation towards zero. *)
Definition of_float (x : Q) : Z := Z.quot (Qnum x) (Z.pos (Qden x)).

End PyInt.

(** ** Python floats

    The binary64 numbers, as the rationals they stand for, and the rounding
    of an exact result to the nearest of them, ties to the even
    significand. No operation of the program on scores overflows. *)
Module PyFloat.

(** [2 ** k] *)
Definition pow2 (k : Z) : Q := Qpower 2 k.

(** The binade of [n / d]: the greatest [e] with [2 ** e <= n / d]. The
    difference of the two logarithms is [e] or [e + 1]. *)
Definition binade (n d : positive) : Z :=
  let e := (Z.log2 (Z.pos n) - Z.log2 (Z.pos d))%Z in
  if Qle_bool (pow2 e) (Z.pos n # d) then e else (e - 1)%Z.

(** The nearest integer, ties to even. *)
Definition nearest_even (x : Q) : Z :=
  let f := Qfloor x in
  match Qcompare (x - inject_Z f) (1 # 2) with
  | Lt => f
  | Gt => (f + 1)%Z
  | Eq => if Z.even f then f else (f + 1)%Z
  end.

(** The nearest binary64 number to [n / d]: a multiple of the unit in the
    last place, which is 52 binary places below the binade and never
    below [2 ** -1074]. *)
Definition round_pos (n d : positive) : Q :=
  let ulp := pow2 (Z.max (binade n d - 52) (-1074)) in
  Qred (inject_Z (nearest_even ((Z.pos n # d) / ulp)) * ulp).

Definition round (x : Q) : Q :=
  match Qnum x with
  | Z0 => 0
  | Zpos n => round_pos n (Qden x)
  | Zneg n => - round_pos n (Qden x)
  end.

(** [a * b] and [a + b] of two floats *)
Definition mul (a b : Q) : Q := round (a * b).
Definition add (a b : Q) : Q := round (a + b).

End PyFloat.

(** Truth value of an [Optional[str]]. *)
Definition str_truthy (s : option string) : bool :=
  match s with
  | Some v => PyStr.truthy v
  | None => false
  end.

(** ** The identifier object *)

(** The [metadata] dictionary of [extract_metadata]. *)
Record Metadata := mkMeta {
  md_title : option string;
  md_artist : option string;
  md_album : option string;
  md_year : option Z;
  md_duration : option Z;
  md_genre : option string;
  md_bitrate : option Z }.

(** What [identify_year] returns: [(ano, fonte, confianca)]. *)
Definition Result : Type := option Z * string * Q.

(** An object stored in the cache by [_cache_result]; a key of the JSON
    object may be missing when the file was written by something else. *)
Record CacheEntry := mkEntry {
  entry_year : option Z;
  entry_source : option string;
  entry_confidence : option Q;
  entry_timestamp : option string }.

(** A value of the cache as [json.load] returns it: an object, or any
    other JSON value, which has no [get]. *)
Inductive CacheVal : Type :=
| JObject (e : CacheEntry)
| JOther.

Record Stats := mkStats {
  spotify_hits : nat;
  metadata_hits : nat;
  filename_hits : nat;
  cache_hits : nat }.

(** The calls a resolution makes, in the order it makes them. *)
Inductive Event : Type :=
| CallExtractMetadata (file_path : Path)
| CallSearchSpotify (title : string) (artist : option string)
| CallTrySearch (artist : option string) (title : string)
| CallApiSearch (query : string).

(** An [EnhancedMusicIdentifier]: its attributes, the number of readings of
    the clock so far, and the calls made so far (most recent last). *)
Record Identifier := mkIdentifier {
  cache : gmap string CacheVal;
  spotify : bool;           (* [self.spotify] is not [None] *)
  spotify_enabled : bool;
  stats : Stats;
  clock : nat;
  trace : list Event }.

Definition set_cache (f : gmap string CacheVal -> gmap string CacheVal)
    (self : Identifier) : Identifier :=
  mkIdentifier (f (cache self)) (spotify self) (spotify_enabled self)
               (stats self) (clock self) (trace self).

Definition set_stats (f : Stats -> Stats) (self : Identifier) : Identifier :=
  mkIdentifier (cache self) (spotify self) (spotify_enabled self)
               (f (stats self)) (clock self) (trace self).

Definition tick (self : Identifier) : Identifier :=
  mkIdentifier (cache self) (spotify self) (spotify_enabled self)
               (stats self) (S (clock self)) (trace self).

Definition record (ev : Event) (self : Identifier) : Identifier :=
  mkIdentifier (cache self) (spotify self) (spotify_enabled self)
               (stats self) (clock self) (trace self ++ [ev]).

Definition bump_spotify_hits (s : Stats) : Stats :=
  mkStats (S (spotify_hits s)) (metadata_hits s) (filename_hits s) (cache_hits s).
Definition bump_metadata_hits (s : Stats) : Stats :=
  mkStats (spotify_hits s) (S (metadata_hits s)) (filename_hits s) (cache_hits s).
Definition bump_filename_hits (s : Stats) : Stats :=
  mkStats (spotify_hits s) (metadata_hits s) (S (filename_hits s)) (cache_hits s).
Definition bump_cache_hits (s : Stats) : Stats :=
  mkStats (spotify_hits s) (metadata_hits s) (filename_hits s) (S (cache_hits s)).

(** ** Methods: a computation reads and updates the object and returns or
    raises *)

Definition M (A : Type) : Type := Identifier -> Exc A * Identifier.

Definition ret {A} (a : A) : M A := fun self => (Ok a, self).

Definition bind {A B} (m : M A) (k : A -> M B) : M B :=
  fun self =>
    match m self with
    | (Ok a, self') => k a self'
    | (Raise e, self') => (Raise e, self')
    end.

Definition raise {A} (e : string) : M A := fun self => (Raise e, self).

Definition get_self : M Identifier := fun self => (Ok self, self).

Definition update (f : Identifier -> Identifier) : M unit :=
  fun self => (Ok tt, f self).

(** [try: m except Exception: h]. What [m] did to the object before it
    raised stays done. *)
Definition try_except {A} (m : M A) (h : M A) : M A :=
  fun self =>
    match m self with
    | (Ok a, self') => (Ok a, self')
    | (Raise _, self') => h self'
    end.

#[global] Instance M_ret : MRet M := @ret.
#[global] Instance M_bind : MBind M := fun A B k m => bind m k.

Definition lift {A} (r : Exc A) : M A := fun self => (r, self).

Definition Qlt_bool (a b : Q) : bool := negb (Qle_bool b a).

(** ** Year tokens in a file name *)

Module YearPattern.

(** [20[0-2][0-9]] on four characters. *)
Definition token (a b c d : ascii) : bool :=
  Ascii.eqb a "2" && Ascii.eqb b "0"
  && (Ascii.eqb c "0" || Ascii.eqb c "1" || Ascii.eqb c "2")
  && PyStr.is_digit d.

Definition group (a b c d : ascii) : string :=
  String a (String b (String c (String d EmptyString))).

(** [[^\d]]: any character that is not a digit, a newline included. *)
Definition non_digit (c : ascii) : bool := negb (PyStr.is_digit c).

(** Where [$] matches: at the end of the string and before a newline that
    ends it. *)
Definition at_dollar (rest : string) : bool :=
  match rest with
  | EmptyString => true
  | String c EmptyString => Ascii.eqb c "010"
  | _ => false
  end.

(** [[^\d](20[0-2][0-9])[^\d]] matched at the start of [s]: group 1. *)
Definition inner_here (s : string) : option string :=
  match s with
  | String x (String a (String b (String c (String d (String y _))))) =>
      if non_digit x && token a b c d && non_digit y
      then Some (group a b c d) else None
  | _ => None
  end.

(** [(20[0-2][0-9])[^\d]] matched at the start of [s]. *)
Definition start_here (s : string) : option string :=
  match s with
  | String a (String b (String c (String d (String y _)))) =>
      if token a b c d && non_digit y then Some (group a b c d) else None
  | _ => None
  end.

(** [[^\d](20[0-2][0-9])$] matched at the start of [s]. *)
Definition end_here (s : string) : option string :=
  match s with
  | String x (String a (String b (String c (String d rest)))) =>
      if non_digit x && token a b c d && at_dollar rest
      then Some (group a b c d) else None
  | _ => None
  end.

(** [re.search]: the match at the least offset of [s] at which the
    pattern matches. *)
Fixpoint search (here : string -> option string) (s : string) : option string :=
  match here s with
  | Some g => Some g
  | None =>
      match s with
      | EmptyString => None
      | String _ s' => search here s'
      end
  end.

(** [re.search(r'[^\d](20[0-2][0-9])[^\d]', s)] *)
Definition inner : string -> option string := search inner_here.

(** [re.search(r'^(20[0-2][0-9])[^\d]', s)]: without [re.M] the circumflex
    matches at offset 0 only. *)
Definition at_start : string -> option string := start_here.

(** [re.search(r'[^\d](20[0-2][0-9])$', s)] *)
Definition at_end : string -> option string := search end_here.

(** [year_patterns], in the order of the list. *)
Definition year_patterns : list (string -> option string) :=
  [inner; at_start; at_end].

(** The loop over [year_patterns]: the first pattern that matches with a
    group between 2000 and 2030 gives the year. *)
Fixpoint scan (patterns : list (string -> option string)) (s : string)
    : option Z :=
  match patterns with
  | [] => None
  | pattern :: rest =>
      match pattern s with
      | Some g =>
          let year := PyStr.digits_val 0 g in
          if (2000 <=? year)%Z && (year <=? 2030)%Z then Some year
          else scan rest s
      | None => scan rest s
      end
  end.

(** Group 1 of the first pattern of [year_patterns] that matches. *)
Definition first_group (s : string) : option string :=
  match inner s with
  | Some g => Some g
  | None =>
      match at_start s with
      | Some g => Some g
      | None => at_end s
      end
  end.

(** [s[n:]] *)
Fixpoint from (n : nat) (s : string) : string :=
  match n, s with
  | O, _ => s
  | S n', String _ s' => from n' s'
  | S _, EmptyString => EmptyString
  end.

End YearPattern.

(** ** EnhancedMusicIdentifier *)

Section Resolver.

Variable env : Env.

(** [get_file_hash]:
<<
    try:
        hasher = hashlib.md5()
        hasher.update(str(file_path.stat().st_size).encode())
        hasher.update(file_path.name.encode())
        hasher.update(str(file_path.stat().st_mtime).encode())
        return hasher.hexdigest()
    except:
        return str(file_path)
>>
    The texts of the size and of the time are ASCII: their encodings are
    the same characters and cannot raise. The [stat] and the encoding of
    the name can. *)
Definition get_file_hash (file_path : Path) : string :=
  match os_stat env file_path with
  | Ok st =>
      match str_encode env (name file_path) with
      | Ok encoded =>
          md5_hexdigest env
            [pretty (st_size st); encoded; float_str env (st_mtime st)]
      | Raise _ => path_str file_path
      end
  | Raise _ => path_str file_path
  end.

Definition empty_metadata : Metadata :=
  mkMeta None None None None None None None.

(** [tags.get(key, [None])[0]]: an empty list of values raises. *)
Definition first_value (v : option (list string)) : Exc (option string) :=
  match v with
  | None => Ok None
  | Some [] => Raise "IndexError"
  | Some (x :: _) => Ok (Some x)
  end.

(** The body of the [try] of one tag format; its bare [except] keeps what
    was assigned before the failure. *)
Definition read_tags (tags : Tags) (m : Metadata) : Metadata :=
  match first_value (tag_title tags) with
  | Raise _ => m
  | Ok t =>
  let m := mkMeta t (md_artist m) (md_album m) (md_year m) (md_duration m)
                  (md_genre m) (md_bitrate m) in
  match first_value (tag_artist tags) with
  | Raise _ => m
  | Ok a =>
  let m := mkMeta (md_title m) a (md_album m) (md_year m) (md_duration m)
                  (md_genre m) (md_bitrate m) in
  match first_value (tag_album tags) with
  | Raise _ => m
  | Ok al =>
  let m := mkMeta (md_title m) (md_artist m) al (md_year m) (md_duration m)
                  (md_genre m) (md_bitrate m) in
  match first_value (tag_genre tags) with
  | Raise _ => m
  | Ok g =>
  let m := mkMeta (md_title m) (md_artist m) (md_album m) (md_year m)
                  (md_duration m) g (md_bitrate m) in
  match first_value (tag_date tags) with
  | Raise _ => m
  | Ok None => m
  | Ok (Some date) =>
      if PyStr.truthy date && (4 <=? String.length date)%nat then
        match PyInt.of_str (PyStr.prefix 4 date) with
        | Some y => mkMeta (md_title m) (md_artist m) (md_album m) (Some y)
                           (md_duration m) (md_genre m) (md_bitrate m)
        | None => m
        end
      else m
  end end end end end.

(** The constructor of the tag dictionary for a lower-cased suffix. *)
Definition tag_format (sfx : string) : option (Path -> Exc Tags) :=
  if String.eqb sfx ".mp3" then Some (EasyID3 env)
  else if String.eqb sfx ".m4a" || String.eqb sfx ".mp4" then Some (MP4 env)
  else if String.eqb sfx ".flac" then Some (FLAC env)
  else None.

(** The outer [try] of [extract_metadata]: whatever [mutagen] raises leaves
    the dictionary as it is. *)
Definition read_file (file_path : Path) (m : Metadata) : Metadata :=
  match MutagenFile env file_path with
  | Raise _ => m
  | Ok None => m
  | Ok (Some info) =>
      let m := mkMeta (md_title m) (md_artist m) (md_album m) (md_year m)
                      (option_map PyInt.of_float (info_length info))
                      (md_genre m) (info_bitrate info) in
      match tag_format (PyStr.lower (suffix (name file_path))) with
      | None => m
      | Some open =>
          match open file_path with
          | Raise _ => m
          | Ok tags => read_tags tags m
          end
      end
  end.

Definition patterns : list string :=
  [ "^(.+?)\s*[-–—]\s*(.+?)$";
    "^(.+?)\s*[|]\s*(.+?)$";
    "^(.+?)\s*[/]\s*(.+?)$" ].

Fixpoint first_match (ps : list string) (s : string) : option (string * string) :=
  match ps with
  | [] => None
  | p :: ps' =>
      match re_match env p s with
      | Some g => Some g
      | None => first_match ps' s
      end
  end.

(** [a or b] *)
Definition str_or (a : option string) (b : string) : option string :=
  if str_truthy a then a else Some b.

(** The fallback on the file name, when the title or the artist is missing. *)
Definition from_filename (file_path : Path) (m : Metadata) : Metadata :=
  if negb (str_truthy (md_title m)) || negb (str_truthy (md_artist m)) then
    let filename := stem (name file_path) in
    let filename := re_sub env "\[.*?\]" EmptyString false filename in
    let filename :=
      re_sub env "\(.*?(official|video|audio|lyrics|hd|hq|4k|remix|edit).*?\)"
             EmptyString true filename in
    let m :=
      match first_match patterns (PyStr.strip filename) with
      | Some (g1, g2) =>
          mkMeta (str_or (md_title m) (PyStr.strip g2))
                 (str_or (md_artist m) (PyStr.strip g1))
                 (md_album m) (md_year m) (md_duration m) (md_genre m)
                 (md_bitrate m)
      | None => m
      end in
    if negb (str_truthy (md_title m)) then
      mkMeta (Some (PyStr.strip filename)) (md_artist m) (md_album m)
             (md_year m) (md_duration m) (md_genre m) (md_bitrate m)
    else m
  else m.

(** [re.sub(r'\s+', ' ', v).strip()] on a value that is a non-empty [str]. *)
Definition clean_value (v : option string) : option string :=
  match v with
  | Some s => if PyStr.truthy s
              then Some (PyStr.strip (PyStr.sub_spaces s false)) else v
  | None => None
  end.

Definition clean_values (m : Metadata) : Metadata :=
  mkMeta (clean_value (md_title m)) (clean_value (md_artist m))
         (clean_value (md_album m)) (md_year m) (md_duration m)
         (clean_value (md_genre m)) (md_bitrate m).

(** The dictionary that [extract_metadata] returns for a file. *)
Definition metadata_of (file_path : Path) : Metadata :=
  clean_values (from_filename file_path (read_file file_path empty_metadata)).

(** [extract_metadata] *)
Definition extract_metadata (file_path : Path) : M Metadata :=
  update (record (CallExtractMetadata file_path)) ;;
  ret (metadata_of file_path).

(** The query of [_try_search]:
    [re.sub(r'\s+', ' ', re.sub(r'[^\w\s]', ' ', query)).strip()[:100]] *)
Definition make_query (artist : option string) (title : string) : string :=
  let query :=
    match artist with
    | Some a => if PyStr.truthy a then a +:+ " " +:+ title else title
    | None => title
    end in
  let query := PyStr.sub_non_word query in
  PyStr.prefix 100 (PyStr.strip (PyStr.sub_spaces query false)).

(** The score of one candidate: the title alone, or 0.7 of the title and
    0.3 of the artist:
<<
    title_score = self._similarity(title.lower(), track_title)
    if artist:
        artist_score = self._similarity(artist.lower(), track_artist)
        total_score = (title_score * 0.7) + (artist_score * 0.3)
    else:
        total_score = title_score
>>
    The float that [_similarity] returns is the rounding of the quotient;
    [0.7] and [0.3] are the floats nearest to them. *)
Definition total_score (artist : option string) (title : string)
    (track_title track_artist : string) : Q :=
  let title_score := PyFloat.round (_similarity (PyStr.lower title) track_title) in
  match artist with
  | Some a =>
      if PyStr.truthy a then
        let artist_score :=
          PyFloat.round (_similarity (PyStr.lower a) track_artist) in
        PyFloat.add (PyFloat.mul title_score (PyFloat.round 0.7))
                    (PyFloat.mul artist_score (PyFloat.round 0.3))
      else title_score
  | None => title_score
  end.

(** The loop over the candidates: a candidate replaces the best one when
    its score is strictly greater. A malformed item raises. *)
Fixpoint best_of (artist : option string) (title : string) (items : list Track)
    (best_match : option Track) (best_score : Q) : Exc (option Track * Q) :=
  match items with
  | [] => Ok (best_match, best_score)
  | TrackMalformed :: _ => Raise "KeyError"
  | (TrackItem n arts _ as track) :: rest =>
      let track_title := PyStr.lower n in
      let track_artist :=
        match arts with a :: _ => PyStr.lower a | [] => EmptyString end in
      let total := total_score artist title track_title track_artist in
      if Qlt_bool best_score total
      then best_of artist title rest (Some track) total
      else best_of artist title rest best_match best_score
  end.

(** The year of the accepted candidate, [None] when there is none to
    return; the conversion of the date may raise. *)
Definition year_of_best (best : option Track * Q) : Exc (option Z) :=
  match best with
  | (Some (TrackItem _ _ rd), best_score) =>
      if Qlt_bool (PyFloat.round 0.35) best_score then
        let release_date := default EmptyString rd in
        if PyStr.truthy release_date && (4 <=? String.length release_date)%nat
        then match PyInt.of_str (PyStr.prefix 4 release_date) with
             | Some y => Ok (Some y)
             | None => Raise "ValueError"
             end
        else Ok None
      else Ok None
  | _ => Ok None
  end.

(** [_try_search]: the whole body is in a [try]; [except Exception] falls
    through to [return None]. The name of the strategy is only printed. *)
Definition _try_search (artist : option string) (title : string) : M (option Z) :=
  update (record (CallTrySearch artist title)) ;;
  try_except
    (let query := make_query artist title in
     if PyStr.is_empty query || (String.length query <? 3)%nat then ret None
     else
       update (record (CallApiSearch query)) ;;
       items ← lift (spotify_search env query) ;
       match items with
       | [] => ret None
       | _ =>
           best ← lift (best_of artist title items None 0) ;
           found ← lift (year_of_best best) ;
           match found with
           | Some y => update (set_stats bump_spotify_hits) ;; ret (Some y)
           | None => ret None
           end
       end)
    (ret None).

Definition remove_patterns : list string :=
  [ "\(Ao Vivo\)"; "\(ao vivo\)"; "\(LIVE\)"; "\(Live\)"; "DVD.*";
    "feat\.?.*"; "ft\.?.*"; "@\w+"; "\[.*?\]"; "Deluxe"; "Transcende.*";
    "Ao Vivo.*" ].

(** [for pattern in remove_patterns: s = re.sub(pattern, '', s, flags=re.I)] *)
Definition remove_all (s : string) : string :=
  fold_left (fun acc pattern => re_sub env pattern EmptyString true acc)
            remove_patterns s.

Definition collapse (s : string) : string :=
  PyStr.strip (PyStr.sub_spaces s false).

Definition clean_title_of (title : string) : string :=
  collapse (PyStr.strip (PyStr.before "/" (PyStr.before "|" (remove_all title)))).

Definition clean_artist_of (artist : option string) : string :=
  collapse (remove_all (if str_truthy artist then default EmptyString artist
                        else EmptyString)).

(** One strategy and what follows it:
<<
    if guard:
        year = self._try_search(...)
        if year:
            return year
    (the rest)
>> *)
Definition strategy (guard : bool) (call : M (option Z)) (rest : M (option Z))
    : M (option Z) :=
  if guard then
    year ← call ;
    if PyInt.truthy year then ret year else rest
  else rest.

(** The guards and the arguments of the five strategies. *)
Definition guard1 (clean_artist clean_title : string) : bool :=
  PyStr.truthy clean_artist && PyStr.truthy clean_title.
Definition guard2 (clean_title : string) : bool := PyStr.truthy clean_title.
Definition guard3 (clean_artist : string) : bool :=
  PyStr.truthy clean_artist && PyStr.contains " " clean_artist.
Definition guard4 (clean_artist clean_title : string) : bool :=
  PyStr.truthy clean_artist && (3 <? length (PyStr.split clean_title))%nat.
Definition guard5 (clean_title : string) : bool :=
  (2 <=? length (PyStr.split clean_title))%nat.

Definition first_artist (clean_artist : string) : string :=
  PyStr.strip (PyStr.before "," (PyStr.before "&" clean_artist)).
Definition short_title (clean_title : string) : string :=
  PyStr.join (take 3 (PyStr.split clean_title)).
Definition very_short_title (clean_title : string) : string :=
  PyStr.join (take 2 (PyStr.split clean_title)).
Definition artist_or_none (clean_artist : string) : option string :=
  if PyStr.truthy clean_artist then Some clean_artist else None.

(** [search_spotify] *)
Definition search_spotify (title : string) (artist : option string)
    : M (option Z) :=
  update (record (CallSearchSpotify title artist)) ;;
  self ← get_self ;
  if negb (spotify_enabled self) || negb (spotify self) then ret None
  else
    let clean_title := clean_title_of title in
    let clean_artist := clean_artist_of artist in
    strategy (guard1 clean_artist clean_title)
      (_try_search (Some clean_artist) clean_title)
    (strategy (guard2 clean_title)
      (_try_search None clean_title)
    (strategy (guard3 clean_artist)
      (_try_search (Some (first_artist clean_artist)) clean_title)
    (strategy (guard4 clean_artist clean_title)
      (_try_search (Some clean_artist) (short_title clean_title))
    (strategy (guard5 clean_title)
      (_try_search (artist_or_none clean_artist) (very_short_title clean_title))
    (ret None))))).

(** [_cache_result]: an entry is stored only when the year is not [None]. *)
Definition _cache_result (file_hash : string) (result : Result) : M unit :=
  match result with
  | (Some y, source, confidence) =>
      self ← get_self ;
      let timestamp := now_isoformat env (clock self) in
      update tick ;;
      update (set_cache
                (insert file_hash
                   (JObject (mkEntry (Some y) (Some source) (Some confidence)
                                     (Some timestamp)))))
  | (None, _, _) => ret tt
  end.

(** The body of the [try] of [identify_year]; [None] when control leaves
    it without a [return]. The parameter [target_years] is not used. *)
Definition identify_year_try (file_path : Path) : M (option Result) :=
  let file_hash := get_file_hash file_path in
  self ← get_self ;
  match cache self !! file_hash with
  | Some cached =>
      update (set_stats bump_cache_hits) ;;
      match cached with
      | JObject e =>
          ret (Some (entry_year e, default "cache" (entry_source e),
                     default 0.5%Q (entry_confidence e)))
      | JOther => raise "AttributeError"
      end
  | None =>
      metadata ← extract_metadata file_path ;
      if PyInt.truthy (md_year metadata) then
        let result := (md_year metadata, "metadata", 0.95%Q) in
        update (set_stats bump_metadata_hits) ;;
        _cache_result file_hash result ;;
        ret (Some result)
      else
        self ← get_self ;
        found ←
          (if spotify_enabled self && str_truthy (md_title metadata) then
             spotify_year ← search_spotify (default EmptyString (md_title metadata))
                                            (md_artist metadata) ;
             if PyInt.truthy spotify_year then
               let confidence :=
                 if str_truthy (md_artist metadata) then 0.85%Q else 0.70%Q in
               let result := (spotify_year, "spotify", confidence) in
               _cache_result file_hash result ;;
               ret (Some result)
             else ret None
           else ret None) ;
        match found with
        | Some result => ret (Some result)
        | None =>
            match YearPattern.scan YearPattern.year_patterns
                                   (stem (name file_path)) with
            | Some y =>
                let result := (Some y, "filename", 0.60%Q) in
                update (set_stats bump_filename_hits) ;;
                _cache_result file_hash result ;;
                ret (Some result)
            | None => ret None
            end
        end
  end.

Definition unknown : Result := (None, "unknown", 0%Q).

(** [identify_year]: one handler around the whole waterfall; after it, and
    after a body that returned nothing, [(None, 'unknown', 0.0)]. *)
Definition identify_year (file_path : Path) : M Result :=
  r ← try_except (identify_year_try file_path) (ret None) ;
  ret (default unknown r).

End Resolver.


(** ** UltraMusicFilter: backup and move *)

(** The files on disk: the content of each path that is a file. The
    directories of the organiser are made by [_create_directories] when
    the object is built and are taken to exist. *)
Abbreviation FS := (gmap Path string).

Definition BACKUP_DIR : string := "backup_musicas".

(** An [UltraMusicFilter]: the attributes that [create_backup] and
    [move_file] read, and the two counters they increment. *)
Record Filter := mkFilter {
  root : list string;
  target_years : gset Z;
  backup_enabled : bool;
  moved : nat;
  backed_up : nat }.

Definition bump_moved (self : Filter) : Filter :=
  mkFilter (root self) (target_years self) (backup_enabled self)
           (S (moved self)) (backed_up self).
Definition bump_backed_up (self : Filter) : Filter :=
  mkFilter (root self) (target_years self) (backup_enabled self)
           (moved self) (S (backed_up self)).

Section Placement.

Variable fs : FS.

(** [dir / f"{file_path.stem}_{counter}{file_path.suffix}"] *)
Definition numbered (d : list string) (n : string) (counter : N) : Path :=
  child d (stem n +:+ "_" +:+ pretty counter +:+ suffix n).

(** The loop
<<
    while path.exists():
        path = dir / f"{file_path.stem}_{counter}{file_path.suffix}"
        counter += 1
>>
    run for at most [fuel] turns; [None] when the path is still taken
    after them. *)
Fixpoint free_path (d : list string) (n : string) (fuel : nat) (counter : N)
    (p : Path) : option Path :=
  match fs !! p with
  | None => Some p
  | Some _ =>
      match fuel with
      | O => None
      | S fuel' => free_path d n fuel' (counter + 1) (numbered d n counter)
      end
  end.

(** The loop from [dir / file_path.name] and [counter = 1]. One turn for
    each file on disk is enough (lemma [first_free_total]). *)
Definition first_free (d : list string) (n : string) : option Path :=
  free_path d n (size fs) 1 (child d n).

End Placement.

(** [create_backup]: the new disk, the object, and the value returned. A
    missing source makes [stat] or [copy2] raise, and the handler returns
    [False]. *)
Definition create_backup (self : Filter) (file_path : Path) (fs : FS)
    : bool * FS * Filter :=
  if negb (backup_enabled self) then (true, fs, self)
  else
    let backup_dir := (root self ++ [BACKUP_DIR])%list in
    let backup_path := child backup_dir (name file_path) in
    let same_size :=
      match fs !! backup_path with
      | Some b =>
          match fs !! file_path with
          | Some c => Ok (String.length b =? String.length c)%nat
          | None => Raise "FileNotFoundError"
          end
      | None => Ok false
      end in
    match same_size with
    | Raise _ => (false, fs, self)
    | Ok true => (true, fs, self)
    | Ok false =>
        match first_free fs backup_dir (name file_path), fs !! file_path with
        | Some p, Some c => (true, <[p := c]> fs, bump_backed_up self)
        | _, _ => (false, fs, self)
        end
    end.

(** The directory chosen by [move_file]:
<<
    if year in self.target_years:      dest_dir = self.root / str(year)
    elif year and confidence >= 0.5:   dest_dir = self.root / "outros_anos"
    else:                              dest_dir = self.root / "nao_identificadas"
>> *)
Definition dest_dir (self : Filter) (year : option Z) (confidence : Q)
    : list string :=
  match year with
  | Some y =>
      if bool_decide (y ∈ target_years self) then (root self ++ [pretty y])%list
      else if PyInt.truthy year && Qle_bool 0.5 confidence
           then (root self ++ ["outros_anos"])%list
           else (root self ++ ["nao_identificadas"])%list
  | None => (root self ++ ["nao_identificadas"])%list
  end.

(** [move_file]: backup when enabled (its result is ignored), choice of
    the directory, search of a free name, [shutil.move]. *)
Definition move_file (self : Filter) (file_path : Path) (year : option Z)
    (confidence : Q) (fs : FS) : bool * FS * Filter :=
  let '(_, fs, self) :=
    if backup_enabled self then create_backup self file_path fs
    else (true, fs, self) in
  let d := dest_dir self year confidence in
  match first_free fs d (name file_path), fs !! file_path with
  | Some dest_path, Some c =>
      (true, <[dest_path := c]> (delete file_path fs), bump_moved self)
  | _, _ => (false, fs, self)
  end.

(** ** What the methods return and do, as functions of the process

    The lemmas of the second part show that the methods compute these. *)

Section Outcomes.

Variable env : Env.

(** What one search of the API gives to [_try_search]: the year of the
    accepted candidate, and nothing when the call, the scoring or the
    conversion of the date raises. *)
Definition api_year (artist : option string) (title query : string) : option Z :=
  match spotify_search env query with
  | Ok (i :: items) =>
      match best_of artist title (i :: items) None 0 with
      | Ok best =>
          match year_of_best best with
          | Ok found => found
          | Raise _ => None
          end
      | Raise _ => None
      end
  | _ => None
  end.

Definition too_short (query : string) : bool :=
  PyStr.is_empty query || (String.length query <? 3)%nat.

(** The value returned by [_try_search]. *)
Definition try_result (artist : option string) (title : string) : option Z :=
  let query := make_query artist title in
  if too_short query then None else api_year artist title query.

(** The calls made by [_try_search]. *)
Definition try_events (artist : option string) (title : string) : list Event :=
  let query := make_query artist title in
  CallTrySearch artist title ::
  (if too_short query then [] else [CallApiSearch query]).

(** The object after [_try_search]. *)
Definition try_state (artist : option string) (title : string)
    (self : Identifier) : Identifier :=
  let self1 := record (CallTrySearch artist title) self in
  let query := make_query artist title in
  if too_short query then self1
  else
    let self2 := record (CallApiSearch query) self1 in
    match api_year artist title query with
    | Some _ => set_stats bump_spotify_hits self2
    | None => self2
    end.

(** The strategies that pass their guard, in the order of the source:
    the arguments of the call of [_try_search] of each. *)
Definition applicable (clean_artist clean_title : string)
    : list (option string * string) :=
  (if guard1 clean_artist clean_title
   then [(Some clean_artist, clean_title)] else [])
  ++ (if guard2 clean_title then [(None, clean_title)] else [])
  ++ (if guard3 clean_artist
      then [(Some (first_artist clean_artist), clean_title)] else [])
  ++ (if guard4 clean_artist clean_title
      then [(Some clean_artist, short_title clean_title)] else [])
  ++ (if guard5 clean_title
      then [(artist_or_none clean_artist, very_short_title clean_title)] else []).

(** A list of attempts run one after the other until one returns a year
    that counts as true. *)
Fixpoint attempts_run (l : list (option string * string)) (self : Identifier)
    : Exc (option Z) * Identifier :=
  match l with
  | [] => (Ok None, self)
  | (a, t) :: l' =>
      if PyInt.truthy (try_result a t)
      then (Ok (try_result a t), try_state a t self)
      else attempts_run l' (try_state a t self)
  end.

(** The calls made by a list of attempts. *)
Fixpoint attempts_events (l : list (option string * string)) : list Event :=
  match l with
  | [] => []
  | (a, t) :: l' =>
      try_events a t ++
      (if PyInt.truthy (try_result a t) then [] else attempts_events l')
  end.

(** The value returned by a list of attempts. *)
Fixpoint attempts_result (l : list (option string * string)) : option Z :=
  match l with
  | [] => None
  | (a, t) :: l' =>
      if PyInt.truthy (try_result a t) then try_result a t
      else attempts_result l'
  end.

(** The value returned by [search_spotify]. *)
Definition search_result (enabled : bool) (title : string) (artist : option string)
    : option Z :=
  if enabled
  then attempts_result (applicable (clean_artist_of env artist)
                                   (clean_title_of env title))
  else None.

(** The calls made by [search_spotify]. *)
Definition search_events (enabled : bool) (title : string) (artist : option string)
    : list Event :=
  CallSearchSpotify title artist ::
  (if enabled
   then attempts_events (applicable (clean_artist_of env artist)
                                    (clean_title_of env title))
   else []).

(** The object after [_cache_result] has stored a year. *)
Definition store (file_hash : string) (y : Z) (source : string) (confidence : Q)
    (self : Identifier) : Identifier :=
  set_cache
    (insert file_hash
       (JObject (mkEntry (Some y) (Some source) (Some confidence)
                         (Some (now_isoformat env (clock self))))))
    (tick self).

(** Whether the object starts a search for a dictionary of metadata. *)
Definition wants_search (self : Identifier) (md : Metadata) : bool :=
  spotify_enabled self && str_truthy (md_title md).

(** The year that the search step of the waterfall obtains. *)
Definition spotify_year (self : Identifier) (md : Metadata) : option Z :=
  if wants_search self md
  then search_result (spotify_enabled self && spotify self)
                     (default EmptyString (md_title md)) (md_artist md)
  else None.

(** The calls of the search step. *)
Definition spotify_events (self : Identifier) (md : Metadata) : list Event :=
  if wants_search self md
  then search_events (spotify_enabled self && spotify self)
                     (default EmptyString (md_title md)) (md_artist md)
  else [].

Definition spotify_confidence (md : Metadata) : Q :=
  if str_truthy (md_artist md) then 0.85%Q else 0.70%Q.

(** The year of the file name. *)
Definition filename_year (file_path : Path) : option Z :=
  YearPattern.scan YearPattern.year_patterns (stem (name file_path)).

(** The triple that a cache hit returns for an entry. *)
Definition cached_triple (e : CacheEntry) : Result :=
  (entry_year e, default "cache" (entry_source e),
   default 0.5%Q (entry_confidence e)).

(** The cases of a resolution: what is returned and what becomes of the
    cache. *)
Inductive Resolution (file_path : Path) (self : Identifier)
    : Result -> Identifier -> Prop :=
| ResHit e :
    cache self !! get_file_hash env file_path = Some (JObject e) ->
    Resolution file_path self (cached_triple e) (set_stats bump_cache_hits self)
| ResHitOther :
    cache self !! get_file_hash env file_path = Some JOther ->
    Resolution file_path self unknown (set_stats bump_cache_hits self)
| ResFound y source confidence self2 :
    cache self !! get_file_hash env file_path = None ->
    cache self2 = cache self ->
    Resolution file_path self (Some y, source, confidence)
               (store (get_file_hash env file_path) y source confidence self2)
| ResUnknown self2 :
    cache self !! get_file_hash env file_path = None ->
    cache self2 = cache self ->
    Resolution file_path self unknown self2.

(** An attempt that returns no year, or the year 0. *)
Definition fails (p : option string * string) : Prop :=
  PyInt.truthy (try_result p.1 p.2) = false.

Definition events_of (l : list (option string * string)) : list Event :=
  flat_map (fun p => try_events p.1 p.2) l.

End Outcomes.

(** A string that is a token [20[0-2][0-9]]. *)
Definition is_token (g : string) : Prop :=
  exists a b c d, g = YearPattern.group a b c d /\ YearPattern.token a b c d = true.

(** The last character of a string, [d] when it is empty. *)
Fixpoint last_char (s : string) (d : ascii) : ascii :=
  match s with
  | EmptyString => d
  | String c s' => last_char s' c
  end.

(** What [create_backup] may do to the disk: nothing, or one copy of the
    file under a name of the backup directory that was free. *)
Definition backed (self : Filter) (file_path : Path) (fs fs1 : FS) : Prop :=
  fs1 = fs
  \/ exists p c,
       fs !! p = None
       /\ parent p = (root self ++ [BACKUP_DIR])%list
       /\ fs !! file_path = Some c
       /\ fs1 = <[p := c]> fs.


(** ** The file-name scan as the specification words it

    The first token [20[0-2][0-9]] of the stem, read from the left, that
    has on each side a character that is not a digit, or the start or the
    end of the string. It is compared with [YearPattern.scan] below. *)

Module SpecScan.

Definition left_ok (prev : option ascii) : bool :=
  match prev with
  | None => true
  | Some x => YearPattern.non_digit x
  end.

Definition right_ok (rest : string) : bool :=
  match rest with
  | EmptyString => true
  | String y _ => YearPattern.non_digit y
  end.

(** A bounded token at the start of [s]; [prev] is the character before
    [s], when there is one. *)
Definition token_here (prev : option ascii) (s : string) : option string :=
  match s with
  | String a (String b (String c (String d rest))) =>
      if left_ok prev && YearPattern.token a b c d && right_ok rest
      then Some (YearPattern.group a b c d) else None
  | _ => None
  end.

Fixpoint first_token (prev : option ascii) (s : string) : option string :=
  match token_here prev s with
  | Some g => Some g
  | None =>
      match s with
      | EmptyString => None
      | String a s' => first_token (Some a) s'
      end
  end.

Definition first_year (s : string) : option Z :=
  option_map (PyStr.digits_val 0) (first_token None s).

End SpecScan.

(** ** A process in which no library call fails

    The same process, except that a call that raises returns the empty
    result of its library instead: no audio, no tags, no candidates. A
    list of candidates with a malformed item counts as a failed call. *)

Definition quiet {A} (empty : A) (r : Exc A) : Exc A :=
  match r with
  | Ok a => Ok a
  | Raise _ => Ok empty
  end.

Definition malformed (t : Track) : bool :=
  match t with
  | TrackMalformed => true
  | TrackItem _ _ _ => false
  end.

Definition usable (r : Exc (list Track)) : Exc (list Track) :=
  match r with
  | Ok items => if existsb malformed items then Ok [] else Ok items
  | Raise _ => Ok []
  end.

Definition without_failures (env : Env) : Env :=
  mkEnv (md5_hexdigest env) (str_encode env) (float_str env) (os_stat env)
        (re_sub env) (re_match env)
        (fun p => quiet None (MutagenFile env p))
        (fun p => quiet (mkTags None None None None None) (EasyID3 env p))
        (fun p => quiet (mkTags None None None None None) (MP4 env p))
        (fun p => quiet (mkTags None None None None None) (FLAC env p))
        (fun q => usable (spotify_search env q))
        (now_isoformat env).

(** ** A process for the examples

    The capabilities are given by their values on the names that the
    examples use: none of the clean-up patterns occurs in them, so that
    [re.sub] returns its argument; the stand-in for the digest is
    injective. *)

Module Example.

Definition digest (parts : list string) : string :=
  fold_right (fun x acc => x +:+ "|" +:+ acc) EmptyString parts.

Definition float_repr (x : Q) : string :=
  pretty (Qnum x) +:+ "/" +:+ pretty (Z.pos (Qden x)).

(** [re.match] of the first separator pattern on the stem used below. *)
Definition separator_match (pattern s : string) : option (string * string) :=
  if String.eqb pattern (hd EmptyString patterns)
     && String.eqb s "Artist - Song (2023) Live"
  then Some ("Artist", "Song (2023) Live")
  else None.

(** A file name read from a directory entry whose bytes, [Beyonc],
    [0xE9], [.mp3], are not valid UTF-8: in Python the name is
    [Beyonc\udce9.mp3], with a lone surrogate in the place of the byte. It
    is written here with the byte. *)
Definition undecodable : string := "Beyonc" +:+ String "233"%char ".mp3".

(** [str.encode] on the names of the examples: they are ASCII, and
    encoded by the same characters, but for [undecodable]. *)
Definition encode (s : string) : Exc string :=
  if String.eqb s undecodable then Raise "UnicodeEncodeError" else Ok s.

(** A process with the given tag reader and search service. Every file
    has 4096 bytes and the same modification time. *)
Definition process (tags : Path -> Exc Tags) (search : string -> Exc (list Track))
    : Env :=
  mkEnv digest encode float_repr
        (fun _ => Ok (mkStat 4096 (1700000000 # 1)))
        (fun _ _ _ s => s)
        separator_match
        (fun _ => Ok (Some (mkInfo (Some (180 # 1)) (Some 320000%Z))))
        tags tags tags
        search
        (fun n => "2026-01-01T00:00:" +:+ pretty n).

Definition no_tags : Tags := mkTags None None None None None.

(** The tags of the library: [zero.mp3] is dated 0000, [hello.mp3] 2024;
    a file of another name has no tags to read. *)
Definition library (file_path : Path) : Exc Tags :=
  if String.eqb (name file_path) "zero.mp3" then
    Ok (mkTags (Some ["Zero Song"]) (Some ["Nobody"]) None None (Some ["0000"]))
  else if String.eqb (name file_path) "hello.mp3" then
    Ok (mkTags (Some ["Hello"]) (Some ["Adele"]) None None (Some ["2024-03-01"]))
  else Raise "ID3NoHeaderError".

(** A service that finds nothing. *)
Definition silent (query : string) : Exc (list Track) := Ok [].


(** A service whose catalogue holds one track, dated 0000, and one dated
    2019. *)
Definition catalogue (query : string) : Exc (list Track) :=
  if String.eqb query "Nobody Zero Song" || String.eqb query "Zero Song" then
    Ok [TrackItem "Zero Song" ["Nobody"] (Some "0000")]
  else if String.eqb query "Adele Hello" then
    Ok [TrackItem "Hello" ["Adele"] (Some "2019-10-23")]
  else Ok [].

Definition in_music (n : string) : Path := mkPath ["home"; "musicas"] n.
Definition in_inbox (n : string) : Path := mkPath ["home"; "musicas"; "novas"] n.

(** A new identifier: empty cache, counters at zero. *)
Definition fresh (enabled : bool) : Identifier :=
  mkIdentifier ∅ enabled enabled (mkStats 0 0 0 0) 0 [].

Definition in_old (n : string) : Path := mkPath ["home"; "musicas"; "velhas"] n.

(** A disk with two files of the same name in two directories. *)
Definition disk : FS :=
  {[ in_inbox "song.mp3" := "first"; in_old "song.mp3" := "second!" ]}.

(** An organiser for 2024 and 2025. *)
Definition organiser (backup : bool) : Filter :=
  mkFilter ["home"; "musicas"] {[ 2024%Z; 2025%Z ]} backup 0 0.

End Example.

(** ** The run of the organiser *)

(** [SUPPORTED_EXTENSIONS] *)
Definition SUPPORTED_EXTENSIONS : gset string :=
  {[ ".mp3"; ".m4a"; ".mp4"; ".flac"; ".wav"; ".ogg"; ".opus"; ".wma"; ".aac" ]}.

(** [path.relative_to(root).parts]: the components of the path after those
    of the root; [None] stands for [ValueError], when the root is not a
    prefix of the path. *)
Fixpoint relative_to (root path : list string) : option (list string) :=
  match root, path with
  | [], _ => Some path
  | r :: root', c :: path' =>
      if String.eqb r c then relative_to root' path' else None
  | _ :: _, [] => None
  end.

(** The components of a path. *)
Definition parts (p : Path) : list string := (parent p ++ [name p])%list.

(** [exclude_dirs] of [scan_files]: the names of the target years and the
    directories of the organiser. *)
Definition exclude_dirs (self : Filter) : gset string :=
  set_map (D := gset string) (pretty : Z -> string) (target_years self)
  ∪ {[ "outros_anos"; "nao_identificadas"; BACKUP_DIR; "antigas"; "fora_2025" ]}.

(** The last test of the loop of [scan_files]: no component of the path
    under the root is excluded; a path that is not under the root is
    skipped by the handler. *)
Definition outside (self : Filter) (p : Path) : bool :=
  match relative_to (root self) (parts p) with
  | Some relative_parts =>
      negb (existsb (fun part => bool_decide (part ∈ exclude_dirs self))
                    relative_parts)
  | None => false
  end.

(** The three tests of the loop of [scan_files] on one path of the
    listing: it is a file, its lower-cased suffix is supported, and it is
    outside the excluded directories. *)
Definition selected (self : Filter) (fs : FS) (p : Path) : bool :=
  bool_decide (is_Some (fs !! p))
  && bool_decide (PyStr.lower (suffix (name p)) ∈ SUPPORTED_EXTENSIONS)
  && outside self p.

(** [scan_files]; [listing] is what [self.root.rglob("*")] yields. *)
Definition scan_files (self : Filter) (fs : FS) (listing : list Path) : list Path :=
  List.filter (selected self fs) listing.

(** [self.stats] of the organiser, without the two counters that are in
    [Filter]. *)
Record RunStats := mkRunStats {
  run_total : nat;
  run_processed : nat;
  run_by_year : gmap Z nat;
  run_other_years : nat;
  run_unknown : nat;
  run_errors : nat }.

(** The dictionary returned by [process_file]. *)
Record Processed := mkProcessed {
  res_path : Path;
  res_year : option Z;
  res_source : string;
  res_confidence : Q;
  res_title : string;
  res_artist : string;
  res_success : bool;
  res_error : option string }.

Definition bump_processed (st : RunStats) : RunStats :=
  mkRunStats (run_total st) (S (run_processed st)) (run_by_year st)
             (run_other_years st) (run_unknown st) (run_errors st).
Definition bump_errors (st : RunStats) : RunStats :=
  mkRunStats (run_total st) (run_processed st) (run_by_year st)
             (run_other_years st) (run_unknown st) (S (run_errors st)).

(** The counting of [process_file]:
<<
    if year in self.target_years: self.stats['by_year'][year] += 1
    elif year:                    self.stats['other_years'] += 1
    else:                         self.stats['unknown'] += 1
>>
    A year that is not a key of [by_year] raises [KeyError]. *)
Definition count_year (targets : gset Z) (year : option Z) (st : RunStats)
    : Exc RunStats :=
  match year with
  | Some y =>
      if bool_decide (y ∈ targets) then
        match run_by_year st !! y with
        | Some v =>
            Ok (mkRunStats (run_total st) (run_processed st)
                           (<[y := S v]> (run_by_year st))
                           (run_other_years st) (run_unknown st) (run_errors st))
        | None => Raise "KeyError"
        end
      else if PyInt.truthy year then
        Ok (mkRunStats (run_total st) (run_processed st) (run_by_year st)
                       (S (run_other_years st)) (run_unknown st) (run_errors st))
      else
        Ok (mkRunStats (run_total st) (run_processed st) (run_by_year st)
                       (run_other_years st) (S (run_unknown st)) (run_errors st))
  | None =>
      Ok (mkRunStats (run_total st) (run_processed st) (run_by_year st)
                     (run_other_years st) (S (run_unknown st)) (run_errors st))
  end.

(** The handler of [process_file]: one error more, and a dictionary with
    [success] false. *)
Definition process_failed (file_path : Path) (e : string)
    (identifier : Identifier) (st : RunStats)
    : Processed * Identifier * RunStats :=
  (mkProcessed file_path None "error" 0%Q
               (PyStr.prefix 35 (stem (name file_path))) "Unknown" false (Some e),
   identifier, bump_errors st).

(** [process_file]. The dictionary of metadata always has the keys
    [title] and [artist], so the defaults of [metadata.get] are never
    used: a value [None] is sliced, which raises [TypeError]. What the
    body did to the counters before it raised stays done. *)
Definition process_file (env : Env) (targets : gset Z) (file_path : Path)
    (identifier : Identifier) (st : RunStats)
    : Processed * Identifier * RunStats :=
  match identify_year env file_path identifier with
  | (Raise e, identifier) => process_failed file_path e identifier st
  | (Ok (year, source, confidence), identifier) =>
      match extract_metadata env file_path identifier with
      | (Raise e, identifier) => process_failed file_path e identifier st
      | (Ok metadata, identifier) =>
          let st := bump_processed st in
          match count_year targets year st with
          | Raise e => process_failed file_path e identifier st
          | Ok st =>
              match md_title metadata with
              | None => process_failed file_path "TypeError" identifier st
              | Some title =>
                  match md_artist metadata with
                  | None => process_failed file_path "TypeError" identifier st
                  | Some artist =>
                      (mkProcessed file_path year source confidence
                                   (PyStr.prefix 35 title) (PyStr.prefix 25 artist)
                                   true None,
                       identifier, st)
                  end
              end
          end
      end
  end.

(** The organiser at work: its identifier, its counters, the attributes
    used by the move, the disk, and the cache that the last call of
    [save_cache] in this run gave to [json.dump] ([None] before the first
    call). Whether the write succeeds is not modelled: [save_cache] passes
    over a failure, and the run does not read the file. *)
Record World := mkWorld {
  w_identifier : Identifier;
  w_stats : RunStats;
  w_filter : Filter;
  w_disk : FS;
  w_saved : option (gmap string CacheVal) }.

(** One turn of the loop of [run]: the file is processed; it is moved when
    the dictionary says [success]; [save_cache] is called when the number
    of files processed is a multiple of 50. *)
Definition run_step (env : Env) (w : World) (file_path : Path) : World :=
  let '(result, identifier, st) :=
    process_file env (target_years (w_filter w)) file_path
                 (w_identifier w) (w_stats w) in
  let '(self, fs) :=
    if res_success result then
      let '(_, fs, self) :=
        move_file (w_filter w) file_path (res_year result)
                  (res_confidence result) (w_disk w) in
      (self, fs)
    else (w_filter w, w_disk w) in
  let saved :=
    if (run_processed st mod 50 =? 0)%nat then Some (cache identifier)
    else w_saved w in
  mkWorld identifier st self fs saved.

(** The organiser after [self.stats['total'] = len(files)]. *)
Definition scanned (w : World) (files : list Path) : World :=
  let st := w_stats w in
  mkWorld (w_identifier w)
          (mkRunStats (length files) (run_processed st) (run_by_year st)
                      (run_other_years st) (run_unknown st) (run_errors st))
          (w_filter w) (w_disk w) (w_saved w).

(** [run], without its interruption by the keyboard: the scan; nothing
    more when no file is found; else the loop and a last call of
    [save_cache]. *)
Definition run (env : Env) (listing : list Path) (w : World) : World :=
  let files := scan_files (w_filter w) (w_disk w) listing in
  let w := scanned w files in
  match files with
  | [] => w
  | _ =>
      let w := fold_left (run_step env) files w in
      mkWorld (w_identifier w) (w_stats w) (w_filter w) (w_disk w)
              (Some (cache (w_identifier w)))
  end.



(** A triple that [identify_year] computes itself, as opposed to one it
    reads in the cache: a year other than 0 with one of the three sources
    and its confidence, or no year. *)
Definition computed (r : Result) : Prop :=
  match r with
  | (Some y, source, confidence) =>
      y <> 0%Z
      /\ ((source = "metadata" /\ confidence = 0.95%Q)
          \/ (source = "spotify" /\ (confidence = 0.85%Q \/ confidence = 0.70%Q))
          \/ (source = "filename" /\ confidence = 0.60%Q
              /\ (2000 <= y <= 2029)%Z))
  | (None, source, confidence) => source = "unknown" /\ confidence = 0%Q
  end.

(** A cache whose values are all entries that [_cache_result] can have
    written. *)
Definition written_by_resolver (c : gmap string CacheVal) : Prop :=
  forall h v, c !! h = Some v ->
    exists y source confidence timestamp,
      v = JObject (mkEntry (Some y) (Some source) (Some confidence) (Some timestamp))
      /\ computed (Some y, source, confidence).

(** Resolutions one after the other: the results, in order, and the
    object after the last. *)
Fixpoint identify_all (env : Env) (files : list Path) (self : Identifier)
    : list Result * Identifier :=
  match files with
  | [] => ([], self)
  | f :: files' =>
      match identify_year env f self with
      | (Ok r, self') =>
          let '(rs, self'') := identify_all env files' self' in (r :: rs, self'')
      | (Raise _, self') => identify_all env files' self'
      end
  end.





(** The tokens of a string, as a set. *)
Definition tokens (s : string) : gset string := list_to_set (PyStr.split s).

(** Every character of a string passes a test. *)
Fixpoint all_chars (p : ascii -> bool) (s : string) : bool :=
  match s with
  | EmptyString => true
  | String c s' => p c && all_chars p s'
  end.

(** A word character or the space. *)
Definition query_char (c : ascii) : bool :=
  PyStr.is_word c || Ascii.eqb c " ".

(** [self.stats] as [__init__] makes it: every counter at zero, one
    counter for each target year. *)
Definition initial_stats (targets : gset Z) : RunStats :=
  mkRunStats 0 0 (gset_to_gmap 0%nat targets) 0 0 0.






(** ** The years asked for *)

(** [s.split(sep)] for a separator of one character; [cur] is the part
    being read. *)
Fixpoint split_on_go (sep : ascii) (s cur : string) : list string :=
  match s with
  | EmptyString => [cur]
  | String c s' =>
      if Ascii.eqb c sep then cur :: split_on_go sep s' EmptyString
      else split_on_go sep s' (PyStr.snoc cur c)
  end.

Definition split_on (sep : ascii) (s : string) : list string :=
  split_on_go sep s EmptyString.

(** [set(range(start, end + 1))] *)
Definition year_range (start stop : Z) : gset Z :=
  list_to_set (map (fun i => (start + Z.of_nat i)%Z)
                   (seq 0 (Z.to_nat (stop + 1 - start)))).

(** [start, end = map(int, s.split('-'))]; [None] stands for the
    [ValueError] of [int] or of the unpacking. *)
Definition range_bounds (s : string) : option (Z * Z) :=
  match split_on "-" s with
  | [a; b] =>
      match PyInt.of_str a, PyInt.of_str b with
      | Some start, Some stop => Some (start, stop)
      | _, _ => None
      end
  | _ => None
  end.

(** [int(y.strip()) for y in parts]; [None] stands for [ValueError]. *)
Fixpoint ints (parts : list string) : option (list Z) :=
  match parts with
  | [] => Some []
  | y :: parts' =>
      match PyInt.of_str (PyStr.strip y) with
      | Some v => option_map (cons v) (ints parts')
      | None => None
      end
  end.

(** [set(int(y.strip()) for y in s.split(','))] *)
Definition year_list (s : string) : option (gset Z) :=
  option_map list_to_set (ints (split_on "," s)).

(** The target years that [main] reads in a non-empty [--years]; [None]
    when it prints the error of format and exits. *)
Definition years_of_argument (years : string) : option (gset Z) :=
  if PyStr.contains "-" years then
    match range_bounds years with
    | Some (start, stop) => Some (year_range start stop)
    | None => None
    end
  else year_list years.

(** Choice 3 of [get_target_years] on what was typed; [None] when it
    prints an error and asks again. *)
Definition range_choice (typed : string) : option (gset Z) :=
  match range_bounds (PyStr.strip typed) with
  | Some (start, stop) =>
      if (1950 <=? start)%Z && (start <=? stop)%Z && (stop <=? 2030)%Z
      then Some (year_range start stop) else None
  | None => None
  end.

(** Choice 4 of [get_target_years]. *)
Definition list_choice (typed : string) : option (gset Z) :=
  match year_list (PyStr.strip typed) with
  | Some years =>
      if forallb (fun y => (1950 <=? y)%Z && (y <=? 2030)%Z) (elements years)
      then Some years else None
  | None => None
  end.

(** ** A session of the organiser, for the examples *)

Module Session.

(** A disk with a tagged file and a file without tags. *)
Definition disk : FS :=
  {[ Example.in_inbox "hello.mp3" := "hello!";
     Example.in_old "song.mp3" := "second!" ]}.

(** What the walk of the root yields. *)
Definition listing : list Path :=
  [ Example.in_inbox "hello.mp3"; Example.in_old "song.mp3" ].

(** The organiser for 2024 and 2025 as its constructor makes it, with the
    search disabled. *)
Definition start (backup : bool) : World :=
  mkWorld (Example.fresh false) (initial_stats {[ 2024%Z; 2025%Z ]})
          (Example.organiser backup) disk None.

End Session.

(** * Properties *)

(** ** Token-set similarity *)

Lemma ratio_bounds (a b : nat) : (a <= b)%nat -> (0 < b)%nat ->
  (0 <= ratio a b)%Q /\ (ratio a b <= 1)%Q.
Proof.
  intros Hab Hb. unfold ratio.
  assert (H1 : (0 <= Z.of_nat a # Pos.of_nat b)%Q).
  { unfold Qle; simpl. lia. }
  assert (H2 : (Z.of_nat a # Pos.of_nat b <= 1)%Q).
  { unfold Qle; simpl. rewrite Z.mul_1_r.
    assert (Z.pos (Pos.of_nat b) = Z.of_nat b) by lia. lia. }
  split.
  - change 0%Q with (Qred 0). apply Qred_le. exact H1.
  - change 1%Q with (Qred 1). apply Qred_le. exact H2.
Qed.

Lemma ratio_same (n : nat) : (0 < n)%nat -> ratio n n = 1%Q.
Proof.
  intros Hn. unfold ratio. change 1%Q with (Qred 1).
  apply Qred_complete. unfold Qeq; simpl. lia.
Qed.

Lemma similarity_sym (s1 s2 : string) : _similarity s1 s2 = _similarity s2 s1.
Proof.
  unfold _similarity.
  rewrite (orb_comm (PyStr.is_empty s1)).
  destruct (PyStr.is_empty s2 || PyStr.is_empty s1); [reflexivity|].
  cbv zeta.
  rewrite (orb_comm (bool_decide (list_to_set (PyStr.split s1) = (∅ : gset string)))).
  set (w1 := list_to_set (PyStr.split s1) : gset string).
  set (w2 := list_to_set (PyStr.split s2) : gset string).
  assert (Ei : w1 ∩ w2 = w2 ∩ w1) by set_solver.
  assert (Eu : w1 ∪ w2 = w2 ∪ w1) by set_solver.
  rewrite Ei, Eu. reflexivity.
Qed.

Lemma similarity_bounds (s1 s2 : string) :
  (0 <= _similarity s1 s2)%Q /\ (_similarity s1 s2 <= 1)%Q.
Proof.
  assert (Z0 : (0 <= 0)%Q /\ (0 <= 1)%Q) by (split; discriminate).
  unfold _similarity.
  destruct (PyStr.is_empty s1 || PyStr.is_empty s2); [exact Z0|].
  cbv zeta.
  destruct (bool_decide _ || bool_decide _); [exact Z0|].
  case_bool_decide as Hu; [exact Z0|].
  apply ratio_bounds.
  - apply subseteq_size. set_solver.
  - destruct (decide (size (list_to_set (PyStr.split s1) ∪ list_to_set (PyStr.split s2) : gset string) = 0%nat)) as [E|E]; [|lia].
    apply size_empty_inv in E. apply leibniz_equiv in E. contradiction.
Qed.

Lemma similarity_refl (a : string) : PyStr.split a <> [] -> _similarity a a = 1%Q.
Proof.
  intros Hw. unfold _similarity.
  assert (Ha : PyStr.is_empty a = false).
  { destruct a; [exfalso; apply Hw; reflexivity | reflexivity]. }
  rewrite Ha. cbv zeta. simpl orb.
  assert (Hne : (list_to_set (PyStr.split a) : gset string) <> ∅).
  { destruct (PyStr.split a) as [|w ws]; [congruence|].
    simpl. set_solver. }
  rewrite (bool_decide_eq_false_2 _ Hne). simpl orb.
  set (w := list_to_set (PyStr.split a) : gset string) in *.
  assert (Ei : w ∩ w = w) by set_solver.
  assert (Eu : w ∪ w = w) by set_solver.
  rewrite Ei, Eu.
  rewrite (bool_decide_eq_false_2 _ Hne).
  apply ratio_same.
  destruct (decide (size w = 0%nat)) as [E|E]; [|lia].
  apply size_empty_inv in E. apply leibniz_equiv in E. contradiction.
Qed.

(** ** Running the methods *)

(** The monad unfolds to its definition. *)
Ltac run := unfold mbind, M_bind, bind, ret, lift, update, get_self, raise, try_except.

Section Runs.

Variable env : Env.

Lemma try_search_run (artist : option string) (title : string) (self : Identifier) :
  _try_search env artist title self
  = (Ok (try_result env artist title), try_state env artist title self).
Proof.
  unfold _try_search, try_result, try_state, api_year, too_short. run.
  destruct (PyStr.is_empty _ || _); [reflexivity|].
  destruct (spotify_search env _) as [[|i items]|e]; try reflexivity.
  destruct (best_of _ _ _ _ _) as [best|e]; [|reflexivity].
  destruct (year_of_best best) as [[y|]|e]; reflexivity.
Qed.

Lemma try_state_cache a t self : cache (try_state env a t self) = cache self.
Proof.
  unfold try_state. destruct (too_short _); [reflexivity|].
  destruct (api_year env _ _ _); reflexivity.
Qed.

Lemma try_state_flags a t self :
  spotify (try_state env a t self) = spotify self
  /\ spotify_enabled (try_state env a t self) = spotify_enabled self
  /\ clock (try_state env a t self) = clock self.
Proof.
  unfold try_state. destruct (too_short _); [auto|].
  destruct (api_year env _ _ _); auto.
Qed.

Lemma try_state_trace a t self :
  trace (try_state env a t self) = (trace self ++ try_events a t)%list.
Proof.
  unfold try_state, try_events. destruct (too_short _); [reflexivity|].
  destruct (api_year env _ _ _); simpl; rewrite <- app_assoc; reflexivity.
Qed.

Lemma strategy_run guard a t rest self :
  strategy guard (_try_search env a t) rest self
  = if guard
    then if PyInt.truthy (try_result env a t)
         then (Ok (try_result env a t), try_state env a t self)
         else rest (try_state env a t self)
    else rest self.
Proof.
  unfold strategy. destruct guard; [|reflexivity].
  run. rewrite try_search_run. destruct (PyInt.truthy _); reflexivity.
Qed.

Lemma strategy_attempts guard a t rest l :
  (forall s, rest s = attempts_run env l s) ->
  forall s, strategy guard (_try_search env a t) rest s
            = attempts_run env ((if guard then [(a, t)] else []) ++ l) s.
Proof.
  intros H s. rewrite strategy_run.
  destruct guard; cbn [app attempts_run]; [|apply H].
  destruct (PyInt.truthy (try_result env a t)); [reflexivity | apply H].
Qed.

Lemma search_spotify_run title artist self :
  search_spotify env title artist self
  = let self1 := record (CallSearchSpotify title artist) self in
    if negb (spotify_enabled self) || negb (spotify self) then (Ok None, self1)
    else attempts_run env (applicable (clean_artist_of env artist)
                                  (clean_title_of env title)) self1.
Proof.
  unfold search_spotify. run. cbv zeta.
  change (spotify_enabled (record (CallSearchSpotify title artist) self))
    with (spotify_enabled self).
  change (spotify (record (CallSearchSpotify title artist) self))
    with (spotify self).
  destruct (negb _ || negb _); [reflexivity|].
  unfold applicable.
  rewrite <- (app_nil_r (if guard5 _ then _ else _)).
  do 5 (apply strategy_attempts; intros ?).
  reflexivity.
Qed.

Lemma attempts_run_spec l : forall self,
  exists self',
    attempts_run env l self = (Ok (attempts_result env l), self')
    /\ cache self' = cache self
    /\ spotify self' = spotify self
    /\ spotify_enabled self' = spotify_enabled self
    /\ clock self' = clock self
    /\ trace self' = (trace self ++ attempts_events env l)%list.
Proof.
  induction l as [|[a t] l IH]; intros self; cbn [attempts_run attempts_result attempts_events].
  - exists self. rewrite app_nil_r. auto 10.
  - destruct (try_state_flags a t self) as (F1 & F2 & F3).
    destruct (PyInt.truthy (try_result env a t)).
    + exists (try_state env a t self). rewrite app_nil_r.
      rewrite try_state_cache, try_state_trace. auto 10.
    + destruct (IH (try_state env a t self)) as (self' & E & C & S1 & S2 & K & T).
      exists self'. rewrite E, C, S1, S2, K, T.
      rewrite try_state_cache, try_state_trace, F1, F2, F3, app_assoc. auto 10.
Qed.

Lemma search_spotify_spec title artist self :
  let enabled := spotify_enabled self && spotify self in
  exists self',
    search_spotify env title artist self
    = (Ok (search_result env enabled title artist), self')
    /\ cache self' = cache self
    /\ spotify self' = spotify self
    /\ spotify_enabled self' = spotify_enabled self
    /\ clock self' = clock self
    /\ trace self' = (trace self ++ search_events env enabled title artist)%list.
Proof.
  intros enabled. rewrite search_spotify_run. cbv zeta.
  unfold search_result, search_events, enabled.
  destruct (attempts_run_spec
              (applicable (clean_artist_of env artist) (clean_title_of env title))
              (record (CallSearchSpotify title artist) self))
    as (self' & E & C & S1 & S2 & K & T).
  destruct (spotify_enabled self) eqn:E1, (spotify self) eqn:E2;
    simpl negb; simpl orb; simpl andb; cbv iota.
  - exists self'. rewrite E, C, S1, S2, K, T. simpl.
    rewrite <- app_assoc. auto 10.
  - exists (record (CallSearchSpotify title artist) self). simpl. auto 10.
  - exists (record (CallSearchSpotify title artist) self). simpl. auto 10.
  - exists (record (CallSearchSpotify title artist) self). simpl. auto 10.
Qed.

Lemma cache_result_run file_hash y source confidence self :
  _cache_result env file_hash (Some y, source, confidence) self
  = (Ok tt, store env file_hash y source confidence self).
Proof. reflexivity. Qed.

Lemma truthy_some (o : option Z) :
  PyInt.truthy o = true -> exists y, o = Some y /\ y <> 0%Z.
Proof.
  destruct o as [y|]; simpl; [|discriminate].
  intros H. exists y. split; [reflexivity|].
  destruct (Z.eqb_spec y 0); [discriminate | assumption].
Qed.

End Runs.

(** ** The waterfall of [identify_year] *)

Section Waterfall.

Variable env : Env.

Lemma identify_year_hit file_path self e :
  cache self !! get_file_hash env file_path = Some (JObject e) ->
  identify_year env file_path self
  = (Ok (entry_year e, default "cache" (entry_source e),
         default 0.5%Q (entry_confidence e)),
     set_stats bump_cache_hits self).
Proof.
  intros H. unfold identify_year, identify_year_try. run. rewrite H. reflexivity.
Qed.

Lemma identify_year_hit_other file_path self :
  cache self !! get_file_hash env file_path = Some JOther ->
  identify_year env file_path self = (Ok unknown, set_stats bump_cache_hits self).
Proof.
  intros H. unfold identify_year, identify_year_try. run. rewrite H. reflexivity.
Qed.

Lemma identify_year_metadata file_path self y :
  cache self !! get_file_hash env file_path = None ->
  md_year (metadata_of env file_path) = Some y -> y <> 0%Z ->
  identify_year env file_path self
  = (Ok (Some y, "metadata", 0.95%Q),
     store env (get_file_hash env file_path) y "metadata" 0.95%Q
           (set_stats bump_metadata_hits
              (record (CallExtractMetadata file_path) self))).
Proof.
  intros H Hy Hz. unfold identify_year, identify_year_try, extract_metadata.
  run. rewrite H. rewrite Hy. unfold PyInt.truthy.
  destruct (Z.eqb_spec y 0); [contradiction|]. reflexivity.
Qed.

(** After a miss and without a year in the tags: the search step, then the
    file name. [self2] is the object after the search step. *)
Lemma identify_year_fallthrough file_path self :
  cache self !! get_file_hash env file_path = None ->
  PyInt.truthy (md_year (metadata_of env file_path)) = false ->
  let md := metadata_of env file_path in
  let self1 := record (CallExtractMetadata file_path) self in
  let h := get_file_hash env file_path in
  exists self2,
    cache self2 = cache self
    /\ clock self2 = clock self
    /\ trace self2 = (trace self1 ++ spotify_events env self md)%list
    /\ identify_year env file_path self
       = match spotify_year env self md with
         | Some y =>
             if negb (y =? 0)%Z
             then (Ok (Some y, "spotify", spotify_confidence md),
                   store env h y "spotify" (spotify_confidence md) self2)
             else match filename_year file_path with
                  | Some y' =>
                      (Ok (Some y', "filename", 0.60%Q),
                       store env h y' "filename" 0.60%Q
                             (set_stats bump_filename_hits self2))
                  | None => (Ok unknown, self2)
                  end
         | None =>
             match filename_year file_path with
             | Some y' =>
                 (Ok (Some y', "filename", 0.60%Q),
                  store env h y' "filename" 0.60%Q
                        (set_stats bump_filename_hits self2))
             | None => (Ok unknown, self2)
             end
         end.
Proof.
  intros H Hy md self1 h.
  unfold identify_year, identify_year_try, extract_metadata.
  run. rewrite H. rewrite Hy. fold md.
  fold self1. fold h.
  change (spotify_enabled self1) with (spotify_enabled self).
  unfold spotify_year, spotify_events, wants_search. fold md.
  destruct (spotify_enabled self && str_truthy (md_title md)) eqn:W.
  - destruct (search_spotify_spec env (default EmptyString (md_title md))
                (md_artist md) self1) as (self2 & E & C & S1 & S2 & K & T).
    cbv zeta in E.
    change (spotify_enabled self1) with (spotify_enabled self) in E, T.
    change (spotify self1) with (spotify self) in E, T.
    exists self2. rewrite E.
    split; [exact C|]. split; [exact K|]. split; [exact T|].
    fold filename_year.
    destruct (search_result env _ _ _) as [y|]; unfold PyInt.truthy.
    + destruct (negb (y =? 0)%Z).
      * reflexivity.
      * unfold filename_year. destruct (YearPattern.scan _ _); reflexivity.
    + unfold filename_year. destruct (YearPattern.scan _ _); reflexivity.
  - exists self1. rewrite app_nil_r.
    split; [reflexivity|]. split; [reflexivity|]. split; [reflexivity|].
    unfold filename_year. destruct (YearPattern.scan _ _); reflexivity.
Qed.

End Waterfall.


(** ** The claims on the similarity *)

(** C9, as stated, fails on a string of whitespace: it is not empty, it has
    no token, and its similarity with itself is 0. *)
Lemma similarity_blank_counterexample :
  ~ (forall a b : string,
       _similarity a b = _similarity b a
       /\ (0 <= _similarity a b)%Q /\ (_similarity a b <= 1)%Q
       /\ (a <> EmptyString -> _similarity a a = 1%Q)).
Proof.
  intros H. destruct (H " " " ") as (_ & _ & _ & H1).
  assert (E : _similarity " " " " = 0%Q) by (vm_compute; reflexivity).
  rewrite E in H1. discriminate H1. discriminate.
Qed.

(** C9 (amended). For all strings [a] and [b] the token-set similarity is
    symmetric, [_similarity a b = _similarity b a], its value lies between
    0 and 1, and [_similarity a a = 1] for every string [a] that has at
    least one token, that is at least one character that is not
    whitespace. *)
Theorem similarity_symmetric_bounded_reflexive :
  forall a b : string,
    _similarity a b = _similarity b a
    /\ (0 <= _similarity a b)%Q /\ (_similarity a b <= 1)%Q
    /\ (PyStr.split a <> [] -> _similarity a a = 1%Q).
Proof.
  intros a b. split; [apply similarity_sym|].
  destruct (similarity_bounds a b) as [H0 H1].
  split; [exact H0|]. split; [exact H1|]. apply similarity_refl.
Qed.

Lemma similarity_symmetric_bounded_reflexive_witness :
  PyStr.split "ao vivo" <> [] /\ _similarity "ao vivo" "ao vivo" = 1%Q.
Proof.
  split; [discriminate|].
  destruct (similarity_symmetric_bounded_reflexive "ao vivo" "vivo") as (_ & _ & _ & H).
  apply H. discriminate.
Defined.

(** ** The cache *)

Section Cache.

Variable env : Env.

Lemma store_lookup h y source confidence self :
  cache (store env h y source confidence self) !! h
  = Some (JObject (mkEntry (Some y) (Some source) (Some confidence)
                           (Some (now_isoformat env (clock self))))).
Proof. unfold store. simpl. apply lookup_insert_eq. Qed.

Lemma identify_year_returns file_path self :
  exists r self', identify_year env file_path self = (Ok r, self').
Proof.
  unfold identify_year. run.
  destruct (identify_year_try env file_path self) as [[a|e] s]; eauto.
Qed.

Lemma identify_year_cases file_path self r self' :
  identify_year env file_path self = (Ok r, self') ->
  Resolution env file_path self r self'.
Proof.
  intros Hrun.
  destruct (cache self !! get_file_hash env file_path) as [[e|]|] eqn:Hc.
  - rewrite (identify_year_hit env _ _ _ Hc) in Hrun.
    injection Hrun as <- <-. apply ResHit; assumption.
  - rewrite (identify_year_hit_other env _ _ Hc) in Hrun.
    injection Hrun as <- <-. apply ResHitOther; assumption.
  - destruct (PyInt.truthy (md_year (metadata_of env file_path))) eqn:Ht.
    + destruct (truthy_some _ Ht) as (y & Hy & Hz).
      rewrite (identify_year_metadata env _ _ _ Hc Hy Hz) in Hrun.
      injection Hrun as <- <-. apply ResFound; [assumption | reflexivity].
    + destruct (identify_year_fallthrough env _ _ Hc Ht)
        as (self2 & C & _ & _ & E).
      rewrite E in Hrun. clear E.
      destruct (spotify_year env self _) as [y|].
      * destruct (negb (y =? 0)%Z).
        -- injection Hrun as <- <-. apply ResFound; assumption.
        -- destruct (filename_year file_path);
             injection Hrun as <- <-;
             [apply ResFound | apply ResUnknown]; assumption.
      * destruct (filename_year file_path);
          injection Hrun as <- <-;
          [apply ResFound | apply ResUnknown]; assumption.
Qed.

(** A resolution that returns a year leaves it in the cache, under the
    fingerprint of the file. *)
Lemma resolved_is_cached file_path self r self1 :
  identify_year env file_path self = (Ok r, self1) ->
  r.1.1 <> None ->
  exists e,
    cache self1 !! get_file_hash env file_path = Some (JObject e)
    /\ r = cached_triple e.
Proof.
  intros Hrun Hy. destruct (identify_year_cases _ _ _ _ Hrun)
    as [e Hc | Hc | y source confidence self2 Hc C | self2 Hc C].
  - exists e. split; [exact Hc | reflexivity].
  - exfalso. apply Hy. reflexivity.
  - eexists. split; [apply store_lookup | reflexivity].
  - exfalso. apply Hy. reflexivity.
Qed.

End Cache.

(** C2. When [identify_year] has returned a year for a file and is called
    again on the file, unchanged (the fingerprint is a function of the
    file, so it is the same), the second call finds the entry in the
    cache and returns its triple, which is the triple of the first call;
    it only increments the counter of cache hits: the list of calls made
    (tag extraction, searches) and the cache are as the first call left
    them. *)
Theorem second_resolution_from_cache :
  forall env file_path self r self1,
    identify_year env file_path self = (Ok r, self1) ->
    r.1.1 <> None ->
    exists e self2,
      cache self1 !! get_file_hash env file_path = Some (JObject e)
      /\ r = cached_triple e
      /\ identify_year env file_path self1 = (Ok r, self2)
      /\ trace self2 = trace self1
      /\ cache self2 = cache self1
      /\ stats self2 = bump_cache_hits (stats self1).
Proof.
  intros env file_path self r self1 Hrun Hy.
  destruct (resolved_is_cached env _ _ _ _ Hrun Hy) as (e & Hc & ->).
  exists e, (set_stats bump_cache_hits self1).
  split; [exact Hc|]. split; [reflexivity|].
  split; [apply identify_year_hit; exact Hc|].
  split; [reflexivity|]. split; reflexivity.
Qed.

Lemma second_resolution_from_cache_witness :
  exists e self2,
    cache (identify_year (Example.process Example.library Example.silent)
             (Example.in_music "hello.mp3") (Example.fresh true)).2
      !! get_file_hash (Example.process Example.library Example.silent)
                       (Example.in_music "hello.mp3") = Some (JObject e)
    /\ (Some 2024%Z, "metadata", 0.95%Q) = cached_triple e
    /\ identify_year (Example.process Example.library Example.silent)
         (Example.in_music "hello.mp3")
         (identify_year (Example.process Example.library Example.silent)
            (Example.in_music "hello.mp3") (Example.fresh true)).2
       = (Ok (Some 2024%Z, "metadata", 0.95%Q), self2)
    /\ trace self2
       = trace (identify_year (Example.process Example.library Example.silent)
                  (Example.in_music "hello.mp3") (Example.fresh true)).2
    /\ cache self2
       = cache (identify_year (Example.process Example.library Example.silent)
                  (Example.in_music "hello.mp3") (Example.fresh true)).2
    /\ stats self2
       = bump_cache_hits
           (stats (identify_year (Example.process Example.library Example.silent)
                     (Example.in_music "hello.mp3") (Example.fresh true)).2).
Proof.
  apply (second_resolution_from_cache
           (Example.process Example.library Example.silent)
           (Example.in_music "hello.mp3") (Example.fresh true)).
  - vm_compute. reflexivity.
  - discriminate.
Defined.

(** C1, as stated, fails on a file whose tags are dated 0000: the
    dictionary of metadata holds the year 0, the cache misses, and
    [identify_year] goes on to the search (three calls of the service) and
    to the file name, and returns [(None, 'unknown', 0.0)]. *)
Lemma metadata_year_zero_counterexample :
  cache (Example.fresh true)
    !! get_file_hash (Example.process Example.library Example.catalogue)
                     (Example.in_music "zero.mp3") = None
  /\ md_year (metadata_of (Example.process Example.library Example.catalogue)
                          (Example.in_music "zero.mp3")) = Some 0%Z
  /\ (identify_year (Example.process Example.library Example.catalogue)
        (Example.in_music "zero.mp3") (Example.fresh true)).1
     = Ok (None, "unknown", 0%Q)
  /\ trace (identify_year (Example.process Example.library Example.catalogue)
              (Example.in_music "zero.mp3") (Example.fresh true)).2
     = [ CallExtractMetadata (Example.in_music "zero.mp3");
         CallSearchSpotify "Zero Song" (Some "Nobody");
         CallTrySearch (Some "Nobody") "Zero Song";
         CallApiSearch "Nobody Zero Song";
         CallTrySearch None "Zero Song";
         CallApiSearch "Zero Song";
         CallTrySearch (Some "Nobody") "Zero Song";
         CallApiSearch "Nobody Zero Song" ].
Proof.
  split; [reflexivity|]. split; [vm_compute; reflexivity|].
  split; vm_compute; reflexivity.
Qed.

(** C1 (amended). For every file on which the cache lookup misses and
    whose extracted metadata hold a year other than 0, [identify_year]
    returns exactly (that year, 'metadata', 0.95); the only call it makes
    is the extraction of the metadata: neither [search_spotify] nor
    [_try_search] nor the service is called. *)
Theorem metadata_year_accepted :
  forall env file_path self y,
    cache self !! get_file_hash env file_path = None ->
    md_year (metadata_of env file_path) = Some y ->
    y <> 0%Z ->
    exists self',
      identify_year env file_path self = (Ok (Some y, "metadata", 0.95%Q), self')
      /\ trace self' = (trace self ++ [CallExtractMetadata file_path])%list.
Proof.
  intros env file_path self y Hc Hy Hz.
  eexists. split; [apply identify_year_metadata; assumption|]. reflexivity.
Qed.

Lemma metadata_year_accepted_witness :
  exists self',
    identify_year (Example.process Example.library Example.catalogue)
      (Example.in_music "hello.mp3") (Example.fresh true)
    = (Ok (Some 2024%Z, "metadata", 0.95%Q), self')
    /\ trace self' = [CallExtractMetadata (Example.in_music "hello.mp3")].
Proof.
  apply (metadata_year_accepted
           (Example.process Example.library Example.catalogue)
           (Example.in_music "hello.mp3") (Example.fresh true) 2024%Z).
  - reflexivity.
  - vm_compute. reflexivity.
  - discriminate.
Defined.

(** C3. For every resolution by [identify_year]: when the year returned is
    [None], the cache is left as it was, so no entry is created; when a
    year is returned and the fingerprint was not in the cache, the cache
    afterwards is the cache before with one entry more, under the
    fingerprint, whose year, source and confidence are those of the triple
    returned. *)
Theorem cache_written_iff_year :
  forall env file_path self r self',
    identify_year env file_path self = (Ok r, self') ->
    (r.1.1 = None -> cache self' = cache self)
    /\ (forall y,
          r.1.1 = Some y ->
          cache self !! get_file_hash env file_path = None ->
          exists timestamp,
            cache self'
            = <[ get_file_hash env file_path :=
                   JObject (mkEntry (Some y) (Some r.1.2) (Some r.2)
                                    (Some timestamp)) ]> (cache self)).
Proof.
  intros env file_path self r self' Hrun.
  destruct (identify_year_cases env _ _ _ _ Hrun)
    as [e Hc | Hc | y source confidence self2 Hc C | self2 Hc C]; simpl.
  - split; [reflexivity|]. intros y _ H. rewrite Hc in H. discriminate.
  - split; [reflexivity|]. intros y _ H. rewrite Hc in H. discriminate.
  - split; [discriminate|]. intros y' [= <-] _.
    eexists. unfold store. simpl. rewrite C. reflexivity.
  - split; [intros _; exact C|]. intros y H. discriminate H.
Qed.

Lemma cache_written_iff_year_witness :
  (Some 2024%Z = None ->
   cache (identify_year (Example.process Example.library Example.silent)
            (Example.in_music "hello.mp3") (Example.fresh true)).2
   = cache (Example.fresh true))
  /\ (forall y,
        Some 2024%Z = Some y ->
        cache (Example.fresh true)
          !! get_file_hash (Example.process Example.library Example.silent)
                           (Example.in_music "hello.mp3") = None ->
        exists timestamp,
          cache (identify_year (Example.process Example.library Example.silent)
                   (Example.in_music "hello.mp3") (Example.fresh true)).2
          = <[ get_file_hash (Example.process Example.library Example.silent)
                             (Example.in_music "hello.mp3") :=
                 JObject (mkEntry (Some y) (Some "metadata") (Some 0.95%Q)
                                  (Some timestamp)) ]>
              (cache (Example.fresh true))).
Proof.
  apply (cache_written_iff_year
           (Example.process Example.library Example.silent)
           (Example.in_music "hello.mp3") (Example.fresh true)
           (Some 2024%Z, "metadata", 0.95%Q)).
  vm_compute. reflexivity.
Defined.

(** C10, as stated, fails for a file whose name does not encode: the
    [try] of [get_file_hash] also covers [file_path.name.encode()], and
    its handler returns the path. Two files of that name, of the same size
    and time, in two directories have two fingerprints: their paths. *)
Lemma fingerprint_undecodable_counterexample :
  name (Example.in_music Example.undecodable)
  = name (Example.in_inbox Example.undecodable)
  /\ os_stat (Example.process Example.library Example.silent)
             (Example.in_music Example.undecodable)
     = os_stat (Example.process Example.library Example.silent)
               (Example.in_inbox Example.undecodable)
  /\ os_stat (Example.process Example.library Example.silent)
             (Example.in_music Example.undecodable)
     = Ok (mkStat 4096 (1700000000 # 1))
  /\ get_file_hash (Example.process Example.library Example.silent)
                   (Example.in_music Example.undecodable)
     = path_str (Example.in_music Example.undecodable)
  /\ get_file_hash (Example.process Example.library Example.silent)
                   (Example.in_inbox Example.undecodable)
     = path_str (Example.in_inbox Example.undecodable)
  /\ get_file_hash (Example.process Example.library Example.silent)
                   (Example.in_music Example.undecodable)
     <> get_file_hash (Example.process Example.library Example.silent)
                      (Example.in_inbox Example.undecodable).
Proof.
  split; [reflexivity|]. split; [reflexivity|]. split; [reflexivity|].
  split; [vm_compute; reflexivity|]. split; [vm_compute; reflexivity|].
  vm_compute. discriminate.
Qed.

(** C10 (amended). The fingerprint computed by [get_file_hash] from a file
    whose [stat] can be read and whose name can be encoded is a function
    of the base name, the size and the modification time: two such files,
    in whatever directories, with the same base name, size and time have
    the same fingerprint. They share one cache entry: once [identify_year]
    has returned a year for the first, it returns the same triple for the
    second from the cache, without extracting tags or searching. The
    fingerprint of a file whose name cannot be encoded is its path. *)
Theorem fingerprint_ignores_directory :
  forall env f1 f2 st1 st2 encoded,
    name f1 = name f2 ->
    os_stat env f1 = Ok st1 ->
    os_stat env f2 = Ok st2 ->
    st_size st1 = st_size st2 ->
    st_mtime st1 = st_mtime st2 ->
    str_encode env (name f1) = Ok encoded ->
    get_file_hash env f1 = get_file_hash env f2
    /\ (forall self r self1,
          identify_year env f1 self = (Ok r, self1) ->
          r.1.1 <> None ->
          exists self2,
            identify_year env f2 self1 = (Ok r, self2)
            /\ trace self2 = trace self1
            /\ cache self2 = cache self1)
    /\ (forall f e,
          str_encode env (name f) = Raise e ->
          get_file_hash env f = path_str f).
Proof.
  intros env f1 f2 st1 st2 encoded Hn H1 H2 Hs Hm He.
  assert (Hh : get_file_hash env f1 = get_file_hash env f2).
  { unfold get_file_hash. rewrite H1, H2, <- Hn, He, Hs, Hm. reflexivity. }
  split; [exact Hh|]. split.
  - intros self r self1 Hrun Hy.
    destruct (resolved_is_cached env _ _ _ _ Hrun Hy) as (e & Hc & ->).
    rewrite Hh in Hc.
    exists (set_stats bump_cache_hits self1).
    split; [apply identify_year_hit; exact Hc|]. split; reflexivity.
  - intros f e Hf. unfold get_file_hash. rewrite Hf.
    destruct (os_stat env f); reflexivity.
Qed.

Lemma fingerprint_ignores_directory_witness :
  get_file_hash (Example.process Example.library Example.silent)
                (Example.in_music "hello.mp3")
  = get_file_hash (Example.process Example.library Example.silent)
                  (Example.in_inbox "hello.mp3")
  /\ (forall self r self1,
        identify_year (Example.process Example.library Example.silent)
                      (Example.in_music "hello.mp3") self = (Ok r, self1) ->
        r.1.1 <> None ->
        exists self2,
          identify_year (Example.process Example.library Example.silent)
                        (Example.in_inbox "hello.mp3") self1 = (Ok r, self2)
          /\ trace self2 = trace self1
          /\ cache self2 = cache self1).
Proof.
  destruct (fingerprint_ignores_directory
              (Example.process Example.library Example.silent)
              (Example.in_music "hello.mp3") (Example.in_inbox "hello.mp3")
              (mkStat 4096 (1700000000 # 1)) (mkStat 4096 (1700000000 # 1))
              "hello.mp3" eq_refl eq_refl eq_refl eq_refl eq_refl eq_refl)
    as (H1 & H2 & _).
  split; [exact H1 | exact H2].
Defined.

(** ** Failures of the libraries *)

Section Failures.

Variable env : Env.

Lemma best_of_malformed artist title items : forall best_match best_score,
  existsb malformed items = true ->
  exists e, best_of artist title items best_match best_score = Raise e.
Proof.
  induction items as [|[n arts rd|] items IH]; intros bm bs H; simpl in H.
  - discriminate.
  - cbn [best_of]. destruct (Qlt_bool _ _); apply IH; exact H.
  - eexists. reflexivity.
Qed.

Lemma api_year_quiet artist title query :
  api_year (without_failures env) artist title query
  = api_year env artist title query.
Proof.
  unfold api_year. cbn [spotify_search without_failures usable].
  destruct (spotify_search env query) as [items|e]; cbn [usable]; [|reflexivity].
  destruct (existsb malformed items) eqn:Hm; [|reflexivity].
  destruct items as [|i items]; [reflexivity|].
  destruct (best_of_malformed artist title (i :: items) None 0 Hm) as [e ->].
  reflexivity.
Qed.

Lemma try_search_quiet artist title self :
  _try_search (without_failures env) artist title self
  = _try_search env artist title self.
Proof.
  rewrite !try_search_run. unfold try_result, try_state.
  rewrite api_year_quiet. reflexivity.
Qed.






End Failures.



(** ** The year of the file name *)

Section FilenameYear.

Import YearPattern.

Lemma from_empty n : from n EmptyString = EmptyString.
Proof. destruct n; reflexivity. Qed.

(** [re.search] returns the match at the least offset. *)
Lemma search_leftmost (here : string -> option string) (s : string) (g : string) :
  search here s = Some g
  <-> exists n, here (from n s) = Some g
                /\ forall m, (m < n)%nat -> here (from m s) = None.
Proof.
  induction s as [|c s IH]; cbn [search].
  - split.
    + intros H. exists 0%nat. split; [|intros m Hm; lia].
      cbn [from]. destruct (here EmptyString); [exact H | discriminate].
    + intros (n & H & _). rewrite from_empty in H. rewrite H. reflexivity.
  - destruct (here (String c s)) as [g0|] eqn:Hh.
    + split.
      * intros [= <-]. exists 0%nat. split; [exact Hh | intros m Hm; lia].
      * intros (n & H & Hmin). destruct n as [|n].
        -- cbn [from] in H. congruence.
        -- specialize (Hmin 0%nat ltac:(lia)). cbn [from] in Hmin. congruence.
    + rewrite IH. split.
      * intros (n & H & Hmin). exists (S n). split; [exact H|].
        intros [|m] Hm; [exact Hh | apply Hmin; lia].
      * intros (n & H & Hmin). destruct n as [|n].
        -- cbn [from] in H. congruence.
        -- exists n. split; [exact H|]. intros m Hm.
           apply (Hmin (S m)). lia.
Qed.

Lemma search_here (here : string -> option string) (s g : string) :
  search here s = Some g -> exists n, here (from n s) = Some g.
Proof. intros H. apply search_leftmost in H as (n & H & _). eauto. Qed.

Lemma inner_here_token s g : inner_here s = Some g -> is_token g.
Proof.
  destruct s as [|x [|a [|b [|c [|d [|y r]]]]]]; try discriminate.
  cbn [inner_here]. destruct (non_digit x && token a b c d && non_digit y) eqn:E;
    [|discriminate].
  intros [= <-]. exists a, b, c, d. split; [reflexivity|].
  apply andb_prop in E as [E _]. apply andb_prop in E as [_ E]. exact E.
Qed.

Lemma start_here_token s g : start_here s = Some g -> is_token g.
Proof.
  destruct s as [|a [|b [|c [|d [|y r]]]]]; try discriminate.
  cbn [start_here]. destruct (token a b c d && non_digit y) eqn:E; [|discriminate].
  intros [= <-]. exists a, b, c, d. split; [reflexivity|].
  apply andb_prop in E as [E _]. exact E.
Qed.

Lemma end_here_token s g : end_here s = Some g -> is_token g.
Proof.
  destruct s as [|x [|a [|b [|c [|d r]]]]]; try discriminate.
  cbn [end_here]. destruct (non_digit x && token a b c d && at_dollar r) eqn:E;
    [|discriminate].
  intros [= <-]. exists a, b, c, d. split; [reflexivity|].
  apply andb_prop in E as [E _]. apply andb_prop in E as [_ E]. exact E.
Qed.

Lemma first_group_token s g : first_group s = Some g -> is_token g.
Proof.
  unfold first_group, inner, at_start, at_end.
  destruct (search inner_here s) as [g1|] eqn:E1.
  { intros [= <-]. apply search_here in E1 as [n E1].
    exact (inner_here_token _ _ E1). }
  destruct (start_here s) as [g2|] eqn:E2.
  { intros [= <-]. exact (start_here_token _ _ E2). }
  intros E3. apply search_here in E3 as [n E3]. exact (end_here_token _ _ E3).
Qed.

(** The value of a token lies between 2000 and 2029: the test
    [2000 <= year <= 2030] of the loop never fails. *)
Lemma token_range g :
  is_token g -> (2000 <= PyStr.digits_val 0 g <= 2029)%Z.
Proof.
  intros (a & b & c & d & -> & H). unfold token in H.
  apply andb_prop in H as [H Hd]. apply andb_prop in H as [H Hc].
  apply andb_prop in H as [Ha Hb].
  apply Ascii.eqb_eq in Ha, Hb. subst a b.
  unfold PyStr.is_digit in Hd. apply andb_prop in Hd as [Hd1 Hd2].
  apply Nat.leb_le in Hd1, Hd2.
  unfold group. cbn [PyStr.digits_val]. unfold PyStr.digit_val.
  change (nat_of_ascii "2") with 50%nat. change (nat_of_ascii "0") with 48%nat.
  apply orb_prop in Hc as [Hc|Hc]; [apply orb_prop in Hc as [Hc|Hc]|];
    apply Ascii.eqb_eq in Hc; subst c;
    [change (nat_of_ascii "0") with 48%nat
    |change (nat_of_ascii "1") with 49%nat
    |change (nat_of_ascii "2") with 50%nat]; lia.
Qed.

Lemma scan_first_group s :
  scan year_patterns s = option_map (PyStr.digits_val 0) (first_group s).
Proof.
  assert (R : forall g, is_token g ->
              (2000 <=? PyStr.digits_val 0 g)%Z && (PyStr.digits_val 0 g <=? 2030)%Z
              = true).
  { intros g Hg. apply token_range in Hg.
    apply andb_true_intro. split; apply Z.leb_le; lia. }
  pose proof (first_group_token s) as Ht.
  unfold year_patterns, first_group in *. cbn [scan].
  destruct (inner s) as [g1|].
  { rewrite (R g1 (Ht _ eq_refl)). reflexivity. }
  destruct (at_start s) as [g2|].
  { rewrite (R g2 (Ht _ eq_refl)). reflexivity. }
  destruct (at_end s) as [g3|]; [|reflexivity].
  rewrite (R g3 (Ht _ eq_refl)). reflexivity.
Qed.

(** Every match of a pattern is a bounded token in the sense of the
    specification: a stem without such a token matches no pattern. *)
Lemma inner_bounded s : forall prev g,
  search inner_here s = Some g -> SpecScan.first_token prev s <> None.
Proof.
  induction s as [|x s IH]; intros prev g H; cbn [search] in H.
  - discriminate.
  - cbn [SpecScan.first_token].
    destruct (SpecScan.token_here prev (String x s)); [discriminate|].
    destruct (inner_here (String x s)) as [g0|] eqn:Hh.
    + destruct s as [|a [|b [|c [|d [|y r]]]]]; try discriminate.
      cbn [inner_here] in Hh.
      destruct (non_digit x && token a b c d && non_digit y) eqn:E; [|discriminate].
      apply andb_prop in E as [E Ey]. apply andb_prop in E as [Ex Et].
      cbn [SpecScan.first_token SpecScan.token_here SpecScan.left_ok SpecScan.right_ok].
      rewrite Ex, Et, Ey. discriminate.
    + exact (IH _ _ H).
Qed.

Lemma end_bounded s : forall prev g,
  search end_here s = Some g -> SpecScan.first_token prev s <> None.
Proof.
  induction s as [|x s IH]; intros prev g H; cbn [search] in H.
  - discriminate.
  - cbn [SpecScan.first_token].
    destruct (SpecScan.token_here prev (String x s)); [discriminate|].
    destruct (end_here (String x s)) as [g0|] eqn:Hh.
    + destruct s as [|a [|b [|c [|d r]]]]; try discriminate.
      cbn [end_here] in Hh.
      destruct (non_digit x && token a b c d && at_dollar r) eqn:E; [|discriminate].
      apply andb_prop in E as [E Er]. apply andb_prop in E as [Ex Et].
      cbn [SpecScan.first_token SpecScan.token_here SpecScan.left_ok].
      rewrite Ex, Et.
      assert (Hr : SpecScan.right_ok r = true).
      { destruct r as [|y [|z r]]; cbn in Er |- *; try reflexivity; try discriminate.
        apply Ascii.eqb_eq in Er. subst y. reflexivity. }
      rewrite Hr. discriminate.
    + exact (IH _ _ H).
Qed.

Lemma first_group_bounded s g :
  first_group s = Some g -> SpecScan.first_token None s <> None.
Proof.
  unfold first_group, inner, at_start, at_end.
  destruct (search inner_here s) as [g1|] eqn:E1.
  { intros _. exact (inner_bounded _ _ _ E1). }
  destruct (start_here s) as [g2|] eqn:E2.
  { intros _.
    destruct s as [|a [|b [|c [|d [|y r]]]]]; try discriminate.
    cbn [start_here] in E2.
    destruct (token a b c d && non_digit y) eqn:E; [|discriminate].
    apply andb_prop in E as [Et Ey].
    cbn [SpecScan.first_token SpecScan.token_here SpecScan.left_ok SpecScan.right_ok].
    rewrite Et, Ey. discriminate. }
  intros E3. exact (end_bounded _ _ _ E3).
Qed.

End FilenameYear.

(** C5, as stated, fails when a token at the start of the stem comes before
    a token inside it: the pattern for tokens inside the stem is tried
    first. In [2021 a 2022 b] the first bounded token is 2021;
    [identify_year] returns 2022. *)
Lemma filename_first_token_counterexample :
  cache (Example.fresh true)
    !! get_file_hash (Example.process Example.library Example.silent)
                     (Example.in_music "2021 a 2022 b.mp3") = None
  /\ md_year (metadata_of (Example.process Example.library Example.silent)
                          (Example.in_music "2021 a 2022 b.mp3")) = None
  /\ spotify_year (Example.process Example.library Example.silent)
       (Example.fresh true)
       (metadata_of (Example.process Example.library Example.silent)
                    (Example.in_music "2021 a 2022 b.mp3")) = None
  /\ SpecScan.first_year (stem "2021 a 2022 b.mp3") = Some 2021%Z
  /\ (identify_year (Example.process Example.library Example.silent)
        (Example.in_music "2021 a 2022 b.mp3") (Example.fresh true)).1
     = Ok (Some 2022%Z, "filename", 0.60%Q).
Proof.
  split; [reflexivity|]. split; [vm_compute; reflexivity|].
  split; [vm_compute; reflexivity|]. split; vm_compute; reflexivity.
Qed.

(** C5 (amended). When the cache misses, the tags give no year other than
    0 and the search gives no year other than 0, [identify_year] tries
    three patterns on the stem, in this order: the token [20[0-2][0-9]]
    at the least offset at which it has a character that is not a digit
    on each side; the token at the start of the stem followed by such a
    character; the token at the least offset at which it is preceded by
    such a character and followed by the end of the stem (or by a newline
    that ends it). The group of the first pattern that matches is returned
    as (year, 'filename', 0.60); its value is between 2000 and 2029, so
    the test of the range never rejects it. The stem
    [Artist - Song (2023) Live] gives (2023, 'filename', 0.60). A stem
    without a token bounded by non-digits or by the start or the end of the
    string gives (None, 'unknown', 0.0). *)
Theorem filename_year_by_pattern_order :
  forall env file_path self,
    cache self !! get_file_hash env file_path = None ->
    PyInt.truthy (md_year (metadata_of env file_path)) = false ->
    PyInt.truthy (spotify_year env self (metadata_of env file_path)) = false ->
    (identify_year env file_path self).1
    = Ok (match YearPattern.first_group (stem (name file_path)) with
          | Some g => (Some (PyStr.digits_val 0 g), "filename", 0.60%Q)
          | None => unknown
          end)
    /\ (forall s g,
          YearPattern.first_group s = Some g ->
          (2000 <= PyStr.digits_val 0 g <= 2029)%Z)
    /\ (forall s,
          YearPattern.first_group s
          = match YearPattern.inner s with
            | Some g => Some g
            | None => match YearPattern.at_start s with
                      | Some g => Some g
                      | None => YearPattern.at_end s
                      end
            end)
    /\ (forall s g,
          YearPattern.inner s = Some g
          <-> exists n,
                YearPattern.inner_here (YearPattern.from n s) = Some g
                /\ forall m, (m < n)%nat ->
                     YearPattern.inner_here (YearPattern.from m s) = None)
    /\ (forall s, YearPattern.at_start s = YearPattern.start_here s)
    /\ (forall s g,
          YearPattern.at_end s = Some g
          <-> exists n,
                YearPattern.end_here (YearPattern.from n s) = Some g
                /\ forall m, (m < n)%nat ->
                     YearPattern.end_here (YearPattern.from m s) = None)
    /\ (stem (name file_path) = "Artist - Song (2023) Live" ->
        (identify_year env file_path self).1
        = Ok (Some 2023%Z, "filename", 0.60%Q))
    /\ (SpecScan.first_token None (stem (name file_path)) = None ->
        (identify_year env file_path self).1 = Ok unknown).
Proof.
  intros env file_path self Hc Ht Hs.
  assert (R : (identify_year env file_path self).1
              = Ok (match YearPattern.first_group (stem (name file_path)) with
                    | Some g => (Some (PyStr.digits_val 0 g), "filename", 0.60%Q)
                    | None => unknown
                    end)).
  { destruct (identify_year_fallthrough env _ _ Hc Ht) as (self2 & _ & _ & _ & E).
    rewrite E. clear E. unfold filename_year. rewrite scan_first_group.
    destruct (spotify_year env self _) as [y|].
    - cbn [PyInt.truthy] in Hs. rewrite Hs.
      destruct (YearPattern.first_group _); reflexivity.
    - destruct (YearPattern.first_group _); reflexivity. }
  split; [exact R|].
  split. { intros s g H. apply token_range. exact (first_group_token _ _ H). }
  split. { reflexivity. }
  split. { intros s g. apply search_leftmost. }
  split. { reflexivity. }
  split. { intros s g. apply search_leftmost. }
  split.
  - intros E. rewrite R, E. reflexivity.
  - intros E. rewrite R.
    destruct (YearPattern.first_group _) as [g|] eqn:Hg; [|reflexivity].
    exfalso. exact (first_group_bounded _ _ Hg E).
Qed.

Lemma filename_year_by_pattern_order_witness :
  (identify_year (Example.process Example.library Example.silent)
     (Example.in_music "Artist - Song (2023) Live.mp3") (Example.fresh true)).1
  = Ok (Some 2023%Z, "filename", 0.60%Q)
  /\ (identify_year (Example.process Example.library Example.silent)
        (Example.in_music "Song Title.mp3") (Example.fresh false)).1
     = Ok unknown.
Proof.
  split.
  - destruct (filename_year_by_pattern_order
                (Example.process Example.library Example.silent)
                (Example.in_music "Artist - Song (2023) Live.mp3")
                (Example.fresh true))
      as (_ & _ & _ & _ & _ & _ & H & _);
      [reflexivity | vm_compute; reflexivity | vm_compute; reflexivity |].
    apply H. vm_compute. reflexivity.
  - destruct (filename_year_by_pattern_order
                (Example.process Example.library Example.silent)
                (Example.in_music "Song Title.mp3") (Example.fresh false))
      as (_ & _ & _ & _ & _ & _ & _ & H);
      [reflexivity | vm_compute; reflexivity | vm_compute; reflexivity |].
    apply H. vm_compute. reflexivity.
Defined.

(** ** The order of the strategies *)

Section Strategies.

Variable env : Env.

Lemma attempts_all_fail l :
  Forall (fails env) l ->
  attempts_result env l = None /\ attempts_events env l = events_of l.
Proof.
  induction 1 as [|[a t] l H _ [IHr IHe]]; [split; reflexivity|].
  unfold fails in H. cbn [fst snd] in H.
  cbn [attempts_result attempts_events events_of flat_map fst snd].
  rewrite H, IHr, IHe. split; reflexivity.
Qed.

Lemma attempts_first_success l1 a t l2 :
  Forall (fails env) l1 ->
  PyInt.truthy (try_result env a t) = true ->
  attempts_result env (l1 ++ (a, t) :: l2) = try_result env a t
  /\ attempts_events env (l1 ++ (a, t) :: l2) = events_of (l1 ++ [(a, t)]).
Proof.
  intros Hf Ht. induction Hf as [|[a' t'] l1 H _ [IHr IHe]].
  - cbn [app attempts_result attempts_events events_of flat_map fst snd].
    rewrite Ht. split; reflexivity.
  - unfold fails in H. cbn [fst snd] in H.
    cbn [app attempts_result attempts_events events_of flat_map fst snd].
    rewrite H, IHr, IHe. split; reflexivity.
Qed.

(** A list of attempts either has a first one that succeeds or none. *)
Lemma attempts_split l :
  Forall (fails env) l
  \/ exists l1 a t l2,
       l = (l1 ++ (a, t) :: l2)%list /\ Forall (fails env) l1
       /\ PyInt.truthy (try_result env a t) = true.
Proof.
  induction l as [|[a t] l IH]; [left; constructor|].
  destruct (PyInt.truthy (try_result env a t)) eqn:Ht.
  - right. exists [], a, t, l. split; [reflexivity|]. split; [constructor | exact Ht].
  - destruct IH as [IH | (l1 & a' & t' & l2 & -> & Hf & Ht')].
    + left. constructor; [exact Ht | exact IH].
    + right. exists ((a, t) :: l1), a', t', l2.
      split; [reflexivity|]. split; [|exact Ht'].
      constructor; [exact Ht | exact Hf].
Qed.

End Strategies.

(** C8, as stated, fails when a strategy finds a candidate whose release
    date is 0000: strategy 1 returns the year 0 (and counts a hit), the
    engine does not return on it, and strategies 2 and 5 call the
    service. *)
Lemma strategy_year_zero_counterexample :
  guard1 (clean_artist_of (Example.process Example.library Example.catalogue)
                          (Some "Nobody"))
         (clean_title_of (Example.process Example.library Example.catalogue)
                         "Zero Song") = true
  /\ (_try_search (Example.process Example.library Example.catalogue)
        (Some "Nobody") "Zero Song" (Example.fresh true)).1 = Ok (Some 0%Z)
  /\ (search_spotify (Example.process Example.library Example.catalogue)
        "Zero Song" (Some "Nobody") (Example.fresh true)).1 = Ok None
  /\ trace (search_spotify (Example.process Example.library Example.catalogue)
              "Zero Song" (Some "Nobody") (Example.fresh true)).2
     = [ CallSearchSpotify "Zero Song" (Some "Nobody");
         CallTrySearch (Some "Nobody") "Zero Song";
         CallApiSearch "Nobody Zero Song";
         CallTrySearch None "Zero Song";
         CallApiSearch "Zero Song";
         CallTrySearch (Some "Nobody") "Zero Song";
         CallApiSearch "Nobody Zero Song" ].
Proof.
  split; [vm_compute; reflexivity|]. split; [vm_compute; reflexivity|].
  split; vm_compute; reflexivity.
Qed.

(** C8 (amended). For every title and artist given to [search_spotify] (on
    an object whose search is enabled and connected), with the cleaned
    title and artist: the strategies that pass their guard are tried in
    the fixed order 1 (artist and title; both not empty), 2 (title alone;
    title not empty), 3 (first artist and title; the artist contains a
    space), 4 (artist and the first 3 words of the title; the title has
    more than 3 words), 5 (the first 2 words of the title, with the artist
    when there is one; the title has at least 2 words). The engine
    returns on the first strategy that yields a year other than 0, with
    that year, and the calls made are those of the strategies up to that
    one; when none does, it returns [None] after all of them. In
    particular, whenever strategy 1 yields a year other than 0,
    strategies 2 to 5 make no call: the only call of the service is the
    query of strategy 1. *)
Theorem strategies_in_order :
  forall env title artist self,
    spotify_enabled self = true ->
    spotify self = true ->
    let ca := clean_artist_of env artist in
    let ct := clean_title_of env title in
    let order :=
      ((if guard1 ca ct then [(Some ca, ct)] else [])
       ++ (if guard2 ct then [(None, ct)] else [])
       ++ (if guard3 ca then [(Some (first_artist ca), ct)] else [])
       ++ (if guard4 ca ct then [(Some ca, short_title ct)] else [])
       ++ (if guard5 ct then [(artist_or_none ca, very_short_title ct)] else []))%list in
    (forall a t s, (_try_search env a t s).1 = Ok (try_result env a t)
                   /\ trace (_try_search env a t s).2
                      = (trace s ++ try_events a t)%list)
    /\ exists year self',
         search_spotify env title artist self = (Ok year, self')
         /\ ((exists before a t after,
                order = (before ++ (a, t) :: after)%list
                /\ Forall (fails env) before
                /\ PyInt.truthy (try_result env a t) = true
                /\ year = try_result env a t
                /\ trace self'
                   = (trace self ++ CallSearchSpotify title artist
                        :: events_of (before ++ [(a, t)]))%list)
             \/ (Forall (fails env) order
                 /\ year = None
                 /\ trace self'
                    = (trace self ++ CallSearchSpotify title artist
                         :: events_of order)%list))
         /\ (guard1 ca ct = true ->
             PyInt.truthy (try_result env (Some ca) ct) = true ->
             year = try_result env (Some ca) ct
             /\ trace self'
                = (trace self ++
                   [ CallSearchSpotify title artist;
                     CallTrySearch (Some ca) ct;
                     CallApiSearch (make_query (Some ca) ct) ])%list).
Proof.
  intros env title artist self He Hs ca ct order.
  split.
  { intros a t s. rewrite try_search_run. cbn [fst snd].
    split; [reflexivity | apply try_state_trace]. }
  destruct (search_spotify_spec env title artist self)
    as (self' & E & _ & _ & _ & _ & T).
  cbv zeta in E, T. rewrite He, Hs in E, T. cbn [andb] in E, T.
  unfold search_result in E. unfold search_events in T.
  fold ca ct in E, T. change (applicable ca ct) with order in E, T.
  exists (attempts_result env order), self'.
  split; [exact E|]. split.
  - destruct (attempts_split env order) as [Hf | (l1 & a & t & l2 & Ho & Hf & Ht)].
    + right. destruct (attempts_all_fail env order Hf) as [Hr Hev].
      split; [exact Hf|]. split; [exact Hr|]. rewrite T, Hev. reflexivity.
    + left. exists l1, a, t, l2.
      destruct (attempts_first_success env l1 a t l2 Hf Ht) as [Hr Hev].
      split; [exact Ho|]. split; [exact Hf|]. split; [exact Ht|].
      rewrite Ho. split; [exact Hr|]. rewrite T, Ho, Hev. reflexivity.
  - intros Hg Ht. rewrite T. subst order. rewrite Hg.
    cbn [app attempts_result attempts_events]. rewrite Ht.
    split; [reflexivity|].
    unfold try_events.
    assert (Hq : too_short (make_query (Some ca) ct) = false).
    { unfold try_result in Ht. destruct (too_short _); [discriminate | reflexivity]. }
    rewrite Hq. reflexivity.
Qed.

Lemma strategies_in_order_witness :
  exists year self',
    search_spotify (Example.process Example.library Example.catalogue)
                   "Hello" (Some "Adele") (Example.fresh true) = (Ok year, self')
    /\ year = Some 2019%Z
    /\ trace self'
       = [ CallSearchSpotify "Hello" (Some "Adele");
           CallTrySearch (Some "Adele") "Hello";
           CallApiSearch "Adele Hello" ].
Proof.
  destruct (strategies_in_order
              (Example.process Example.library Example.catalogue)
              "Hello" (Some "Adele") (Example.fresh true) eq_refl eq_refl)
    as (_ & year & self' & E & _ & H).
  exists year, self'. split; [exact E|].
  destruct H as [Hy Ht]; [vm_compute; reflexivity | vm_compute; reflexivity |].
  split; [rewrite Hy; vm_compute; reflexivity|].
  rewrite Ht. vm_compute. reflexivity.
Defined.

(** ** Names of files *)

Lemma length_app (a b : string) :
  String.length (a +:+ b) = (String.length a + String.length b)%nat.
Proof. induction a as [|c a IH]; simpl; [reflexivity | rewrite IH; reflexivity]. Qed.

Lemma app_inv_tail_str (s : string) : forall a b, a +:+ s = b +:+ s -> a = b.
Proof.
  induction a as [|c a IH]; intros [|c' b] H.
  - reflexivity.
  - exfalso. apply (f_equal String.length) in H.
    rewrite !length_app in H. simpl in H. lia.
  - exfalso. apply (f_equal String.length) in H.
    rewrite !length_app in H. simpl in H. lia.
  - change (String c (a +:+ s) = String c' (b +:+ s)) in H.
    injection H as -> H. f_equal. apply IH. exact H.
Qed.

Lemma substring_all (s : string) : substring 0 (String.length s) s = s.
Proof. induction s as [|c s IH]; simpl; [reflexivity | rewrite IH; reflexivity]. Qed.

Lemma substring_split (s : string) : forall c, (c <= String.length s)%nat ->
  substring 0 c s +:+ substring c (String.length s - c) s = s.
Proof.
  induction s as [|a s IH]; intros [|c] H.
  - reflexivity.
  - simpl in H. lia.
  - rewrite Nat.sub_0_r, substring_all. reflexivity.
  - change (String a (substring 0 c s +:+ substring c (String.length s - c) s)
            = String a s).
    simpl in H. rewrite IH by lia. reflexivity.
Qed.

Lemma cut_le (n : string) : (cut n <= String.length n)%nat.
Proof.
  unfold cut. destruct (rfind_dot n 0 None) as [i|]; [|lia].
  destruct ((0 <? i)%nat && (i <? String.length n - 1)%nat) eqn:E; [|lia].
  apply andb_prop in E as [_ E]. apply Nat.ltb_lt in E. lia.
Qed.

(** The stem and the suffix of a name make up the name. *)
Lemma stem_suffix (n : string) : stem n +:+ suffix n = n.
Proof. unfold stem, suffix. apply substring_split, cut_le. Qed.

Lemma numbered_inj d n j k : numbered d n j = numbered d n k -> j = k.
Proof.
  unfold numbered, child. intros [= H].
  apply String.app_inj in H. apply String.app_inj in H.
  apply app_inv_tail_str in H. apply (inj pretty) in H. exact H.
Qed.

Lemma numbered_not_plain d n k : numbered d n k <> child d n.
Proof.
  unfold numbered, child. intros [= H].
  apply (f_equal String.length) in H.
  rewrite <- (stem_suffix n) in H at 3.
  rewrite !length_app in H. simpl in H. lia.
Qed.

Lemma last_char_app (a b : string) (d : ascii) :
  b <> EmptyString -> last_char (a +:+ b) d = last_char b d.
Proof.
  intros Hb. revert d. induction a as [|c a IH]; intros d; simpl; [reflexivity|].
  rewrite IH. destruct b; [contradiction | reflexivity].
Qed.

Lemma pretty_N_go_last (x : N) : forall s d,
  s <> EmptyString -> last_char (pretty_N_go x s) d = last_char s d.
Proof.
  induction (N.lt_wf_0 x) as [x _ IH]. intros s d Hs.
  destruct (N.eq_dec x 0%N) as [->|Hx].
  - rewrite pretty_N_go_0. reflexivity.
  - rewrite pretty_N_go_step by lia.
    rewrite IH; [| apply N.div_lt; lia | discriminate].
    simpl. destruct s; [contradiction | reflexivity].
Qed.

Lemma pretty_N_char_digit (x : N) : PyStr.is_digit (pretty_N_char x) = true.
Proof.
  unfold pretty_N_char.
  destruct x as [|p]; [reflexivity|].
  do 4 (destruct p as [p|p|]; try reflexivity).
Qed.

(** [str] of a natural number ends with a digit. *)
Lemma pretty_N_last_digit (x : N) (d : ascii) :
  PyStr.is_digit (last_char (pretty x) d) = true.
Proof.
  unfold pretty, pretty_N. destruct (decide (x = 0%N)) as [->|Hx]; [reflexivity|].
  rewrite pretty_N_go_step by lia.
  rewrite pretty_N_go_last by discriminate.
  simpl. apply pretty_N_char_digit.
Qed.

Lemma pretty_N_nonempty (x : N) : pretty x <> EmptyString.
Proof.
  intros H. pose proof (pretty_N_last_digit x "a") as Hd.
  rewrite H in Hd. simpl in Hd. discriminate.
Qed.

(** The directory of a year is not the backup directory. *)
Lemma year_dir_not_backup (y : Z) : pretty y <> BACKUP_DIR.
Proof.
  intros H.
  assert (Hd : PyStr.is_digit (last_char (pretty y) "a") = true).
  { unfold pretty, pretty_Z. destruct y as [|p|p].
    - reflexivity.
    - apply pretty_N_last_digit.
    - rewrite last_char_app by apply pretty_N_nonempty.
      apply pretty_N_last_digit. }
  rewrite H in Hd. vm_compute in Hd. discriminate.
Qed.

(** ** The search of a free name *)

Section FreeName.

Variable fs : FS.
Variable d : list string.
Variable n : string.

(** What the loop returns is free; it is the path it started from, or the
    numbered name of the least counter from the start whose name is free,
    the start and the names before it being taken. *)
Lemma free_path_spec fuel : forall counter p q,
  free_path fs d n fuel counter p = Some q ->
  fs !! q = None
  /\ ((q = p)
      \/ (fs !! p <> None
          /\ exists k, (counter <= k)%N /\ q = numbered d n k
                       /\ forall j, (counter <= j < k)%N ->
                                    fs !! numbered d n j <> None)).
Proof.
  induction fuel as [|fuel IH]; intros counter p q H; cbn [free_path] in H.
  - destruct (fs !! p) eqn:Hp; [discriminate|].
    injection H as <-. split; [exact Hp | left; reflexivity].
  - destruct (fs !! p) eqn:Hp.
    + apply IH in H as (Hq & [-> | (Hn & k & Hk & -> & Hj)]).
      * split; [exact Hq|]. right. split; [discriminate|].
        exists counter. split; [lia|]. split; [reflexivity|]. intros j Hr. lia.
      * split; [exact Hq|]. right. split; [discriminate|].
        exists k. split; [lia|]. split; [reflexivity|].
        intros j Hr. destruct (N.eq_dec j counter) as [->|Hne];
          [exact Hn | apply Hj; lia].
    + injection H as <-. split; [exact Hp | left; reflexivity].
Qed.

(** The loop ends: the paths it visits are distinct files on disk, and
    there are [size fs] files. *)
Lemma free_path_total fuel : forall counter p (V : gset Path),
  V ⊆ dom fs ->
  p ∉ V ->
  (forall k, (counter <= k)%N -> (numbered d n k ∉ V) /\ numbered d n k <> p) ->
  (size (dom fs) <= fuel + size V)%nat ->
  is_Some (free_path fs d n fuel counter p).
Proof.
  induction fuel as [|fuel IH]; intros counter p V HV Hp Hk Hsize;
    cbn [free_path]; destruct (fs !! p) eqn:Hfs; try (eexists; reflexivity).
  - exfalso.
    assert (Hin : p ∈ dom fs) by (apply elem_of_dom; eauto).
    assert (Hsub : {[p]} ∪ V ⊆ dom fs) by set_solver.
    apply subseteq_size in Hsub.
    rewrite size_union in Hsub by set_solver.
    rewrite size_singleton in Hsub. simpl in Hsize. lia.
  - assert (Hin : p ∈ dom fs) by (apply elem_of_dom; eauto).
    apply (IH (counter + 1)%N (numbered d n counter) ({[p]} ∪ V)).
    + set_solver.
    + destruct (Hk counter ltac:(lia)) as [H1 H2]. set_solver.
    + intros k Hle. destruct (Hk k ltac:(lia)) as [H1 H2].
      split.
      * set_solver.
      * intros E. apply numbered_inj in E. lia.
    + rewrite size_union by set_solver. rewrite size_singleton. lia.
Qed.

Lemma first_free_total : is_Some (first_free fs d n).
Proof.
  unfold first_free. apply (free_path_total (size fs) 1 (child d n) ∅).
  - set_solver.
  - set_solver.
  - intros k _. split; [set_solver | apply numbered_not_plain].
  - rewrite size_dom, size_empty. lia.
Qed.

Lemma first_free_spec q :
  first_free fs d n = Some q ->
  fs !! q = None
  /\ parent q = d
  /\ ((q = child d n)
      \/ (fs !! child d n <> None
          /\ exists k, (1 <= k)%N /\ q = numbered d n k
                       /\ forall j, (1 <= j < k)%N ->
                                    fs !! numbered d n j <> None)).
Proof.
  unfold first_free. intros H. apply free_path_spec in H as (Hq & Hcase).
  split; [exact Hq|]. split; [|exact Hcase].
  destruct Hcase as [-> | (_ & k & _ & -> & _)]; reflexivity.
Qed.

End FreeName.

(** ** Backup and move *)

Lemma create_backup_spec self file_path fs b fs1 self1 :
  create_backup self file_path fs = (b, fs1, self1) ->
  root self1 = root self
  /\ target_years self1 = target_years self
  /\ backup_enabled self1 = backup_enabled self
  /\ backed self file_path fs fs1.
Proof.
  unfold create_backup, backed. intros H.
  set (enabled := backup_enabled self) in H. clearbody enabled.
  destruct enabled; cbn [negb] in H.
  2: { injection H as <- <- <-. do 3 (split; [reflexivity|]). left. reflexivity. }
  assert (Hnone : forall b', (b', fs, self) = (b, fs1, self1) ->
            root self1 = root self /\ target_years self1 = target_years self
            /\ backup_enabled self1 = backup_enabled self
            /\ (fs1 = fs \/ exists p c, fs !! p = None
                  /\ parent p = (root self ++ [BACKUP_DIR])%list
                  /\ fs !! file_path = Some c /\ fs1 = <[p := c]> fs)).
  { intros b' [= <- <- <-]. do 3 (split; [reflexivity|]). left. reflexivity. }
  assert (Hcopy :
    match first_free fs (root self ++ [BACKUP_DIR]) (name file_path),
          fs !! file_path with
    | Some p, Some c => (true, <[p := c]> fs, bump_backed_up self)
    | _, _ => (false, fs, self)
    end = (b, fs1, self1) ->
    root self1 = root self /\ target_years self1 = target_years self
    /\ backup_enabled self1 = backup_enabled self
    /\ (fs1 = fs \/ exists p c, fs !! p = None
          /\ parent p = (root self ++ [BACKUP_DIR])%list
          /\ fs !! file_path = Some c /\ fs1 = <[p := c]> fs)).
  { destruct (first_free fs _ _) as [p|] eqn:Hp; [|apply Hnone].
    destruct (fs !! file_path) as [c|] eqn:Hc; [|apply Hnone].
    intros [= <- <- <-]. apply first_free_spec in Hp as (Hfree & Hpar & _).
    split; [reflexivity|]. split; [reflexivity|]. split; [reflexivity|].
    right. exists p, c. repeat split; assumption. }
  destruct (fs !! child (root self ++ [BACKUP_DIR]) (name file_path)) as [bk|].
  - destruct (fs !! file_path) as [c|] eqn:Hc.
    + destruct (String.length bk =? String.length c)%nat.
      * exact (Hnone _ H).
      * exact (Hcopy H).
    + exact (Hnone _ H).
  - exact (Hcopy H).
Qed.

Lemma dest_dir_ext self self1 year confidence :
  root self1 = root self ->
  target_years self1 = target_years self ->
  dest_dir self1 year confidence = dest_dir self year confidence.
Proof. intros H1 H2. unfold dest_dir. rewrite H1, H2. reflexivity. Qed.

(** What [move_file] does: the backup step, then either nothing more (it
    returns [False]), or the move of the file to the free name found in
    the directory chosen. *)
Lemma move_file_spec self file_path year confidence fs ok fs' self' :
  move_file self file_path year confidence fs = (ok, fs', self') ->
  root self' = root self
  /\ target_years self' = target_years self
  /\ backup_enabled self' = backup_enabled self
  /\ exists fs1,
       backed self file_path fs fs1
       /\ ((ok = false /\ fs' = fs1)
           \/ (ok = true
               /\ exists q c,
                    first_free fs1 (dest_dir self year confidence) (name file_path)
                    = Some q
                    /\ fs1 !! file_path = Some c
                    /\ fs' = <[q := c]> (delete file_path fs1))).
Proof.
  unfold move_file. intros H.
  destruct (if backup_enabled self then create_backup self file_path fs
            else (true, fs, self)) as [[b fs1] self1] eqn:Hb.
  assert (Hs : root self1 = root self /\ target_years self1 = target_years self
               /\ backup_enabled self1 = backup_enabled self
               /\ backed self file_path fs fs1).
  { set (enabled := backup_enabled self) in Hb. clearbody enabled.
    destruct enabled.
    - exact (create_backup_spec _ _ _ _ _ _ Hb).
    - injection Hb as <- <- <-. unfold backed.
      do 3 (split; [reflexivity|]). left. reflexivity. }
  destruct Hs as (R & T & B & Hbk).
  rewrite (dest_dir_ext self self1 year confidence R T) in H.
  destruct (first_free fs1 _ _) as [q|] eqn:Hq.
  - destruct (fs1 !! file_path) as [c|] eqn:Hc.
    + injection H as <- <- <-.
      split; [exact R|]. split; [exact T|]. split; [exact B|].
      exists fs1. split; [exact Hbk|]. right. split; [reflexivity|].
      exists q, c. split; [exact Hq|]. split; [exact Hc | reflexivity].
    + injection H as <- <- <-.
      split; [exact R|]. split; [exact T|]. split; [exact B|].
      exists fs1. split; [exact Hbk|]. left. split; reflexivity.
  - injection H as <- <- <-.
    split; [exact R|]. split; [exact T|]. split; [exact B|].
    exists fs1. split; [exact Hbk|]. left. split; reflexivity.
Qed.

(** The backup step leaves every file of the disk as it is. *)
Lemma backed_keeps self file_path fs fs1 p c :
  backed self file_path fs fs1 -> fs !! p = Some c -> fs1 !! p = Some c.
Proof.
  intros [-> | (q & k & Hq & _ & _ & ->)] Hp; [exact Hp|].
  rewrite lookup_insert_ne; [exact Hp|]. intros ->. congruence.
Qed.

(** What [move_file] leaves of the disk: every file but the one moved. *)
Lemma move_file_keeps self file_path year confidence fs ok fs' self' p c :
  move_file self file_path year confidence fs = (ok, fs', self') ->
  fs !! p = Some c -> p <> file_path -> fs' !! p = Some c.
Proof.
  intros H Hp Hne.
  apply move_file_spec in H as (_ & _ & _ & fs1 & Hbk & Hcase).
  pose proof (backed_keeps _ _ _ _ _ _ Hbk Hp) as Hp1.
  destruct Hcase as [[_ ->] | (_ & q & k & Hq & _ & ->)]; [exact Hp1|].
  apply first_free_spec in Hq as (Hfree & _).
  rewrite lookup_insert_ne by (intros ->; congruence).
  rewrite lookup_delete_ne by congruence. exact Hp1.
Qed.

Lemma dest_dir_not_backup self year confidence :
  dest_dir self year confidence <> (root self ++ [BACKUP_DIR])%list.
Proof.
  unfold dest_dir. intros H.
  destruct year as [y|].
  - destruct (bool_decide (y ∈ target_years self)).
    + apply app_inv_head in H. injection H as H.
      exact (year_dir_not_backup y H).
    + destruct (PyInt.truthy (Some y) && Qle_bool 0.5 confidence);
        apply app_inv_head in H; discriminate H.
  - apply app_inv_head in H. discriminate H.
Qed.

Lemma first_free_plain (fs : FS) d n :
  fs !! child d n = None -> first_free fs d n = Some (child d n).
Proof.
  intros H. unfold first_free. destruct (size fs); cbn [free_path]; rewrite H;
    reflexivity.
Qed.

(** A file outside the backup directory that is there after the backup
    step was there before. *)
Lemma backed_inv self file_path fs fs1 p c :
  backed self file_path fs fs1 ->
  fs1 !! p = Some c ->
  parent p <> (root self ++ [BACKUP_DIR])%list ->
  fs !! p = Some c.
Proof.
  intros [-> | (q & k & _ & Hq & _ & ->)] Hp Hne; [exact Hp|].
  rewrite lookup_insert_ne in Hp; [exact Hp|]. intros ->. contradiction.
Qed.

(** A file that is on disk is moved. *)
Lemma move_file_ok self file_path year confidence fs c :
  fs !! file_path = Some c ->
  exists fs1 q self',
    backed self file_path fs fs1
    /\ first_free fs1 (dest_dir self year confidence) (name file_path) = Some q
    /\ move_file self file_path year confidence fs
       = (true, <[q := c]> (delete file_path fs1), self')
    /\ root self' = root self
    /\ target_years self' = target_years self.
Proof.
  intros Hc. unfold move_file.
  destruct (if backup_enabled self then create_backup self file_path fs
            else (true, fs, self)) as [[b fs1] self1] eqn:Hb.
  assert (Hs : root self1 = root self /\ target_years self1 = target_years self
               /\ backup_enabled self1 = backup_enabled self
               /\ backed self file_path fs fs1).
  { set (enabled := backup_enabled self) in Hb. clearbody enabled.
    destruct enabled.
    - exact (create_backup_spec _ _ _ _ _ _ Hb).
    - injection Hb as <- <- <-. unfold backed.
      do 3 (split; [reflexivity|]). left. reflexivity. }
  destruct Hs as (R & T & B & Hbk).
  rewrite (dest_dir_ext self self1 year confidence R T).
  destruct (first_free_total fs1 (dest_dir self year confidence) (name file_path))
    as [q Hq].
  rewrite Hq. rewrite (backed_keeps _ _ _ _ _ _ Hbk Hc).
  exists fs1, q, (bump_moved self1).
  split; [exact Hbk|]. split; [exact Hq|]. split; [reflexivity|].
  split; [exact R | exact T].
Qed.

(** C6, as stated, fails for the year 0: it is not [None], and with a
    confidence of 0.95 and 0 outside the target years the directory chosen
    is [nao_identificadas], not [outros_anos]. *)
Lemma destination_year_zero_counterexample :
  (0%Z ∉ target_years (Example.organiser true))
  /\ Some 0%Z <> None
  /\ (0.5 <= 0.95)%Q
  /\ dest_dir (Example.organiser true) (Some 0%Z) 0.95%Q
     = ["home"; "musicas"; "nao_identificadas"]
  /\ dest_dir (Example.organiser true) (Some 0%Z) 0.95%Q
     <> (root (Example.organiser true) ++ ["outros_anos"])%list.
Proof.
  assert (H0 : 0%Z ∉ target_years (Example.organiser true)).
  { unfold Example.organiser. simpl. set_solver. }
  assert (E : dest_dir (Example.organiser true) (Some 0%Z) 0.95%Q
              = ["home"; "musicas"; "nao_identificadas"]).
  { unfold dest_dir. rewrite (bool_decide_eq_false_2 _ H0). reflexivity. }
  split; [exact H0|]. split; [discriminate|]. split; [discriminate|].
  split; [exact E|]. rewrite E. discriminate.
Qed.

(** C6 (amended). For every year and confidence given to [move_file]: when
    the year is in the target years, the destination is the directory of
    that year; otherwise, when the year is neither [None] nor 0 and the
    confidence is at least 0.5, it is [outros_anos]; otherwise it is
    [nao_identificadas]. A file that [move_file] moves ends in that
    directory. *)
Theorem destination_by_year_and_confidence :
  forall self year confidence,
    (forall y, year = Some y -> y ∈ target_years self ->
       dest_dir self year confidence = (root self ++ [pretty y])%list)
    /\ (forall y, year = Some y -> y ∉ target_years self ->
          y <> 0%Z -> (0.5 <= confidence)%Q ->
          dest_dir self year confidence = (root self ++ ["outros_anos"])%list)
    /\ (forall y, year = Some y -> y ∉ target_years self ->
          y = 0%Z \/ (confidence < 0.5)%Q ->
          dest_dir self year confidence
          = (root self ++ ["nao_identificadas"])%list)
    /\ (year = None ->
        dest_dir self year confidence = (root self ++ ["nao_identificadas"])%list)
    /\ (forall file_path fs fs' self',
          move_file self file_path year confidence fs = (true, fs', self') ->
          exists dest_path c,
            parent dest_path = dest_dir self year confidence
            /\ fs !! file_path = Some c
            /\ fs' !! dest_path = Some c).
Proof.
  intros self year confidence.
  split.
  { intros y -> Hy. unfold dest_dir. rewrite (bool_decide_eq_true_2 _ Hy).
    reflexivity. }
  split.
  { intros y -> Hy Hz Hc. unfold dest_dir.
    rewrite (bool_decide_eq_false_2 _ Hy). cbn [PyInt.truthy].
    apply Z.eqb_neq in Hz. rewrite Hz.
    apply Qle_bool_iff in Hc. rewrite Hc. reflexivity. }
  split.
  { intros y -> Hy Hc. unfold dest_dir.
    rewrite (bool_decide_eq_false_2 _ Hy). cbn [PyInt.truthy].
    destruct Hc as [-> | Hc]; [reflexivity|].
    destruct (Qle_bool 0.5 confidence) eqn:E.
    - apply Qle_bool_iff in E. exfalso. exact (Qlt_not_le _ _ Hc E).
    - rewrite andb_false_r. reflexivity. }
  split.
  { intros ->. reflexivity. }
  intros file_path fs fs' self' H.
  apply move_file_spec in H as (_ & _ & _ & fs1 & Hbk & Hcase).
  destruct Hcase as [[Hf _] | (_ & q & c & Hq & Hc & ->)]; [discriminate|].
  apply first_free_spec in Hq as (_ & Hpar & _).
  exists q, c. split; [exact Hpar|]. split; [|apply lookup_insert_eq].
  destruct Hbk as [-> | (p & k & Hp & _ & Hk & ->)]; [exact Hc|].
  destruct (decide (p = file_path)) as [->|Hne]; [congruence|].
  rewrite lookup_insert_ne in Hc by exact Hne. exact Hc.
Qed.

Lemma destination_by_year_and_confidence_witness :
  dest_dir (Example.organiser false) (Some 2019%Z) 0.85%Q
  = ["home"; "musicas"; "outros_anos"].
Proof.
  destruct (destination_by_year_and_confidence
              (Example.organiser false) (Some 2019%Z) 0.85%Q) as (_ & H & _).
  apply (H 2019%Z).
  - reflexivity.
  - unfold Example.organiser. simpl. set_solver.
  - discriminate.
  - discriminate.
Defined.

Lemma numbered_name_not_plain d n k p :
  name p = n -> numbered d n k <> p.
Proof.
  intros Hn E. apply (numbered_not_plain d n k).
  rewrite E. unfold child. destruct p as [pd pn]. simpl in Hn. subst pn.
  unfold numbered, child in E. injection E as E1 E2. rewrite E1. reflexivity.
Qed.

(** C7. For every two distinct files of the same name moved one after the
    other to the same destination directory, in which the name is free
    before the first move: both moves succeed, and after them both files
    are on disk, the first under the plain name, the second under
    [stem_k.suffix] for the least [k >= 1] whose name was free (so
    [stem_1.suffix] when that was free); every other file that was on disk
    is still there with its content. And no call of [move_file], whatever
    its arguments, changes or removes a file other than the one it is
    asked to move. *)
Theorem collision_safe_moves :
  forall self f1 f2 y1 c1 y2 c2 (fs : FS) k1 k2,
    f1 <> f2 ->
    name f1 = name f2 ->
    fs !! f1 = Some k1 ->
    fs !! f2 = Some k2 ->
    dest_dir self y1 c1 = dest_dir self y2 c2 ->
    fs !! child (dest_dir self y1 c1) (name f1) = None ->
    (exists fs1 self1 fs2 self2 k,
       move_file self f1 y1 c1 fs = (true, fs1, self1)
       /\ move_file self1 f2 y2 c2 fs1 = (true, fs2, self2)
       /\ fs2 !! child (dest_dir self y1 c1) (name f1) = Some k1
       /\ (1 <= k)%N
       /\ fs2 !! numbered (dest_dir self y1 c1) (name f1) k = Some k2
       /\ fs !! numbered (dest_dir self y1 c1) (name f1) k = None
       /\ (forall j, (1 <= j < k)%N ->
             fs !! numbered (dest_dir self y1 c1) (name f1) j <> None)
       /\ (forall p c, fs !! p = Some c -> p <> f1 -> p <> f2 ->
             fs2 !! p = Some c))
    /\ (forall self0 file_path year confidence (fs0 : FS) ok fs' self' p c,
          move_file self0 file_path year confidence fs0 = (ok, fs', self') ->
          fs0 !! p = Some c -> p <> file_path -> fs' !! p = Some c).
Proof.
  intros self f1 f2 y1 c1 y2 c2 fs k1 k2 Hne Hn H1 H2 Hd Hfree.
  split; [|intros; eapply move_file_keeps; eassumption].
  set (d := dest_dir self y1 c1) in *. set (n := name f1) in *.
  pose proof (dest_dir_not_backup self y1 c1) as Hnb. fold d in Hnb.
  (* the first move *)
  destruct (move_file_ok self f1 y1 c1 fs k1 H1)
    as (fsb & q1 & self1 & Hbk1 & Hq1 & M1 & R1 & T1).
  fold d n in Hq1.
  assert (Hplain : fsb !! child d n = None).
  { destruct (fsb !! child d n) as [c|] eqn:E; [|reflexivity].
    apply (backed_inv _ _ _ _ _ _ Hbk1) in E; [congruence | exact Hnb]. }
  rewrite (first_free_plain _ _ _ Hplain) in Hq1. injection Hq1 as <-.
  set (fs1 := <[child d n := k1]> (delete f1 fsb)) in *.
  assert (Hf2 : fs1 !! f2 = Some k2).
  { unfold fs1. rewrite lookup_insert_ne by (intros E; congruence).
    rewrite lookup_delete_ne by exact Hne.
    exact (backed_keeps _ _ _ _ _ _ Hbk1 H2). }
  (* the second move *)
  assert (Hd2 : dest_dir self1 y2 c2 = d).
  { rewrite (dest_dir_ext self self1 y2 c2 R1 T1). symmetry. exact Hd. }
  destruct (move_file_ok self1 f2 y2 c2 fs1 k2 Hf2)
    as (fsc & q2 & self2 & Hbk2 & Hq2 & M2 & _ & _).
  rewrite Hd2 in Hq2. rewrite <- Hn in Hq2. fold n in Hq2.
  assert (Hnb2 : d <> (root self1 ++ [BACKUP_DIR])%list) by (rewrite R1; exact Hnb).
  assert (Htaken : fsc !! child d n = Some k1).
  { apply (backed_keeps _ _ _ _ _ _ Hbk2). unfold fs1. apply lookup_insert_eq. }
  apply first_free_spec in Hq2 as (Hq2free & Hq2par & Hq2case).
  destruct Hq2case as [-> | (_ & k & Hk & -> & Hbefore)]; [congruence|].
  (* a numbered name that is taken at the second move was taken at first *)
  assert (Hback : forall j c, fsc !! numbered d n j = Some c ->
                              fs !! numbered d n j = Some c).
  { intros j c Hj.
    apply (backed_inv _ _ _ _ _ _ Hbk2) in Hj; [|exact Hnb2].
    unfold fs1 in Hj.
    rewrite lookup_insert_ne in Hj by (symmetry; apply numbered_not_plain).
    apply lookup_delete_Some in Hj as [_ Hj].
    apply (backed_inv _ _ _ _ _ _ Hbk1) in Hj; [exact Hj | exact Hnb]. }
  exists fs1, self1, (<[numbered d n k := k2]> (delete f2 fsc)), self2, k.
  split; [exact M1|]. split; [exact M2|].
  split.
  { rewrite lookup_insert_ne by apply numbered_not_plain.
    rewrite lookup_delete_ne by (intros E; congruence). exact Htaken. }
  split; [exact Hk|].
  split; [apply lookup_insert_eq|].
  split.
  { destruct (fs !! numbered d n k) as [c|] eqn:E; [|reflexivity]. exfalso.
    assert (E1 : fsb !! numbered d n k = Some c)
      by exact (backed_keeps _ _ _ _ _ _ Hbk1 E).
    assert (E2 : fs1 !! numbered d n k = Some c).
    { unfold fs1. rewrite lookup_insert_ne by (symmetry; apply numbered_not_plain).
      rewrite lookup_delete_ne; [exact E1|].
      intros E'. symmetry in E'. revert E'.
      apply numbered_name_not_plain. reflexivity. }
    pose proof (backed_keeps _ _ _ _ _ _ Hbk2 E2) as E3. congruence. }
  split.
  { intros j Hj. specialize (Hbefore j Hj).
    destruct (fsc !! numbered d n j) as [c|] eqn:E; [|contradiction].
    rewrite (Hback j c E). discriminate. }
  intros p c Hp Hp1 Hp2.
  eapply move_file_keeps; [exact M2| |exact Hp2].
  eapply move_file_keeps; [exact M1|exact Hp|exact Hp1].
Qed.

Lemma collision_safe_moves_witness :
  exists fs1 self1 fs2 self2 k,
    move_file (Example.organiser true) (Example.in_inbox "song.mp3")
              (Some 2024%Z) 0.95%Q Example.disk = (true, fs1, self1)
    /\ move_file self1 (Example.in_old "song.mp3") (Some 2024%Z) 0.95%Q fs1
       = (true, fs2, self2)
    /\ fs2 !! child (dest_dir (Example.organiser true) (Some 2024%Z) 0.95%Q)
                    (name (Example.in_inbox "song.mp3")) = Some "first"
    /\ (1 <= k)%N
    /\ fs2 !! numbered (dest_dir (Example.organiser true) (Some 2024%Z) 0.95%Q)
                       (name (Example.in_inbox "song.mp3")) k = Some "second!"
    /\ Example.disk
         !! numbered (dest_dir (Example.organiser true) (Some 2024%Z) 0.95%Q)
                     (name (Example.in_inbox "song.mp3")) k = None
    /\ (forall j, (1 <= j < k)%N ->
          Example.disk
            !! numbered (dest_dir (Example.organiser true) (Some 2024%Z) 0.95%Q)
                        (name (Example.in_inbox "song.mp3")) j <> None)
    /\ (forall p c, Example.disk !! p = Some c ->
          p <> Example.in_inbox "song.mp3" -> p <> Example.in_old "song.mp3" ->
          fs2 !! p = Some c).
Proof.
  destruct (collision_safe_moves
              (Example.organiser true)
              (Example.in_inbox "song.mp3") (Example.in_old "song.mp3")
              (Some 2024%Z) 0.95%Q (Some 2024%Z) 0.95%Q
              Example.disk "first" "second!") as [H _].
  - discriminate.
  - reflexivity.
  - vm_compute. reflexivity.
  - vm_compute. reflexivity.
  - reflexivity.
  - vm_compute. reflexivity.
  - exact H.
Defined.

(** * Further properties *)

(** ** The similarity, from the sets of tokens *)

Lemma tokens_empty_string (s : string) : PyStr.is_empty s = true -> tokens s = ∅.
Proof. destruct s; [reflexivity | discriminate]. Qed.

(** [_similarity] in terms of the two sets of tokens. *)
Lemma similarity_tokens (a b : string) :
  _similarity a b
  = if bool_decide (tokens a = ∅) || bool_decide (tokens b = ∅) then 0%Q
    else ratio (size (tokens a ∩ tokens b)) (size (tokens a ∪ tokens b)).
Proof.
  unfold _similarity. fold (tokens a) (tokens b).
  destruct (PyStr.is_empty a) eqn:Ea.
  { rewrite (tokens_empty_string a Ea).
    rewrite (bool_decide_eq_true_2 (∅ = ∅) eq_refl). reflexivity. }
  destruct (PyStr.is_empty b) eqn:Eb.
  { rewrite (tokens_empty_string b Eb).
    rewrite (bool_decide_eq_true_2 (∅ = ∅) eq_refl). rewrite !orb_true_r.
    reflexivity. }
  cbn [orb]. cbv zeta.
  destruct (bool_decide (tokens a = ∅)) eqn:Da; [reflexivity|].
  destruct (bool_decide (tokens b = ∅)) eqn:Db; [reflexivity|].
  cbn [orb]. apply bool_decide_eq_false in Da.
  rewrite bool_decide_eq_false_2; [reflexivity|].
  intros E. apply Da. set_solver.
Qed.

Lemma ratio_one_inv (i u : nat) : (0 < u)%nat -> ratio i u = 1%Q -> i = u.
Proof.
  intros Hu H. unfold ratio in H.
  assert (E : (Z.of_nat i # Pos.of_nat u == 1)%Q).
  { rewrite <- (Qred_correct (Z.of_nat i # Pos.of_nat u)). rewrite H. reflexivity. }
  unfold Qeq in E. simpl in E. lia.
Qed.

Lemma ratio_zero_iff (i u : nat) : ratio i u = 0%Q <-> i = 0%nat.
Proof.
  unfold ratio. split.
  - intros H.
    assert (E : (Z.of_nat i # Pos.of_nat u == 0)%Q).
    { rewrite <- (Qred_correct (Z.of_nat i # Pos.of_nat u)). rewrite H. reflexivity. }
    unfold Qeq in E. simpl in E. lia.
  - intros ->. change 0%Q with (Qred 0). apply Qred_complete.
    unfold Qeq. simpl. reflexivity.
Qed.

Lemma size_pos_nonempty (X : gset string) : X <> ∅ -> (0 < size X)%nat.
Proof.
  intros H. destruct (decide (size X = 0%nat)) as [E|E]; [|lia].
  apply size_empty_inv in E. apply leibniz_equiv in E. contradiction.
Qed.

(** X1. The similarity of two strings is 1 exactly when they have the same
    set of tokens and that set is not empty, and it is 0 exactly when they
    have no token in common. *)
Theorem similarity_extremes :
  forall a b : string,
    (_similarity a b = 1%Q <-> tokens a = tokens b /\ tokens a <> ∅)
    /\ (_similarity a b = 0%Q <-> tokens a ∩ tokens b = ∅).
Proof.
  intros a b. rewrite similarity_tokens.
  destruct (bool_decide (tokens a = ∅)) eqn:Da.
  { apply bool_decide_eq_true in Da. cbn [orb]. split.
    - split; [discriminate | intros [_ H]; contradiction].
    - split; [intros _; set_solver | reflexivity]. }
  destruct (bool_decide (tokens b = ∅)) eqn:Db.
  { apply bool_decide_eq_true in Db. apply bool_decide_eq_false in Da.
    cbn [orb]. split.
    - split; [discriminate | intros [E H]; congruence].
    - split; [intros _; set_solver | reflexivity]. }
  apply bool_decide_eq_false in Da, Db. cbn [orb].
  assert (Hu : (0 < size (tokens a ∪ tokens b))%nat).
  { apply size_pos_nonempty. set_solver. }
  split.
  - split.
    + intros H. apply ratio_one_inv in H; [|exact Hu].
      assert (E : tokens a ∩ tokens b = tokens a ∪ tokens b).
      { apply set_subseteq_size_eq; [set_solver | lia]. }
      split; [|exact Da]. apply leibniz_equiv. set_solver.
    + intros [E _]. rewrite <- E.
      assert (Ei : tokens a ∩ tokens a = tokens a) by set_solver.
      assert (Eu : tokens a ∪ tokens a = tokens a) by set_solver.
      rewrite Ei, Eu. apply ratio_same. apply size_pos_nonempty. exact Da.
  - rewrite ratio_zero_iff. split.
    + intros H. apply size_empty_inv in H. apply leibniz_equiv in H. exact H.
    + intros ->. apply size_empty.
Qed.

(** X2. The similarity depends on the two sets of tokens only: the order
    of the words, their repetition and the whitespace between them do not
    change it. *)
Theorem similarity_of_token_sets :
  forall a a' b b' : string,
    tokens a = tokens a' -> tokens b = tokens b' ->
    _similarity a b = _similarity a' b'.
Proof.
  intros a a' b b' Ha Hb. rewrite !similarity_tokens, Ha, Hb. reflexivity.
Qed.

Lemma similarity_of_token_sets_witness :
  _similarity "ao  vivo ao" "vivo" = _similarity "vivo ao" " vivo vivo".
Proof.
  apply similarity_of_token_sets; vm_compute; reflexivity.
Defined.

(** ** The search *)



Section Candidates.

Variables (artist : option string) (title : string).


End Candidates.


(** *** What rounding adds at most *)

Section Rounding.

Local Open Scope Q_scope.
















End Rounding.











(** ** The query *)

Lemma all_chars_sub_non_word s :
  all_chars (fun c => PyStr.is_word c || PyStr.is_space c) (PyStr.sub_non_word s)
  = true.
Proof.
  induction s as [|c s IH]; [reflexivity|]. cbn [PyStr.sub_non_word all_chars].
  rewrite IH, andb_true_r.
  destruct (PyStr.is_word c || PyStr.is_space c) eqn:E; [exact E | reflexivity].
Qed.

Lemma all_chars_sub_spaces s : forall in_run,
  all_chars (fun c => PyStr.is_word c || PyStr.is_space c) s = true ->
  all_chars query_char (PyStr.sub_spaces s in_run) = true.
Proof.
  induction s as [|c s IH]; intros in_run H; [reflexivity|].
  cbn [all_chars] in H. apply andb_prop in H as [Hc Hs].
  cbn [PyStr.sub_spaces]. destruct (PyStr.is_space c) eqn:Esp.
  - destruct in_run; [apply IH; exact Hs|].
    cbn [all_chars]. rewrite (IH true Hs). reflexivity.
  - cbn [all_chars]. rewrite (IH false Hs), andb_true_r.
    unfold query_char. rewrite orb_false_r in Hc. rewrite Hc. reflexivity.
Qed.

Lemma all_chars_lstrip p s : all_chars p s = true -> all_chars p (PyStr.lstrip s) = true.
Proof.
  induction s as [|c s IH]; intros H; [reflexivity|].
  cbn [PyStr.lstrip]. destruct (PyStr.is_space c); [|exact H].
  cbn [all_chars] in H. apply andb_prop in H as [_ H]. exact (IH H).
Qed.

Lemma all_chars_rev_app p a : forall b,
  all_chars p (String.rev_app a b) = all_chars p a && all_chars p b.
Proof.
  induction a as [|c a IH]; intros b; [reflexivity|].
  cbn [String.rev_app all_chars]. rewrite IH. cbn [all_chars].
  destruct (p c), (all_chars p a), (all_chars p b); reflexivity.
Qed.

Lemma all_chars_rev p s : all_chars p (String.rev s) = all_chars p s.
Proof. unfold String.rev. rewrite all_chars_rev_app. cbn. apply andb_true_r. Qed.

Lemma all_chars_strip p s : all_chars p s = true -> all_chars p (PyStr.strip s) = true.
Proof.
  intros H. unfold PyStr.strip, PyStr.rstrip.
  rewrite all_chars_rev. apply all_chars_lstrip. rewrite all_chars_rev.
  apply all_chars_lstrip. exact H.
Qed.

Lemma all_chars_prefix p s : forall n,
  all_chars p s = true -> all_chars p (PyStr.prefix n s) = true.
Proof.
  unfold PyStr.prefix. induction s as [|c s IH]; intros [|n] H; try reflexivity.
  cbn [all_chars] in H. apply andb_prop in H as [Hc Hs].
  cbn [substring all_chars]. rewrite Hc, (IH n Hs). reflexivity.
Qed.

Lemma length_prefix s : forall n, (String.length (PyStr.prefix n s) <= n)%nat.
Proof.
  unfold PyStr.prefix. induction s as [|c s IH]; intros [|n]; cbn; try lia.
  specialize (IH n). lia.
Qed.

(** X5. The query that [_try_search] builds has at most 100 characters,
    all of them word characters or spaces. When it has fewer than 3
    characters, [_try_search] returns [None] without calling the service,
    and counts no hit. *)
Theorem query_normal_form :
  forall artist title,
    (String.length (make_query artist title) <= 100)%nat
    /\ all_chars query_char (make_query artist title) = true
    /\ (forall env self,
          (String.length (make_query artist title) < 3)%nat ->
          _try_search env artist title self
          = (Ok None, record (CallTrySearch artist title) self)).
Proof.
  intros artist title. split; [apply length_prefix|]. split.
  - unfold make_query. apply all_chars_prefix, all_chars_strip, all_chars_sub_spaces.
    apply all_chars_sub_non_word.
  - intros env self H. rewrite try_search_run.
    unfold try_result, try_state, too_short.
    apply Nat.ltb_lt in H. rewrite H, orb_true_r. reflexivity.
Qed.

Lemma query_normal_form_witness :
  _try_search (Example.process Example.library Example.catalogue)
              (Some "U2") EmptyString (Example.fresh true)
  = (Ok None, record (CallTrySearch (Some "U2") EmptyString) (Example.fresh true)).
Proof.
  destruct (query_normal_form (Some "U2") EmptyString) as (_ & _ & H).
  apply H. vm_compute. lia.
Defined.

(** ** Resolutions *)

Section Resolutions.

Variable env : Env.


(** What a resolution returns after a miss. *)
Lemma identify_year_computed file_path self r self' :
  identify_year env file_path self = (Ok r, self') ->
  cache self !! get_file_hash env file_path = None ->
  computed r.
Proof.
  intros Hrun Hc.
  destruct (PyInt.truthy (md_year (metadata_of env file_path))) eqn:Ht.
  - destruct (truthy_some _ Ht) as (y & Hy & Hz).
    rewrite (identify_year_metadata env _ _ _ Hc Hy Hz) in Hrun.
    injection Hrun as <- _. split; [exact Hz|]. left. split; reflexivity.
  - destruct (identify_year_fallthrough env _ _ Hc Ht) as (self2 & _ & _ & _ & E).
    rewrite E in Hrun. clear E.
    assert (Hfile : forall y (s : Identifier), filename_year file_path = Some y ->
                    computed (Some y, "filename", 0.60%Q)).
    { intros y _ Hy. unfold filename_year in Hy. rewrite scan_first_group in Hy.
      destruct (YearPattern.first_group _) as [g|] eqn:Hg; [|discriminate].
      injection Hy as <-.
      pose proof (token_range g (first_group_token _ _ Hg)) as Hr.
      split; [lia|]. right. right. split; [reflexivity|]. split; [reflexivity|].
      exact Hr. }
    assert (Hrest : forall s,
              match filename_year file_path with
              | Some y' => (Ok (Some y', "filename", 0.60%Q),
                            store env (get_file_hash env file_path) y' "filename"
                                  0.60%Q (set_stats bump_filename_hits s))
              | None => (Ok unknown, s)
              end = (Ok r, self') -> computed r).
    { intros s. destruct (filename_year file_path) as [y'|] eqn:Hf.
      - intros [= <- _]. exact (Hfile y' s eq_refl).
      - intros [= <- _]. split; reflexivity. }
    destruct (spotify_year env self _) as [y|]; [|exact (Hrest _ Hrun)].
    destruct (negb (y =? 0)%Z) eqn:Hz; [|exact (Hrest _ Hrun)].
    injection Hrun as <- _. apply negb_true_iff, Z.eqb_neq in Hz.
    split; [exact Hz|]. right. left. split; [reflexivity|].
    unfold spotify_confidence. destruct (str_truthy _); [left | right]; reflexivity.
Qed.

(** A resolution changes no entry of the cache and removes none. *)
Lemma identify_year_cache_grows file_path self r self' h v :
  identify_year env file_path self = (Ok r, self') ->
  cache self !! h = Some v -> cache self' !! h = Some v.
Proof.
  intros Hrun Hv.
  destruct (identify_year_cases env _ _ _ _ Hrun)
    as [e Hc | Hc | y source confidence self2 Hc C | self2 Hc C].
  - exact Hv.
  - exact Hv.
  - unfold store. cbn [cache set_cache tick]. rewrite C.
    rewrite lookup_insert_ne; [exact Hv|]. intros <-. congruence.
  - rewrite C. exact Hv.
Qed.

(** A cache written by the resolver stays one, and what is returned from
    it is a triple that the resolver computed. *)
Lemma identify_year_keeps_written file_path self r self' :
  written_by_resolver (cache self) ->
  identify_year env file_path self = (Ok r, self') ->
  written_by_resolver (cache self') /\ computed r.
Proof.
  intros Hw Hrun.
  destruct (cache self !! get_file_hash env file_path) as [v|] eqn:Hc.
  - destruct (Hw _ _ Hc) as (y & source & confidence & ts & -> & Hcomp).
    rewrite (identify_year_hit env _ _ _ Hc) in Hrun.
    injection Hrun as <- <-. split; [exact Hw | exact Hcomp].
  - pose proof (identify_year_computed _ _ _ _ Hrun Hc) as Hcomp.
    split; [|exact Hcomp].
    destruct (identify_year_cases env _ _ _ _ Hrun)
      as [e Hc' | Hc' | y source confidence self2 _ C | self2 _ C];
      try congruence.
    + intros h v Hv. unfold store in Hv. cbn [cache set_cache tick] in Hv.
      rewrite C in Hv.
      destruct (decide (get_file_hash env file_path = h)) as [<-|Hne].
      * rewrite lookup_insert_eq in Hv. injection Hv as <-.
        eexists _, _, _, _. split; [reflexivity | exact Hcomp].
      * rewrite lookup_insert_ne in Hv by exact Hne. exact (Hw _ _ Hv).
    + rewrite C. exact Hw.
Qed.

End Resolutions.



(** ** The metadata of a file *)







(** ** The counters of the organiser *)




Section Processing.

Variable env : Env.
Variable targets : gset Z.



End Processing.




(** ** The loop of the organiser *)

Section Loop.

Variable env : Env.


End Loop.

(** ** Where the organiser puts files, and where it looks for them *)











Section Sweep.

Variable env : Env.








End Sweep.

(** ** A run *)

Section WholeRun.

Variable env : Env.




End WholeRun.







(** ** The cache along a run *)

Section CacheOfRun.

Variable env : Env.



End CacheOfRun.



(** ** A second scan *)




(** ** Resolutions one after the other *)

Section Sequences.

Variable env : Env.

Lemma identify_all_spec files : forall self,
  length (identify_all env files self).1 = length files
  /\ (forall h v, cache self !! h = Some v ->
                  cache (identify_all env files self).2 !! h = Some v)
  /\ (written_by_resolver (cache self) ->
      written_by_resolver (cache (identify_all env files self).2)
      /\ Forall computed (identify_all env files self).1).
Proof.
  induction files as [|f files IH]; intros self.
  - cbn. split; [reflexivity|]. split; [auto|]. intros H. split; [exact H | constructor].
  - cbn [identify_all].
    destruct (identify_year_returns env f self) as (r & self1 & Hrun). rewrite Hrun.
    destruct (IH self1) as (Hlen & Hgrow & Hw).
    destruct (identify_all env files self1) as [rs self2]. cbn [fst snd] in *.
    split; [cbn [length]; rewrite Hlen; reflexivity|].
    split.
    + intros h v Hv. apply Hgrow.
      exact (identify_year_cache_grows env _ _ _ _ _ _ Hrun Hv).
    + intros Hwr.
      destruct (identify_year_keeps_written env _ _ _ _ Hwr Hrun) as [Hw1 Hc].
      destruct (Hw Hw1) as [Hw2 Hall]. split; [exact Hw2|].
      constructor; assumption.
Qed.

End Sequences.

(** X13. An entry of the cache is final. Once a value is in the cache
    under the fingerprint of a file, then after any resolutions of any
    files, a resolution of the file returns what the value holds: the
    year, the source (['cache'] when it has none) and the confidence (0.5
    when it has none) of an object, and [(None, 'unknown', 0.0)] for a
    value that is not an object. That resolution makes no call and
    leaves the cache as it is; it only counts a cache hit. *)
Theorem cache_entry_is_final :
  forall env file_path files self v,
    cache self !! get_file_hash env file_path = Some v ->
    exists self',
      identify_year env file_path (identify_all env files self).2
      = (Ok match v with
            | JObject e =>
                (entry_year e, default "cache" (entry_source e),
                 default 0.5%Q (entry_confidence e))
            | JOther => (None, "unknown", 0%Q)
            end, self')
      /\ trace self' = trace (identify_all env files self).2
      /\ cache self' = cache (identify_all env files self).2
      /\ stats self' = bump_cache_hits (stats (identify_all env files self).2).
Proof.
  intros env file_path files self v Hv.
  destruct (identify_all_spec env files self) as (_ & Hgrow & _).
  specialize (Hgrow _ _ Hv).
  exists (set_stats bump_cache_hits (identify_all env files self).2).
  split; [|repeat split].
  destruct v as [e|].
  - exact (identify_year_hit env _ _ _ Hgrow).
  - exact (identify_year_hit_other env _ _ Hgrow).
Qed.

Lemma cache_entry_is_final_witness :
  exists self',
    identify_year (Example.process Example.library Example.silent)
      (Example.in_music "song.mp3")
      (identify_all (Example.process Example.library Example.silent)
         [Example.in_music "hello.mp3"]
         (mkIdentifier {[ "4096|song.mp3|1700000000/1|" := JOther ]}
                       false false (mkStats 0 0 0 0) 0 [])).2
    = (Ok (None, "unknown", 0%Q), self').
Proof.
  destruct (cache_entry_is_final
              (Example.process Example.library Example.silent)
              (Example.in_music "song.mp3") [Example.in_music "hello.mp3"]
              (mkIdentifier {[ "4096|song.mp3|1700000000/1|" := JOther ]}
                            false false (mkStats 0 0 0 0) 0 [])
              JOther)
    as (self' & E & _).
  - vm_compute. reflexivity.
  - exists self'. exact E.
Defined.

(** X14. Resolutions that start from a cache written by the resolver (the
    empty cache is one) return, one for each file, triples that the
    resolver computes: a year that is not 0 with the source ['metadata']
    and the confidence 0.95, or ['spotify'] and 0.85 or 0.70, or
    ['filename'], 0.60 and a year from 2000 to 2029; or no year, with
    ['unknown'] and 0.0. The cache stays one written by the resolver. *)
Theorem resolutions_are_computed :
  forall env files self,
    written_by_resolver (cache self) ->
    length (identify_all env files self).1 = length files
    /\ Forall computed (identify_all env files self).1
    /\ written_by_resolver (cache (identify_all env files self).2).
Proof.
  intros env files self Hw.
  destruct (identify_all_spec env files self) as (Hlen & _ & H).
  destruct (H Hw) as [Hw' Hall]. split; [exact Hlen|]. split; assumption.
Qed.

Lemma resolutions_are_computed_witness :
  written_by_resolver (cache (Example.fresh true))
  /\ Forall computed
       (identify_all (Example.process Example.library Example.catalogue)
          [Example.in_music "zero.mp3"; Example.in_music "hello.mp3"]
          (Example.fresh true)).1.
Proof.
  assert (Hw : written_by_resolver (cache (Example.fresh true))).
  { intros h v Hv. cbn in Hv. rewrite lookup_empty in Hv. discriminate Hv. }
  split; [exact Hw|].
  exact (proj1 (proj2 (resolutions_are_computed
                         (Example.process Example.library Example.catalogue)
                         [Example.in_music "zero.mp3"; Example.in_music "hello.mp3"]
                         (Example.fresh true) Hw))).
Defined.

(** ** The scan *)

Lemma relative_to_Some root : forall path rel,
  relative_to root path = Some rel <-> path = (root ++ rel)%list.
Proof.
  induction root as [|r root IH]; intros path rel; cbn [relative_to app].
  - split; [intros [= ->]; reflexivity | intros ->; reflexivity].
  - destruct path as [|c path].
    + split; [discriminate | intros H; discriminate H].
    + destruct (String.eqb_spec r c) as [->|Hne].
      * rewrite IH. split; [intros ->; reflexivity | intros [= ->]; reflexivity].
      * split; [discriminate | intros [= E _]; congruence].
Qed.

Lemma outside_spec self p :
  outside self p = true
  <-> exists rel, parts p = (root self ++ rel)%list
                  /\ forall d, d ∈ rel -> d ∉ exclude_dirs self.
Proof.
  unfold outside. split.
  - destruct (relative_to (root self) (parts p)) as [rel|] eqn:E; [|discriminate].
    intros H. exists rel. split; [apply relative_to_Some; exact E|].
    intros d Hd Hex. apply negb_true_iff in H.
    assert (Ht : existsb (fun part => bool_decide (part ∈ exclude_dirs self)) rel = true).
    { apply existsb_exists. exists d. split; [apply list_elem_of_In; exact Hd|].
      apply bool_decide_eq_true_2. exact Hex. }
    congruence.
  - intros (rel & Hp & Hall). apply relative_to_Some in Hp. rewrite Hp.
    apply negb_true_iff. apply not_true_is_false. intros H.
    apply existsb_exists in H as (d & Hd & Hex).
    apply bool_decide_eq_true in Hex. apply list_elem_of_In in Hd.
    exact (Hall d Hd Hex).
Qed.

(** X15. [scan_files] returns the paths of the listing that are files,
    whose suffix in lower case is one of the supported ones, that lie
    under the root, and of which no component below the root (directory
    or file name) is the name of a target year or one of
    [outros_anos], [nao_identificadas], [backup_musicas], [antigas],
    [fora_2025]. So a file under a directory of such a name, at any depth
    below the root, is never returned. *)
Theorem scan_files_selects :
  forall self fs listing,
    (forall f,
       f ∈ scan_files self fs listing
       <-> f ∈ listing
           /\ is_Some (fs !! f)
           /\ PyStr.lower (suffix (name f)) ∈ SUPPORTED_EXTENSIONS
           /\ exists rel, parts f = (root self ++ rel)%list
                          /\ forall d, d ∈ rel -> d ∉ exclude_dirs self)
    /\ (forall f above d below,
          d ∈ exclude_dirs self ->
          parent f = (root self ++ above ++ d :: below)%list ->
          f ∉ scan_files self fs listing).
Proof.
  intros self fs listing.
  assert (Hiff : forall f,
       f ∈ scan_files self fs listing
       <-> f ∈ listing
           /\ is_Some (fs !! f)
           /\ PyStr.lower (suffix (name f)) ∈ SUPPORTED_EXTENSIONS
           /\ exists rel, parts f = (root self ++ rel)%list
                          /\ forall d, d ∈ rel -> d ∉ exclude_dirs self).
  { intros f. unfold scan_files. rewrite list_elem_of_In, List.filter_In.
    rewrite <- list_elem_of_In. unfold selected.
    rewrite !andb_true_iff, !bool_decide_eq_true, outside_spec. tauto. }
  split; [exact Hiff|].
  intros f above d below Hd Hp Hin.
  apply Hiff in Hin as (_ & _ & _ & rel & Hrel & Hall).
  unfold parts in Hrel. rewrite Hp in Hrel. rewrite <- !app_assoc in Hrel.
  apply app_inv_head in Hrel. subst rel.
  apply (Hall d); [|exact Hd]. rewrite !elem_of_app. right. left. left.
Qed.

(** ** The backup *)

Lemma create_backup_copy self file_path fs c :
  backup_enabled self = true ->
  fs !! file_path = Some c ->
  (forall b, fs !! child (root self ++ [BACKUP_DIR]) (name file_path) = Some b ->
             String.length b <> String.length c) ->
  exists p,
    first_free fs (root self ++ [BACKUP_DIR]) (name file_path) = Some p
    /\ create_backup self file_path fs = (true, <[p := c]> fs, bump_backed_up self).
Proof.
  intros En Hc Hsize.
  destruct (first_free_total fs (root self ++ [BACKUP_DIR]) (name file_path))
    as [p Hp].
  exists p. split; [exact Hp|].
  unfold create_backup. rewrite En. cbn [negb]. cbv zeta. rewrite Hc, Hp.
  destruct (fs !! child (root self ++ [BACKUP_DIR]) (name file_path)) as [b|];
    [|reflexivity].
  specialize (Hsize b eq_refl). apply Nat.eqb_neq in Hsize. rewrite Hsize.
  reflexivity.
Qed.

Lemma create_backup_skip self file_path fs c b :
  backup_enabled self = true ->
  fs !! file_path = Some c ->
  fs !! child (root self ++ [BACKUP_DIR]) (name file_path) = Some b ->
  String.length b = String.length c ->
  create_backup self file_path fs = (true, fs, self).
Proof.
  intros En Hc Hb Hsize. unfold create_backup. rewrite En. cbn [negb]. cbv zeta.
  rewrite Hb, Hc. apply Nat.eqb_eq in Hsize. rewrite Hsize. reflexivity.
Qed.

Lemma create_backup_missing self file_path fs :
  fs !! file_path = None ->
  create_backup self file_path fs = (negb (backup_enabled self), fs, self).
Proof.
  intros Hc. unfold create_backup.
  destruct (backup_enabled self); cbn [negb]; [|reflexivity]. cbv zeta. rewrite Hc.
  destruct (fs !! child (root self ++ [BACKUP_DIR]) (name file_path)); [reflexivity|].
  destruct (first_free fs _ _); reflexivity.
Qed.

(** X16. [create_backup] with the backup enabled. For a file that is not
    on disk it returns [False] and changes nothing. For a file on disk it
    returns [True]; when the backup directory has a file of that name and
    of the same size, whatever its content, nothing is copied and nothing
    counted; otherwise the content is copied to a path of the backup
    directory that was free, the one the loop of names finds, one backup
    is counted, and every file that was on disk is unchanged. With the
    backup disabled it returns [True] and changes nothing. *)
Theorem create_backup_outcome :
  forall self file_path fs,
    (backup_enabled self = false ->
     create_backup self file_path fs = (true, fs, self))
    /\ (backup_enabled self = true ->
        (fs !! file_path = None ->
         create_backup self file_path fs = (false, fs, self))
        /\ (forall c b,
              fs !! file_path = Some c ->
              fs !! child (root self ++ [BACKUP_DIR]) (name file_path) = Some b ->
              String.length b = String.length c ->
              create_backup self file_path fs = (true, fs, self))
        /\ (forall c,
              fs !! file_path = Some c ->
              (forall b,
                 fs !! child (root self ++ [BACKUP_DIR]) (name file_path) = Some b ->
                 String.length b <> String.length c) ->
              exists p,
                first_free fs (root self ++ [BACKUP_DIR]) (name file_path) = Some p
                /\ fs !! p = None
                /\ parent p = (root self ++ [BACKUP_DIR])%list
                /\ create_backup self file_path fs
                   = (true, <[p := c]> fs, bump_backed_up self)
                /\ (forall q k, fs !! q = Some k -> <[p := c]> fs !! q = Some k))).
Proof.
  intros self file_path fs. split.
  - intros En. unfold create_backup. rewrite En. reflexivity.
  - intros En. split; [|split].
    + intros Hc. rewrite (create_backup_missing _ _ _ Hc), En. reflexivity.
    + intros c b Hc Hb Hsize. exact (create_backup_skip _ _ _ _ _ En Hc Hb Hsize).
    + intros c Hc Hsize.
      destruct (create_backup_copy _ _ _ _ En Hc Hsize) as (p & Hp & E).
      exists p. split; [exact Hp|].
      apply first_free_spec in Hp as (Hfree & Hpar & _).
      split; [exact Hfree|]. split; [exact Hpar|]. split; [exact E|].
      intros q k Hq. rewrite lookup_insert_ne; [exact Hq|]. intros ->. congruence.
Qed.

(** X17. Two backups of a file on disk, one after the other. When the
    name of the file was free in the backup directory, or taken by a file
    of the same size, the second call changes nothing: at most one copy
    is made. When the name was taken by a file of another size, each call
    makes a copy of its own, under two different names, and two backups
    are counted. *)
Theorem backup_twice :
  forall self file_path fs c,
    backup_enabled self = true ->
    fs !! file_path = Some c ->
    exists fs1 self1 fs2 self2,
      create_backup self file_path fs = (true, fs1, self1)
      /\ create_backup self1 file_path fs1 = (true, fs2, self2)
      /\ ((forall b,
             fs !! child (root self ++ [BACKUP_DIR]) (name file_path) = Some b ->
             String.length b = String.length c) ->
          fs2 = fs1 /\ self2 = self1)
      /\ (forall b,
            fs !! child (root self ++ [BACKUP_DIR]) (name file_path) = Some b ->
            String.length b <> String.length c ->
            exists p1 p2,
              p1 <> p2
              /\ fs !! p1 = None /\ fs !! p2 = None
              /\ fs1 = <[p1 := c]> fs
              /\ fs2 = <[p2 := c]> (<[p1 := c]> fs)
              /\ backed_up self2 = S (S (backed_up self))).
Proof.
  intros self file_path fs c En Hc.
  set (plain := child (root self ++ [BACKUP_DIR]) (name file_path)).
  destruct (fs !! plain) as [b|] eqn:Hb.
  - destruct (Nat.eq_dec (String.length b) (String.length c)) as [Hsize|Hsize].
    + pose proof (create_backup_skip _ _ _ _ _ En Hc Hb Hsize) as E.
      exists fs, self, fs, self. split; [exact E|]. split; [exact E|].
      split; [intros _; split; reflexivity|].
      intros b' [= <-] Hne. contradiction.
    + assert (Hall : forall b', fs !! plain = Some b' ->
                                String.length b' <> String.length c).
      { intros b' Hb'. rewrite Hb in Hb'. injection Hb' as <-. exact Hsize. }
      destruct (create_backup_copy _ _ _ _ En Hc Hall) as (p1 & Hp1 & E1).
      apply first_free_spec in Hp1 as (Hfree1 & _ & _).
      assert (Hne1 : p1 <> plain) by (intros ->; fold plain in Hfree1; congruence).
      assert (Hnf : p1 <> file_path) by (intros ->; congruence).
      assert (Hc1 : <[p1 := c]> fs !! file_path = Some c)
        by (rewrite lookup_insert_ne by exact Hnf; exact Hc).
      assert (Hall1 : forall b',
                <[p1 := c]> fs
                  !! child (root (bump_backed_up self) ++ [BACKUP_DIR]) (name file_path)
                = Some b' ->
                String.length b' <> String.length c).
      { intros b' Hb'. cbn [bump_backed_up root] in Hb'. fold plain in Hb'.
        rewrite lookup_insert_ne in Hb' by exact Hne1. exact (Hall b' Hb'). }
      destruct (create_backup_copy (bump_backed_up self) file_path
                  (<[p1 := c]> fs) c En Hc1 Hall1) as (p2 & Hp2 & E2).
      apply first_free_spec in Hp2 as (Hfree2 & _ & _).
      exists (<[p1 := c]> fs), (bump_backed_up self),
             (<[p2 := c]> (<[p1 := c]> fs)), (bump_backed_up (bump_backed_up self)).
      split; [exact E1|]. split; [exact E2|].
      split.
      { intros Hs. exfalso. exact (Hsize (Hs b eq_refl)). }
      intros b' _ _. exists p1, p2.
      assert (Hne : p1 <> p2).
      { intros <-. rewrite lookup_insert_eq in Hfree2. discriminate Hfree2. }
      split; [exact Hne|]. split; [exact Hfree1|].
      split.
      { rewrite lookup_insert_ne in Hfree2 by exact Hne. exact Hfree2. }
      split; [reflexivity|]. split; reflexivity.
  - assert (Hall : forall b', fs !! plain = Some b' ->
                              String.length b' <> String.length c).
    { intros b' Hb'. rewrite Hb in Hb'. discriminate Hb'. }
    destruct (create_backup_copy _ _ _ _ En Hc Hall) as (p1 & Hp1 & E1).
    fold plain in Hp1. rewrite (first_free_plain _ _ _ Hb) in Hp1.
    injection Hp1 as <-.
    assert (Hnf : plain <> file_path) by (intros E; rewrite E in Hb; congruence).
    assert (E2 : create_backup (bump_backed_up self) file_path (<[plain := c]> fs)
                 = (true, <[plain := c]> fs, bump_backed_up self)).
    { apply (create_backup_skip _ _ _ c c); [exact En | | | reflexivity].
      - rewrite lookup_insert_ne by exact Hnf. exact Hc.
      - cbn [bump_backed_up root]. fold plain. apply lookup_insert_eq. }
    exists (<[plain := c]> fs), (bump_backed_up self),
           (<[plain := c]> fs), (bump_backed_up self).
    split; [exact E1|]. split; [exact E2|].
    split; [intros _; split; reflexivity|].
    intros b' Hb'. discriminate Hb'.
Qed.

Lemma backup_twice_witness :
  exists fs1 self1,
    create_backup (Example.organiser true) (Example.in_inbox "hello.mp3")
                  Session.disk = (true, fs1, self1)
    /\ create_backup self1 (Example.in_inbox "hello.mp3") fs1 = (true, fs1, self1).
Proof.
  destruct (backup_twice (Example.organiser true) (Example.in_inbox "hello.mp3")
              Session.disk "hello!" eq_refl)
    as (fs1 & self1 & fs2 & self2 & E1 & E2 & Hsame & _).
  - vm_compute. reflexivity.
  - exists fs1, self1. split; [exact E1|].
    destruct Hsame as [-> ->]; [|exact E2].
    intros b Hb. vm_compute in Hb. discriminate Hb.
Defined.

(** X18. A move with the backup enabled, of a file on disk that is not
    itself in the backup directory: [move_file] returns [True] and counts
    the move; the file is no longer at its path, its content is at a path
    of the directory chosen, and the backup directory holds a file of the
    same size: a copy made by this call, or the file of the same name
    that was there. *)
Theorem move_keeps_a_backup :
  forall self file_path year confidence fs c,
    backup_enabled self = true ->
    fs !! file_path = Some c ->
    parent file_path <> (root self ++ [BACKUP_DIR])%list ->
    exists fs' self' q b k,
      move_file self file_path year confidence fs = (true, fs', self')
      /\ moved self' = S (moved self)
      /\ fs' !! file_path = None
      /\ parent q = dest_dir self year confidence
      /\ fs' !! q = Some c
      /\ parent b = (root self ++ [BACKUP_DIR])%list
      /\ fs' !! b = Some k
      /\ String.length k = String.length c
      /\ (k = c
          \/ (b = child (root self ++ [BACKUP_DIR]) (name file_path)
              /\ fs !! b = Some k)).
Proof.
  intros self file_path year confidence fs c En Hc Hpar.
  set (plain := child (root self ++ [BACKUP_DIR]) (name file_path)).
  assert (Hstep : forall fs1 self1 b k,
            create_backup self file_path fs = (true, fs1, self1) ->
            root self1 = root self -> target_years self1 = target_years self ->
            moved self1 = moved self ->
            fs1 !! file_path = Some c ->
            parent b = (root self ++ [BACKUP_DIR])%list ->
            fs1 !! b = Some k ->
            exists fs' self' q,
              move_file self file_path year confidence fs = (true, fs', self')
              /\ moved self' = S (moved self)
              /\ fs' !! file_path = None
              /\ parent q = dest_dir self year confidence
              /\ fs' !! q = Some c
              /\ fs' !! b = Some k).
  { intros fs1 self1 b k E R T M Hc1 Hb Hk.
    destruct (first_free_total fs1 (dest_dir self year confidence) (name file_path))
      as [q Hq].
    exists (<[q := c]> (delete file_path fs1)), (bump_moved self1), q.
    pose proof Hq as Hq'. apply first_free_spec in Hq' as (Hfree & Hqpar & _).
    assert (Hqf : q <> file_path) by (intros ->; congruence).
    split.
    { unfold move_file. rewrite En, E.
      rewrite (dest_dir_ext self self1 year confidence R T), Hq, Hc1. reflexivity. }
    split; [cbn [bump_moved moved]; rewrite M; reflexivity|].
    split; [rewrite lookup_insert_ne by exact Hqf; apply lookup_delete_eq|].
    split; [exact Hqpar|]. split; [apply lookup_insert_eq|].
    rewrite lookup_insert_ne by (intros ->; congruence).
    rewrite lookup_delete_ne; [exact Hk|]. intros <-. contradiction. }
  destruct (fs !! plain) as [b|] eqn:Hb.
  - destruct (Nat.eq_dec (String.length b) (String.length c)) as [Hsize|Hsize].
    + pose proof (create_backup_skip _ _ _ _ _ En Hc Hb Hsize) as E.
      destruct (Hstep fs self plain b E eq_refl eq_refl eq_refl Hc eq_refl Hb)
        as (fs' & self' & q & H1 & H2 & H3 & H4 & H5 & H6).
      exists fs', self', q, plain, b. repeat (split; [assumption|]).
      split; [reflexivity|]. repeat (split; [assumption|]).
      right. split; [reflexivity | exact Hb].
    + assert (Hall : forall b', fs !! plain = Some b' ->
                                String.length b' <> String.length c).
      { intros b' Hb'. rewrite Hb in Hb'. injection Hb' as <-. exact Hsize. }
      destruct (create_backup_copy _ _ _ _ En Hc Hall) as (p & Hp & E).
      apply first_free_spec in Hp as (Hfree & Hppar & _).
      assert (Hpf : p <> file_path) by (intros ->; congruence).
      destruct (Hstep (<[p := c]> fs) (bump_backed_up self) p c E
                  eq_refl eq_refl eq_refl
                  ltac:(rewrite lookup_insert_ne by exact Hpf; exact Hc)
                  Hppar ltac:(apply lookup_insert_eq))
        as (fs' & self' & q & H1 & H2 & H3 & H4 & H5 & H6).
      exists fs', self', q, p, c. repeat (split; [assumption|]).
      split; [reflexivity|]. left. reflexivity.
  - assert (Hall : forall b', fs !! plain = Some b' ->
                              String.length b' <> String.length c).
    { intros b' Hb'. rewrite Hb in Hb'. discriminate Hb'. }
    destruct (create_backup_copy _ _ _ _ En Hc Hall) as (p & Hp & E).
    apply first_free_spec in Hp as (Hfree & Hppar & _).
    assert (Hpf : p <> file_path) by (intros ->; congruence).
    destruct (Hstep (<[p := c]> fs) (bump_backed_up self) p c E
                eq_refl eq_refl eq_refl
                ltac:(rewrite lookup_insert_ne by exact Hpf; exact Hc)
                Hppar ltac:(apply lookup_insert_eq))
      as (fs' & self' & q & H1 & H2 & H3 & H4 & H5 & H6).
    exists fs', self', q, p, c. repeat (split; [assumption|]).
    split; [reflexivity|]. left. reflexivity.
Qed.

Lemma move_keeps_a_backup_witness :
  exists fs' self' q b k,
    move_file (Example.organiser true) (Example.in_inbox "hello.mp3")
              (Some 2024%Z) 0.95%Q Session.disk = (true, fs', self')
    /\ fs' !! q = Some "hello!"
    /\ parent b = ["home"; "musicas"; "backup_musicas"]
    /\ fs' !! b = Some k
    /\ String.length k = 6%nat.
Proof.
  destruct (move_keeps_a_backup (Example.organiser true)
              (Example.in_inbox "hello.mp3") (Some 2024%Z) 0.95%Q
              Session.disk "hello!" eq_refl)
    as (fs' & self' & q & b & k & E & _ & _ & _ & Hq & Hb & Hk & Hlen & _).
  - vm_compute. reflexivity.
  - discriminate.
  - exists fs', self', q, b, k. repeat (split; [assumption|]). exact Hlen.
Defined.

(** ** Stems without a year *)

Lemma search_none (here : string -> option string) (s : string) :
  (forall n, here (YearPattern.from n s) = None) -> YearPattern.search here s = None.
Proof.
  induction s as [|c s IH]; intros H; cbn [YearPattern.search];
    pose proof (H 0%nat) as H0; cbn [YearPattern.from] in H0; rewrite H0.
  - reflexivity.
  - apply IH. intros n. exact (H (S n)).
Qed.

Lemma all_chars_from p s : forall n,
  all_chars p s = true -> all_chars p (YearPattern.from n s) = true.
Proof.
  induction s as [|c s IH]; intros n H.
  - destruct n; reflexivity.
  - destruct n as [|n]; [exact H|]. cbn [YearPattern.from].
    cbn [all_chars] in H. apply andb_true_iff in H as [_ H]. exact (IH n H).
Qed.

Lemma length_from s : forall n,
  (String.length (YearPattern.from n s) <= String.length s)%nat.
Proof.
  induction s as [|c s IH]; intros [|n]; cbn [YearPattern.from String.length]; try lia.
  specialize (IH n). lia.
Qed.

(** X19. The scan of the file name finds no year in a stem made of digits
    only, and none in a stem of fewer than five characters: each of the
    three patterns wants a character that is not a digit next to the
    token. So [20230101.mp3] and [2023.mp3] give no year. *)
Theorem stems_without_a_year :
  forall file_path,
    (all_chars PyStr.is_digit (stem (name file_path)) = true ->
     filename_year file_path = None)
    /\ ((String.length (stem (name file_path)) <= 4)%nat ->
        filename_year file_path = None).
Proof.
  intros file_path. unfold filename_year.
  generalize (stem (name file_path)). intros s.
  assert (Hscan : YearPattern.inner s = None -> YearPattern.at_start s = None ->
                  YearPattern.at_end s = None ->
                  YearPattern.scan YearPattern.year_patterns s = None).
  { intros H1 H2 H3. unfold YearPattern.year_patterns. cbn [YearPattern.scan].
    rewrite H1, H2, H3. reflexivity. }
  split.
  - intros Hd. apply Hscan.
    + apply search_none. intros n. pose proof (all_chars_from _ _ n Hd) as H.
      destruct (YearPattern.from n s) as [|x t]; [reflexivity|].
      cbn [all_chars] in H. apply andb_true_iff in H as [Hx _].
      unfold YearPattern.inner_here, YearPattern.non_digit. rewrite Hx. cbn [negb andb].
      destruct t as [|a [|b [|c [|d [|y t]]]]]; reflexivity.
    + unfold YearPattern.at_start, YearPattern.start_here.
      destruct s as [|a [|b [|c [|d [|y t]]]]]; try reflexivity.
      cbn [all_chars] in Hd. rewrite !andb_true_iff in Hd.
      destruct Hd as (_ & _ & _ & _ & Hy & _).
      unfold YearPattern.non_digit. rewrite Hy. cbn [negb]. rewrite andb_false_r.
      reflexivity.
    + apply search_none. intros n. pose proof (all_chars_from _ _ n Hd) as H.
      destruct (YearPattern.from n s) as [|x t]; [reflexivity|].
      cbn [all_chars] in H. apply andb_true_iff in H as [Hx _].
      unfold YearPattern.end_here, YearPattern.non_digit. rewrite Hx. cbn [negb andb].
      destruct t as [|a [|b [|c [|d t]]]]; reflexivity.
  - intros Hlen. apply Hscan.
    + apply search_none. intros n. pose proof (length_from s n) as H.
      destruct (YearPattern.from n s) as [|x [|a [|b [|c [|d [|y t]]]]]];
        try reflexivity; cbn [String.length] in H; lia.
    + unfold YearPattern.at_start.
      destruct s as [|a [|b [|c [|d [|y t]]]]]; try reflexivity.
      cbn [String.length] in Hlen. lia.
    + apply search_none. intros n. pose proof (length_from s n) as H.
      destruct (YearPattern.from n s) as [|x [|a [|b [|c [|d t]]]]];
        try reflexivity; cbn [String.length] in H; lia.
Qed.

(** ** Where a computed triple goes *)

(** X20. The year and the confidence of a triple that the resolver
    computes decide the directory without the test of the confidence ever
    failing: a target year goes to its directory, any other year to
    [outros_anos], and no year to [nao_identificadas]. *)
Theorem computed_triple_destination :
  forall self year source confidence,
    computed (year, source, confidence) ->
    dest_dir self year confidence
    = match year with
      | Some y =>
          if bool_decide (y ∈ target_years self)
          then (root self ++ [pretty y])%list
          else (root self ++ ["outros_anos"])%list
      | None => (root self ++ ["nao_identificadas"])%list
      end.
Proof.
  intros self year source confidence Hc. unfold dest_dir.
  destruct year as [y|]; [|reflexivity].
  destruct (bool_decide (y ∈ target_years self)); [reflexivity|].
  destruct Hc as (Hz & Hcase). cbn [PyInt.truthy].
  apply Z.eqb_neq in Hz. rewrite Hz. cbn [negb andb].
  destruct Hcase as [[_ ->] | [[_ [-> | ->]] | (_ & -> & _)]]; reflexivity.
Qed.

Lemma computed_triple_destination_witness :
  computed (Some 2019%Z, "spotify", 0.85%Q)
  /\ dest_dir (Example.organiser true) (Some 2019%Z) 0.85%Q
     = ["home"; "musicas"; "outros_anos"].
Proof.
  assert (H : computed (Some 2019%Z, "spotify", 0.85%Q)).
  { split; [discriminate|]. right. left. split; [reflexivity|]. left. reflexivity. }
  split; [exact H|].
  exact (computed_triple_destination (Example.organiser true) (Some 2019%Z)
           "spotify" 0.85%Q H).
Defined.

(** ** The years asked for *)

Lemma contains_lstrip c s :
  PyStr.is_space c = false -> PyStr.contains c (PyStr.lstrip s) = PyStr.contains c s.
Proof.
  intros Hc. induction s as [|d s IH]; [reflexivity|].
  cbn [PyStr.lstrip]. destruct (PyStr.is_space d) eqn:Hd; [|reflexivity].
  cbn [PyStr.contains]. rewrite IH.
  destruct (Ascii.eqb_spec c d) as [->|_]; [congruence | reflexivity].
Qed.

Lemma contains_rev_app c a : forall b,
  PyStr.contains c (String.rev_app a b) = PyStr.contains c a || PyStr.contains c b.
Proof.
  induction a as [|x a IH]; intros b; [reflexivity|].
  cbn [String.rev_app PyStr.contains]. rewrite IH. cbn [PyStr.contains].
  destruct (Ascii.eqb c x), (PyStr.contains c a), (PyStr.contains c b); reflexivity.
Qed.

Lemma contains_rev c s : PyStr.contains c (String.rev s) = PyStr.contains c s.
Proof. unfold String.rev. rewrite contains_rev_app. cbn. apply orb_false_r. Qed.

Lemma contains_strip c s :
  PyStr.is_space c = false -> PyStr.contains c (PyStr.strip s) = PyStr.contains c s.
Proof.
  intros Hc. unfold PyStr.strip, PyStr.rstrip.
  rewrite contains_rev, (contains_lstrip _ _ Hc), contains_rev.
  apply contains_lstrip. exact Hc.
Qed.

Lemma contains_app c (a b : string) :
  PyStr.contains c (a +:+ b) = PyStr.contains c a || PyStr.contains c b.
Proof.
  induction a as [|x a IH]; [reflexivity|].
  change (String x a +:+ b) with (String x (a +:+ b)).
  cbn [PyStr.contains]. rewrite IH. apply orb_assoc.
Qed.

Lemma snoc_app (cur : string) (c : ascii) (a : string) :
  PyStr.snoc cur c +:+ a = cur +:+ String c a.
Proof.
  unfold PyStr.snoc. induction cur as [|x cur IH]; [reflexivity|].
  change ((String x cur +:+ String c EmptyString) +:+ a)
    with (String x ((cur +:+ String c EmptyString) +:+ a)).
  rewrite IH. reflexivity.
Qed.

Lemma app_empty_r (s : string) : s +:+ EmptyString = s.
Proof.
  induction s as [|x s IH]; [reflexivity|].
  change (String x s +:+ EmptyString) with (String x (s +:+ EmptyString)).
  rewrite IH. reflexivity.
Qed.

(** A run of characters without the separator is read into one part. *)
Lemma split_on_go_run sep a : forall s cur,
  PyStr.contains sep a = false ->
  split_on_go sep (a +:+ s) cur = split_on_go sep s (cur +:+ a).
Proof.
  induction a as [|x a IH]; intros s cur H.
  - rewrite app_empty_r. reflexivity.
  - change (String x a +:+ s) with (String x (a +:+ s)).
    cbn [PyStr.contains] in H. apply orb_false_elim in H as [Hx Ha].
    cbn [split_on_go]. rewrite Ascii.eqb_sym, Hx.
    rewrite (IH _ _ Ha), snoc_app. reflexivity.
Qed.

(** The parts do not hold the separator. *)
Lemma split_on_go_parts sep s : forall cur,
  PyStr.contains sep cur = false ->
  Forall (fun p => PyStr.contains sep p = false) (split_on_go sep s cur).
Proof.
  induction s as [|x s IH]; intros cur H; cbn [split_on_go].
  - constructor; [exact H | constructor].
  - destruct (Ascii.eqb_spec x sep) as [->|Hne].
    + constructor; [exact H | apply IH; reflexivity].
    + apply IH. unfold PyStr.snoc. rewrite contains_app, H.
      cbn [PyStr.contains orb]. rewrite orb_false_r.
      apply Ascii.eqb_neq. congruence.
Qed.

(** Another character is in the string when it is in one of the parts. *)
Lemma split_on_go_contains c sep s : forall cur,
  c <> sep ->
  existsb (PyStr.contains c) (split_on_go sep s cur)
  = PyStr.contains c cur || PyStr.contains c s.
Proof.
  induction s as [|x s IH]; intros cur Hne; cbn [split_on_go].
  - cbn [existsb PyStr.contains]. rewrite orb_false_r. reflexivity.
  - destruct (Ascii.eqb_spec x sep) as [->|Hx].
    + cbn [existsb PyStr.contains]. rewrite (IH _ Hne). cbn [PyStr.contains orb].
      apply Ascii.eqb_neq in Hne. rewrite Hne. reflexivity.
    + rewrite (IH _ Hne). unfold PyStr.snoc. rewrite contains_app.
      cbn [PyStr.contains]. rewrite orb_false_r. symmetry. apply orb_assoc.
Qed.

Lemma digit_val_nonneg c : PyStr.is_digit c = true -> (0 <= PyStr.digit_val c)%Z.
Proof.
  unfold PyStr.is_digit, PyStr.digit_val. intros H.
  apply andb_true_iff in H as [H _]. apply Nat.leb_le in H. lia.
Qed.

Lemma digits_nonneg s : forall acc prev v,
  PyInt.digits s acc prev = Some v -> (0 <= acc)%Z -> (0 <= v)%Z.
Proof.
  induction s as [|c s IH]; intros acc prev v H Hacc; cbn [PyInt.digits] in H.
  - destruct prev; [injection H as <-; exact Hacc | discriminate].
  - destruct (PyStr.is_digit c) eqn:Hd.
    + apply (IH _ _ _ H). pose proof (digit_val_nonneg c Hd). lia.
    + destruct (Ascii.eqb c "_"); [|discriminate].
      destruct prev; [|discriminate]. exact (IH _ _ _ H Hacc).
Qed.

Lemma digits_no_minus s : forall acc prev v,
  PyInt.digits s acc prev = Some v -> PyStr.contains "-" s = false.
Proof.
  induction s as [|c s IH]; intros acc prev v H; [reflexivity|].
  cbn [PyInt.digits] in H. cbn [PyStr.contains].
  destruct (Ascii.eqb_spec "-"%char c) as [<-|_].
  - cbn in H. discriminate H.
  - cbn [orb]. destruct (PyStr.is_digit c); [exact (IH _ _ _ H)|].
    destruct (Ascii.eqb c "_"); [|discriminate].
    destruct prev; [exact (IH _ _ _ H) | discriminate].
Qed.

(** The sign of [int(s)]. *)
Lemma contains_lskip c s :
  PyInt.is_space c = false -> PyStr.contains c (PyInt.lskip s) = PyStr.contains c s.
Proof.
  intros Hc. induction s as [|d s IH]; [reflexivity|].
  cbn [PyInt.lskip]. destruct (PyInt.is_space d) eqn:Hd; [|reflexivity].
  cbn [PyStr.contains]. rewrite IH.
  destruct (Ascii.eqb_spec c d) as [->|_]; [congruence | reflexivity].
Qed.

Lemma contains_skip c s :
  PyInt.is_space c = false -> PyStr.contains c (PyInt.skip s) = PyStr.contains c s.
Proof.
  intros Hc. unfold PyInt.skip.
  rewrite contains_rev, (contains_lskip _ _ Hc), contains_rev.
  apply contains_lskip. exact Hc.
Qed.

Lemma of_str_cases p :
  (exists r, PyInt.skip p = String "-" r
             /\ PyInt.of_str p = option_map Z.opp (PyInt.digits r 0 false))
  \/ (exists r, PyStr.contains "-" r = PyStr.contains "-" (PyInt.skip p)
                /\ PyInt.of_str p = PyInt.digits r 0 false).
Proof.
  unfold PyInt.of_str.
  destruct (PyInt.skip p) as [|[[] [] [] [] [] [] [] []] r];
    first [ left; exists r; split; reflexivity
          | right; exists r; split; reflexivity
          | right; eexists; split; reflexivity ].
Qed.

Lemma minus_not_space : PyStr.is_space "-" = false.
Proof. reflexivity. Qed.

Lemma minus_not_skipped : PyInt.is_space "-" = false.
Proof. reflexivity. Qed.

Lemma of_str_without_minus p v :
  PyInt.of_str p = Some v -> PyStr.contains "-" p = false -> (0 <= v)%Z.
Proof.
  intros H Hp. rewrite <- (contains_skip _ p minus_not_skipped) in Hp.
  destruct (of_str_cases p) as [(r & Hs & E) | (r & _ & E)].
  - rewrite Hs in Hp. discriminate Hp.
  - rewrite E in H. apply (digits_nonneg _ _ _ _ H). lia.
Qed.

Lemma of_str_positive p v :
  PyInt.of_str p = Some v -> (0 < v)%Z -> PyStr.contains "-" p = false.
Proof.
  intros H Hv. rewrite <- (contains_skip _ p minus_not_skipped).
  destruct (of_str_cases p) as [(r & Hs & E) | (r & Hc & E)].
  - rewrite E in H. destruct (PyInt.digits r 0 false) as [d|] eqn:Hd; [|discriminate].
    injection H as <-. pose proof (digits_nonneg _ _ _ _ Hd). lia.
  - rewrite E in H. rewrite <- Hc. exact (digits_no_minus _ _ _ _ H).
Qed.

Lemma elem_of_year_range start stop y :
  y ∈ year_range start stop <-> (start <= y <= stop)%Z.
Proof.
  unfold year_range. rewrite elem_of_list_to_set, list_elem_of_In, in_map_iff.
  split.
  - intros (i & <- & Hi). apply in_seq in Hi. lia.
  - intros Hy. exists (Z.to_nat (y - start)). split; [lia|]. apply in_seq. lia.
Qed.

Lemma ints_spec parts : forall l,
  ints parts = Some l ->
  Forall2 (fun p v => PyInt.of_str (PyStr.strip p) = Some v) parts l.
Proof.
  induction parts as [|p parts IH]; intros l H; cbn [ints] in H.
  - injection H as <-. constructor.
  - destruct (PyInt.of_str (PyStr.strip p)) as [v|] eqn:Hv; [|discriminate].
    destruct (ints parts) as [l'|]; [|discriminate].
    injection H as <-. constructor; [exact Hv | apply IH; reflexivity].
Qed.

Lemma range_bounds_spec s start stop :
  range_bounds s = Some (start, stop) ->
  exists a b, split_on "-" s = [a; b]
              /\ PyInt.of_str a = Some start /\ PyInt.of_str b = Some stop.
Proof.
  unfold range_bounds. intros H.
  destruct (split_on "-" s) as [|a [|b [|c l]]]; try discriminate.
  destruct (PyInt.of_str a) as [x|] eqn:Ha; [|discriminate].
  destruct (PyInt.of_str b) as [y|] eqn:Hb; [|discriminate].
  injection H as <- <-. eauto.
Qed.

Lemma range_bounds_nonneg s start stop :
  range_bounds s = Some (start, stop) -> (0 <= start)%Z /\ (0 <= stop)%Z.
Proof.
  intros H. destruct (range_bounds_spec _ _ _ H) as (a & b & Hs & Ha & Hb).
  pose proof (split_on_go_parts "-" s EmptyString eq_refl) as Hparts.
  fold (split_on "-" s) in Hparts. rewrite Hs in Hparts.
  apply Forall_cons in Hparts as [Pa Hparts]. apply Forall_cons in Hparts as [Pb _].
  split; eapply of_str_without_minus; eassumption.
Qed.

Lemma range_bounds_minus s start stop :
  range_bounds s = Some (start, stop) -> PyStr.contains "-" s = true.
Proof.
  intros H. destruct (range_bounds_spec _ _ _ H) as (a & b & Hs & _).
  destruct (PyStr.contains "-" s) eqn:Hc; [reflexivity|]. exfalso.
  pose proof (split_on_go_run "-" s EmptyString EmptyString Hc) as E.
  rewrite app_empty_r in E. fold (split_on "-" s) in E. rewrite Hs in E.
  discriminate E.
Qed.

(** X21. The argument [--years] of the form [A-B], where [A] and [B] are
    two integers written without a minus sign, gives the years from [A]
    to [B], both included; it gives no year at all when [B] is less than
    [A], and the run then has no target year. *)
Theorem years_argument_range :
  forall a b start stop,
    PyStr.contains "-" a = false ->
    PyStr.contains "-" b = false ->
    PyInt.of_str a = Some start ->
    PyInt.of_str b = Some stop ->
    years_of_argument (a +:+ String "-" b) = Some (year_range start stop)
    /\ (forall y, y ∈ year_range start stop <-> (start <= y <= stop)%Z)
    /\ ((stop < start)%Z -> year_range start stop = ∅).
Proof.
  intros a b start stop Ha Hb Hstart Hstop.
  split; [|split].
  - unfold years_of_argument. rewrite contains_app. cbn [PyStr.contains].
    rewrite Ha, Ascii.eqb_refl. cbn [orb].
    unfold range_bounds, split_on.
    rewrite (split_on_go_run "-" a _ EmptyString Ha). cbn [split_on_go].
    rewrite Ascii.eqb_refl.
    pose proof (split_on_go_run "-" b EmptyString EmptyString Hb) as E.
    rewrite app_empty_r in E. rewrite E. cbn [split_on_go].
    change (EmptyString +:+ a) with a. change (EmptyString +:+ b) with b.
    rewrite Hstart, Hstop. reflexivity.
  - intros y. apply elem_of_year_range.
  - intros Hlt. apply set_eq. intros y. rewrite elem_of_year_range.
    split; [lia | set_solver].
Qed.

Lemma years_argument_range_witness :
  years_of_argument "2020-2025" = Some (year_range 2020 2025)
  /\ (2023%Z ∈ year_range 2020 2025).
Proof.
  destruct (years_argument_range "2020" "2025" 2020 2025
              eq_refl eq_refl eq_refl eq_refl) as (E & Hin & _).
  split; [exact E|]. apply Hin. lia.
Defined.

(** X22. No value of [--years] gives a negative target year: a minus sign
    in the argument is read as the dash of a range. *)
Theorem years_argument_not_negative :
  forall years targets,
    years_of_argument years = Some targets ->
    forall y, y ∈ targets -> (0 <= y)%Z.
Proof.
  intros years targets H y Hy. unfold years_of_argument in H.
  destruct (PyStr.contains "-" years) eqn:Hc.
  - destruct (range_bounds years) as [[start stop]|] eqn:Hr; [|discriminate].
    injection H as <-. apply elem_of_year_range in Hy.
    destruct (range_bounds_nonneg _ _ _ Hr). lia.
  - unfold year_list in H.
    destruct (ints (split_on "," years)) as [l|] eqn:Hl; [|discriminate].
    injection H as <-. apply elem_of_list_to_set in Hy.
    pose proof (ints_spec _ _ Hl) as Hall.
    assert (Hparts : Forall (fun p => PyStr.contains "-" p = false)
                            (split_on "," years)).
    { apply Forall_forall. intros p Hp.
      pose proof (split_on_go_contains "-" "," years EmptyString ltac:(discriminate))
        as E. fold (split_on "," years) in E. cbn [PyStr.contains orb] in E.
      rewrite Hc in E.
      destruct (PyStr.contains "-" p) eqn:Hm; [|reflexivity].
      assert (Ht : existsb (PyStr.contains "-") (split_on "," years) = true).
      { apply existsb_exists. exists p. split; [apply list_elem_of_In; exact Hp|].
        exact Hm. }
      congruence. }
    clear Hl Hc. induction Hall as [|p v parts l Hv Hall IH].
    + apply elem_of_nil in Hy. contradiction.
    + apply Forall_cons in Hparts as [Hp Hparts].
      apply elem_of_cons in Hy as [-> | Hy]; [|exact (IH Hy Hparts)].
      apply (of_str_without_minus _ _ Hv).
      rewrite (contains_strip _ _ minus_not_space). exact Hp.
Qed.

Lemma years_argument_not_negative_witness :
  years_of_argument "2024,2025" = Some {[ 2024%Z; 2025%Z ]}
  /\ forall y : Z, y ∈ ({[ 2024%Z; 2025%Z ]} : gset Z) -> (0 <= y)%Z.
Proof.
  assert (E : years_of_argument "2024,2025" = Some {[ 2024%Z; 2025%Z ]}).
  { assert (Hc : PyStr.contains "-" "2024,2025" = false) by reflexivity.
    assert (Hi : ints (split_on "," "2024,2025") = Some [2024%Z; 2025%Z])
      by (vm_compute; reflexivity).
    unfold years_of_argument, year_list. rewrite Hc, Hi. reflexivity. }
  split; [exact E|].
  exact (years_argument_not_negative "2024,2025" {[ 2024%Z; 2025%Z ]} E).
Defined.

Lemma split_on_go_cons sep s : forall cur, split_on_go sep s cur <> [].
Proof.
  induction s as [|x s IH]; intros cur; cbn [split_on_go]; [discriminate|].
  destruct (Ascii.eqb x sep); [discriminate | apply IH].
Qed.

Lemma ints_minus parts : forall l,
  ints parts = Some l ->
  (forall v, v ∈ l -> (0 < v)%Z) ->
  existsb (PyStr.contains "-") parts = false.
Proof.
  induction parts as [|p parts IH]; intros l H Hpos; [reflexivity|].
  cbn [ints] in H.
  destruct (PyInt.of_str (PyStr.strip p)) as [v|] eqn:Hv; [|discriminate].
  destruct (ints parts) as [l'|] eqn:Hl; [|discriminate].
  injection H as <-. cbn [existsb].
  rewrite (IH l' eq_refl) by (intros w Hw; apply Hpos; right; exact Hw).
  rewrite orb_false_r.
  rewrite <- (contains_strip _ p minus_not_space).
  apply (of_str_positive _ v Hv). apply Hpos. left.
Qed.

(** X23. The years that [get_target_years] accepts as a range or as a list
    are never an empty set and lie between 1950 and 2030; the same text
    given to [--years] is read as the same set, but there no bound is
    checked. *)
Theorem interactive_years_bounded :
  forall typed targets,
    range_choice typed = Some targets \/ list_choice typed = Some targets ->
    targets <> ∅
    /\ (forall y, y ∈ targets -> (1950 <= y <= 2030)%Z)
    /\ years_of_argument (PyStr.strip typed) = Some targets.
Proof.
  intros typed targets [H | H].
  - unfold range_choice in H.
    destruct (range_bounds (PyStr.strip typed)) as [[start stop]|] eqn:Hr;
      [|discriminate].
    destruct ((1950 <=? start)%Z && (start <=? stop)%Z && (stop <=? 2030)%Z) eqn:Hb;
      [|discriminate].
    injection H as <-.
    rewrite !andb_true_iff, !Z.leb_le in Hb. destruct Hb as [[H1 H2] H3].
    split; [|split].
    + intros E. assert (Hin : start ∈ year_range start stop)
        by (apply elem_of_year_range; lia).
      rewrite E in Hin. set_solver.
    + intros y Hy. apply elem_of_year_range in Hy. lia.
    + unfold years_of_argument. rewrite (range_bounds_minus _ _ _ Hr), Hr.
      reflexivity.
  - unfold list_choice in H.
    destruct (year_list (PyStr.strip typed)) as [years|] eqn:Hl; [|discriminate].
    destruct (forallb _ (elements years)) eqn:Hb; [|discriminate].
    injection H as <-.
    assert (Hbound : forall y, y ∈ years -> (1950 <= y <= 2030)%Z).
    { intros y Hy. rewrite forallb_forall in Hb.
      specialize (Hb y ltac:(apply list_elem_of_In, elem_of_elements; exact Hy)).
      rewrite andb_true_iff, !Z.leb_le in Hb. exact Hb. }
    unfold year_list in Hl.
    destruct (ints (split_on "," (PyStr.strip typed))) as [l|] eqn:Hi; [|discriminate].
    injection Hl as <-.
    split; [|split; [exact Hbound|]].
    + destruct l as [|v l].
      * exfalso. destruct (split_on "," (PyStr.strip typed)) as [|p parts] eqn:Hs.
        -- exact (split_on_go_cons _ _ _ Hs).
        -- cbn [ints] in Hi. destruct (PyInt.of_str (PyStr.strip p)); [|discriminate].
           destruct (ints parts); discriminate.
      * intros E. assert (Hin : v ∈ (list_to_set (v :: l) : gset Z)) by set_solver.
        rewrite E in Hin. set_solver.
    + unfold years_of_argument, year_list.
      assert (Hc : PyStr.contains "-" (PyStr.strip typed) = false).
      { pose proof (split_on_go_contains "-" "," (PyStr.strip typed) EmptyString
                      ltac:(discriminate)) as E.
        fold (split_on "," (PyStr.strip typed)) in E. cbn [PyStr.contains orb] in E.
        rewrite <- E. apply (ints_minus _ l Hi).
        intros v Hv. assert (1950 <= v <= 2030)%Z; [|lia].
        apply Hbound. apply elem_of_list_to_set. exact Hv. }
      rewrite Hc, Hi. reflexivity.
Qed.

Lemma interactive_years_bounded_witness :
  (range_choice " 2020-2022 " = Some (year_range 2020 2022)
   \/ list_choice " 2020-2022 " = Some (year_range 2020 2022))
  /\ years_of_argument (PyStr.strip " 2020-2022 ") = Some (year_range 2020 2022).
Proof.
  assert (H : range_choice " 2020-2022 " = Some (year_range 2020 2022)
              \/ list_choice " 2020-2022 " = Some (year_range 2020 2022)).
  { left. unfold range_choice.
    assert (E : range_bounds (PyStr.strip " 2020-2022 ") = Some (2020%Z, 2022%Z))
      by (vm_compute; reflexivity).
    rewrite E. reflexivity. }
  split; [exact H|].
  exact (proj2 (proj2 (interactive_years_bounded " 2020-2022 "
                         (year_range 2020 2022) H))).
Defined.
